(** * The agent route: request validation and action dispatch

    A shallow embedding of the API route of the Gmail/Notion control panel
    (the [POST] handler and its four action handlers), together with the
    properties of the route that the specification states.

    The route is a validation-and-forwarding layer: every handler parses its
    payload with a zod schema, reads the process environment, and calls one
    of two external SDKs.  The embedding therefore has three layers:

    - JavaScript values as they arrive from [request.json()];
    - the zod combinators the route uses, as functions from a value to
      either a typed result or a list of issues;
    - the handlers, written in an error monad that also records every call
      made to an SDK, against a [World] that answers those calls. *)

From Stdlib Require Import ZArith QArith Lia Ascii String DecimalString.
From stdpp Require Import base option list strings gmap.

Local Open Scope Z_scope.
Local Open Scope string_scope.
Local Open Scope list_scope.
Local Set Warnings "-register-all".

(** ** JavaScript values *)

(** A JavaScript number after [JSON.parse]: a finite double (every finite
    double is a rational, and the checks the route applies to a number are
    exact comparisons) or an infinity ([1e999] parses to [Infinity]). *)
Inductive jsnum :=
| Finite (q : Q)
| Infinite (negative : bool).

Inductive json :=
| JNull
| JBool (b : bool)
| JNum (n : jsnum)
| JStr (s : string)
| JArr (xs : list json)
| JObj (fields : gmap string json).

(** [undefined] is the absence of a value: a missing key, a missing payload. *)
Definition jsvalue := option json.

(** JavaScript truthiness of a string that may be [null] or [undefined]. *)
Definition truthy (s : option string) : bool :=
  match s with
  | Some EmptyString => false
  | Some _ => true
  | None => false
  end.

(** [a ?? b] *)
Definition nullish {A} (a : option A) (b : A) : A :=
  match a with Some x => x | None => b end.

Infix "??" := nullish (at level 45, left associativity).

(** ** zod *)

Module Zod.

(** One step of the path of an issue: a member of an object or an index
    of an array. *)
Inductive seg :=
| Key (k : string)
| Idx (i : nat).

(** The kind of an issue.  The wording of zod's own messages is not
    modelled; the message of a refinement is the route's and is kept. *)
Inductive issue_code :=
| invalid_type
| not_integer
| too_small
| too_big
| invalid_email
| invalid_enum_value
| custom (message : string).

Record issue := Issue { code : issue_code; path : list seg }.

(** The outcome of running a schema: the typed value, or the issues. *)
Inductive result (A : Type) :=
| ok (a : A)
| fail (issues : list issue).
Arguments ok {A} a.
Arguments fail {A} issues.

Definition schema (A : Type) := jsvalue -> result A.

Definition is_ok {A} (r : result A) : bool :=
  match r with ok _ => true | fail _ => false end.

Definition issues_of {A} (r : result A) : list issue :=
  match r with ok _ => [] | fail errs => errs end.

Definition rmap {A B} (f : A -> B) (r : result A) : result B :=
  match r with ok a => ok (f a) | fail errs => fail errs end.

(** Object fields are all parsed; their issues are gathered in field order. *)
Definition ap {A B} (rf : result (A -> B)) (ra : result A) : result B :=
  match rf, ra with
  | ok f, ok a => ok (f a)
  | _, _ => fail (issues_of rf ++ issues_of ra)
  end.

Definition at_seg (s : seg) (i : issue) : issue :=
  {| code := code i; path := s :: path i |}.

Definition under {A} (s : seg) (r : result A) : result A :=
  match r with ok a => ok a | fail errs => fail (map (at_seg s) errs) end.

(** [z.string()] *)
Definition string_ : schema string := fun v =>
  match v with
  | Some (JStr s) => ok s
  | _ => fail [Issue invalid_type []]
  end.

(** [z.boolean()] *)
Definition boolean : schema bool := fun v =>
  match v with
  | Some (JBool b) => ok b
  | _ => fail [Issue invalid_type []]
  end.

(** [z.number()] *)
Definition number : schema jsnum := fun v =>
  match v with
  | Some (JNum n) => ok n
  | _ => fail [Issue invalid_type []]
  end.

(** A chain of checks on a value of the right type: every failing check
    contributes its issue. *)
Definition checks {A} (cs : list ((A -> bool) * issue_code)) (s : schema A)
  : schema A := fun v =>
  match s v with
  | ok a =>
      match omap (fun c : (A -> bool) * issue_code =>
                    if c.1 a then None else Some (Issue c.2 [])) cs with
      | [] => ok a
      | errs => fail errs
      end
  | fail errs => fail errs
  end.

(** [.min(1)] on a string *)
Definition min1 : schema string -> schema string :=
  checks [(fun s => negb (String.eqb s EmptyString), too_small)].

(** [.email()], for a given email pattern *)
Definition email (pattern : string -> bool) : schema string -> schema string :=
  checks [(pattern, invalid_email)].

(** [Number.isInteger] *)
Definition isInteger (n : jsnum) : bool :=
  match n with
  | Finite q => (Qnum q mod Zpos (Qden q) =? 0)%Z
  | Infinite _ => false
  end.

Definition gt0 (n : jsnum) : bool :=
  match n with
  | Finite q => (0 <? Qnum q)%Z
  | Infinite negative => negb negative
  end.

Definition le (bound : Z) (n : jsnum) : bool :=
  match n with
  | Finite q => (Qnum q <=? bound * Zpos (Qden q))%Z
  | Infinite negative => negative
  end.

(** [.int()], [.positive()], [.max(b)] *)
Definition int_ : (jsnum -> bool) * issue_code := (isInteger, not_integer).
Definition positive_ : (jsnum -> bool) * issue_code := (gt0, too_small).
Definition max_ (b : Z) : (jsnum -> bool) * issue_code := (le b, too_big).

(** [.optional()] *)
Definition optional {A} (s : schema A) : schema (option A) := fun v =>
  match v with
  | None => ok None
  | Some _ => rmap Some (s v)
  end.

Fixpoint items {A} (s : schema A) (i : nat) (xs : list json) : result (list A) :=
  match xs with
  | [] => ok []
  | x :: xs' => ap (rmap cons (under (Idx i) (s (Some x)))) (items s (S i) xs')
  end.

(** [z.array(s)] *)
Definition array {A} (s : schema A) : schema (list A) := fun v =>
  match v with
  | Some (JArr xs) => items s 0%nat xs
  | _ => fail [Issue invalid_type []]
  end.

(** [z.enum(tags)] *)
Definition enum (tags : list string) : schema string := fun v =>
  match v with
  | Some (JStr s) =>
      if existsb (String.eqb s) tags then ok s
      else fail [Issue invalid_enum_value []]
  | _ => fail [Issue invalid_enum_value []]
  end.

(** [z.record(z.string(), z.any())]: any object, with whatever members. *)
Definition record_any : schema (gmap string json) := fun v =>
  match v with
  | Some (JObj o) => ok o
  | _ => fail [Issue invalid_type []]
  end.

(** [z.object({...})]: the value must be an object; [shape] parses its
    members (unknown members are dropped). *)
Definition object {A} (shape : gmap string json -> result A) : schema A := fun v =>
  match v with
  | Some (JObj o) => shape o
  | _ => fail [Issue invalid_type []]
  end.

(** One member of an object shape. *)
Definition field {A} (k : string) (s : schema A) (o : gmap string json) : result A :=
  under (Key k) (s (o !! k)).

(** [.refine(p, {message, path})]: the predicate runs on a value that parsed. *)
Definition refine {A} (p : A -> bool) (message : string) (where_ : list seg)
    (s : schema A) : schema A := fun v =>
  match s v with
  | ok a => if p a then ok a else fail [Issue (custom message) where_]
  | fail errs => fail errs
  end.

(** The email pattern of zod as a matcher: the address does not start
    with a dot and has no two dots in a row; the local part is made of
    letters, digits and the characters _ + - (and, except in last
    position, the apostrophe and the dot); the domain is one or more
    labels (a letter or digit, then letters, digits or hyphens), each
    followed by a dot, and then two or more letters.  The route's
    properties do not depend on it. *)
Definition between (lo hi : nat) (c : ascii) : bool :=
  let n := nat_of_ascii c in ((lo <=? n) && (n <=? hi))%nat.

Definition isAlpha (c : ascii) : bool := between 65 90 c || between 97 122 c.
Definition isAlnum (c : ascii) : bool := isAlpha c || between 48 57 c.
Definition oneOf (cs : string) (c : ascii) : bool :=
  existsb (Ascii.eqb c) (list_ascii_of_string cs).

Fixpoint splitOn (sep : ascii) (s : list ascii) : list (list ascii) :=
  match s with
  | [] => [[]]
  | c :: s' =>
      match splitOn sep s' with
      | part :: parts =>
          if Ascii.eqb c sep then [] :: part :: parts
          else (c :: part) :: parts
      | [] => [[c]]
      end
  end.

Fixpoint twoDots (s : list ascii) : bool :=
  match s with
  | c :: (d :: _) as s' => (Ascii.eqb c "." && Ascii.eqb d ".") || twoDots s'
  | _ => false
  end.

Definition localPart (l : list ascii) : bool :=
  forallb (fun c => isAlnum c || oneOf "_'+-." c) l
  && match last l with
     | Some c => isAlnum c || oneOf "_+-" c
     | None => false
     end.

Definition domainLabel (l : list ascii) : bool :=
  match l with
  | c :: r => isAlnum c && forallb (fun d => isAlnum d || oneOf "-" d) r
  | [] => false
  end.

Definition domainPart (d : list ascii) : bool :=
  match rev (splitOn "." d) with
  | tld :: (_ :: _) as labels =>
      (2 <=? length tld)%nat && forallb isAlpha tld && forallb domainLabel labels
  | _ => false
  end.

Definition emailRegex (s : string) : bool :=
  let cs := list_ascii_of_string s in
  negb (match cs with c :: _ => Ascii.eqb c "." | [] => false end)
  && negb (twoDots cs)
  && match splitOn "@" cs with
     | [l; d] => localPart l && domainPart d
     | _ => false
     end.

End Zod.

(** ** Effects: thrown values and the calls made to the two SDKs *)

(** What a [throw] (or a rejected promise) carries.  The route tells a
    [ZodError] from any other [Error], and an [Error] from anything else. *)
Inductive thrown :=
| ZodError (issues : list Zod.issue)
| Error (message : string)
| NotAnError.

(** A "contains" filter on one named property:
    [{ property, rich_text: { contains } }]. *)
Record Filter := { property : string; contains : string }.

(** Every use the route makes of an SDK.  The two client constructions are
    local; the other five are network calls. *)
Inductive call :=
| GmailClient (clientId clientSecret redirectUri refresh_token : string)
| NotionClient (auth : string)
| MessagesList (maxResults : jsnum) (labelIds : option (list string))
    (includeSpamTrash : option bool)
| MessagesGet (id : string)
| MessagesSend (raw : string)
| DataSourcesQuery (data_source_id : string) (page_size : jsnum)
    (filter : option Filter)
| PagesCreate (database_id title content : string).

(** A computation either throws or returns, and extends the log of calls. *)
Definition Eff (A : Type) := list call -> (thrown + A) * list call.

Definition ret {A} (a : A) : Eff A := fun log => (inr a, log).

Definition throw {A} (e : thrown) : Eff A := fun log => (inl e, log).

Definition bind {A B} (k : A -> Eff B) (m : Eff A) : Eff B := fun log =>
  match m log with
  | (inr a, log') => k a log'
  | (inl e, log') => (inl e, log')
  end.

#[global] Instance Eff_ret : MRet Eff := @ret.
#[global] Instance Eff_bind : MBind Eff := @bind.

(** Issue a call and await the answer the world gives. *)
Definition perform {A} (c : call) (answer : thrown + A) : Eff A := fun log =>
  (answer, log ++ [c]).

(** [schema.parse(v)]: the value, or a thrown [ZodError]. *)
Definition parse {A} (s : Zod.schema A) (v : jsvalue) : Eff A :=
  match s v with
  | Zod.ok a => ret a
  | Zod.fail errs => throw (ZodError errs)
  end.

(** [Promise.all]: every promise is started, in order; the results keep the
    positions of the promises.  If some promise rejects, the whole rejects
    (the model reports the first rejection in list order; which rejection
    comes first in time is not modelled). *)
Fixpoint promise_all {A} (ps : list (Eff A)) : Eff (list A) := fun log =>
  match ps with
  | [] => (inr [], log)
  | p :: ps' =>
      let '(r, log1) := p log in
      let '(rs, log2) := promise_all ps' log1 in
      (match r, rs with
       | inr a, inr l => inr (a :: l)
       | inl e, _ => inl e
       | inr _, inl e => inl e
       end, log2)
  end.

(** ** The world outside the route *)

(** [Schema$Message] of the list response: both members may be missing
    ([null] and [undefined] are not told apart). *)
Record MessageRef := { msg_id : option string; msg_threadId : option string }.

Record Header := { h_name : option string; h_value : option string }.

(** The part of a [messages.get] response the route reads:
    [data.snippet] and [data.payload?.headers]. *)
Record MessageData := {
  snippet : option string;
  payload_headers : option (list Header)
}.

(** An item of a query response.  A full page or data source has the
    members below; a partial one has only [object] and [id]. *)
Record FullObject := {
  url : string;
  created_time : string;
  last_edited_time : string;
  properties : json
}.

Record QueryItem := {
  object : string;
  item_id : string;
  full : option FullObject
}.

(** The response of [pages.create]: a full page has a [url], a partial
    page has not. *)
Record CreatedPage := { created_id : string; created_url : option string }.

Record World := {
  process_env : gmap string string;
  messages_list :
    jsnum -> option (list string) -> option bool ->
    thrown + option (list MessageRef);
  messages_get : string -> thrown + MessageData;
  messages_send : string -> thrown + json;
  dataSources_query :
    string -> jsnum -> option Filter -> thrown + list QueryItem;
  pages_create : string -> string -> string -> thrown + CreatedPage
}.

(** [process.env] as the object the environment schemas parse. *)
Definition env_object (w : World) : jsvalue :=
  Some (JObj (JStr <$> process_env w)).

(** An object literal; a member whose value is [undefined] does not reach
    the JSON response. *)
Definition obj (members : list (string * jsvalue)) : json :=
  JObj (list_to_map (omap (fun m : string * jsvalue => pair m.1 <$> m.2) members)).

Definition str (s : string) : jsvalue := Some (JStr s).

(** ** Strings *)

Definition CR : ascii := "013".
Definition LF : ascii := "010".
Definition DQUOTE : ascii := "034".
Definition CRLF : string := String CR (String LF EmptyString).

(** [parts.join(sep)] *)
Fixpoint join (sep : string) (parts : list string) : string :=
  match parts with
  | [] => EmptyString
  | [p] => p
  | p :: rest => p +:+ sep +:+ join sep rest
  end.

(** ** Base64 *)

Module Base64.

Definition standard : string :=
  "ABCDEFGHIJKLMNOPQRSTUVWXYZabcdefghijklmnopqrstuvwxyz0123456789+/".

Definition urlsafe : string :=
  "ABCDEFGHIJKLMNOPQRSTUVWXYZabcdefghijklmnopqrstuvwxyz0123456789-_".

Definition PAD : ascii := "=".

Definition byte (c : ascii) : Z := Z.of_N (N_of_ascii c).

(** The character of a 6-bit group. *)
Definition digit (alphabet : string) (n : Z) : ascii :=
  nth (Z.to_nat n) (list_ascii_of_string alphabet) PAD.

(** The [k]-th 6-bit group (from the right) of a 24-bit group. *)
Definition sextet (group : Z) (k : Z) : Z :=
  Z.land (Z.shiftr group (6 * k)) 63.

Definition padding (pad : bool) (n : nat) : list ascii :=
  if pad then replicate n PAD else [].

(** RFC 4648: three bytes make four characters; a final group of one or
    two bytes makes two or three characters, and is padded with [=] to
    four when padding is on. *)
Fixpoint encode (alphabet : string) (pad : bool) (bytes : list ascii) : list ascii :=
  match bytes with
  | [] => []
  | [a] =>
      let g := Z.shiftl (byte a) 16 in
      [digit alphabet (sextet g 3); digit alphabet (sextet g 2)]
        ++ padding pad 2
  | [a; b] =>
      let g := Z.lor (Z.shiftl (byte a) 16) (Z.shiftl (byte b) 8) in
      [digit alphabet (sextet g 3); digit alphabet (sextet g 2);
       digit alphabet (sextet g 1)] ++ padding pad 1
  | a :: b :: c :: rest =>
      let g := Z.lor (Z.lor (Z.shiftl (byte a) 16) (Z.shiftl (byte b) 8)) (byte c) in
      [digit alphabet (sextet g 3); digit alphabet (sextet g 2);
       digit alphabet (sextet g 1); digit alphabet (sextet g 0)]
        ++ encode alphabet pad rest
  end.

(** [buffer.toString("base64")]: the standard alphabet, padded. *)
Definition toString_base64 (bytes : list ascii) : list ascii :=
  encode standard true bytes.

(** The base64url encoding of RFC 4648, section 5, written without padding. *)
Definition base64url (bytes : list ascii) : list ascii :=
  encode urlsafe false bytes.

End Base64.

(** [s.replace(/c/g, d)] for a single character [c] *)
Definition substitute (c d x : ascii) : ascii :=
  if Ascii.eqb x c then d else x.

Definition replaceAll (c d : ascii) (s : list ascii) : list ascii :=
  map (substitute c d) s.

(** [s.replace(/c+$/, empty)]: the trailing run of [c] is removed. *)
Fixpoint stripTrailing (c : ascii) (s : list ascii) : list ascii :=
  match s with
  | [] => []
  | x :: s' =>
      match stripTrailing c s' with
      | [] => if Ascii.eqb x c then [] else [x]
      | r => x :: r
      end
  end.

(** ** The route *)

Section Route.

(** The pattern behind zod's [.email()]; it belongs to zod, not to the route. *)
Variable emailPattern : string -> bool.

Definition actions : list string :=
  ["gmail.listMessages"; "gmail.sendMessage"; "notion.listPages"; "notion.createPage"].

Record Request := { action : string; payload : option (gmap string json) }.

Definition requestSchema : Zod.schema Request :=
  Zod.object (fun o =>
    Zod.ap (Zod.rmap Build_Request
      (Zod.field "action" (Zod.enum actions) o))
      (Zod.field "payload" (Zod.optional Zod.record_any) o)).

Record GmailEnv := {
  GOOGLE_CLIENT_ID : string;
  GOOGLE_CLIENT_SECRET : string;
  GOOGLE_REFRESH_TOKEN : string;
  GOOGLE_REDIRECT_URI : string
}.

Definition gmailEnvSchema : Zod.schema GmailEnv :=
  Zod.object (fun o =>
    Zod.ap (Zod.ap (Zod.ap (Zod.rmap Build_GmailEnv
      (Zod.field "GOOGLE_CLIENT_ID" (Zod.min1 Zod.string_) o))
      (Zod.field "GOOGLE_CLIENT_SECRET" (Zod.min1 Zod.string_) o))
      (Zod.field "GOOGLE_REFRESH_TOKEN" (Zod.min1 Zod.string_) o))
      (Zod.field "GOOGLE_REDIRECT_URI" (Zod.min1 Zod.string_) o)).

Record NotionEnv := {
  NOTION_API_KEY : string;
  NOTION_DATABASE_ID : string;
  NOTION_DATA_SOURCE_ID : string
}.

Definition notionEnvSchema : Zod.schema NotionEnv :=
  Zod.object (fun o =>
    Zod.ap (Zod.ap (Zod.rmap Build_NotionEnv
      (Zod.field "NOTION_API_KEY" (Zod.min1 Zod.string_) o))
      (Zod.field "NOTION_DATABASE_ID" (Zod.min1 Zod.string_) o))
      (Zod.field "NOTION_DATA_SOURCE_ID" (Zod.min1 Zod.string_) o)).

Definition gmailEnvMissing : string :=
  "Missing required Gmail environment variables. Ensure GOOGLE_CLIENT_ID, GOOGLE_CLIENT_SECRET, GOOGLE_REFRESH_TOKEN, and GOOGLE_REDIRECT_URI are set.".

Definition notionEnvMissing : string :=
  "Missing required Notion environment variables. Ensure NOTION_API_KEY and NOTION_DATABASE_ID are set.".

(** [safeParse] does not throw; the client is built from the parsed
    environment, without touching the network. *)
Definition getGmailClient (w : World) : Eff unit :=
  match gmailEnvSchema (env_object w) with
  | Zod.fail _ => throw (Error gmailEnvMissing)
  | Zod.ok env =>
      perform
        (GmailClient (GOOGLE_CLIENT_ID env) (GOOGLE_CLIENT_SECRET env)
           (GOOGLE_REDIRECT_URI env) (GOOGLE_REFRESH_TOKEN env))
        (inr ())
  end.

Definition getNotionClient (w : World) : Eff unit :=
  match notionEnvSchema (env_object w) with
  | Zod.fail _ => throw (Error notionEnvMissing)
  | Zod.ok env => perform (NotionClient (NOTION_API_KEY env)) (inr ())
  end.

(** *** gmail.listMessages *)

Record ListMessagesParams := {
  maxResults : option jsnum;
  labelIds : option (list string);
  includeSpamTrash : option bool
}.

(** [z.number().int().positive().max(20).optional()], which the schemas of
    both listing actions spell out, for [maxResults] and for [pageSize]. *)
Definition sizeSchema : Zod.schema (option jsnum) :=
  Zod.optional
    (Zod.checks [Zod.int_; Zod.positive_; Zod.max_ 20] Zod.number).

Definition listMessagesSchema : Zod.schema (option ListMessagesParams) :=
  Zod.optional (Zod.object (fun o =>
    Zod.ap (Zod.ap (Zod.rmap Build_ListMessagesParams
      (Zod.field "maxResults" sizeSchema o))
      (Zod.field "labelIds" (Zod.optional (Zod.array Zod.string_)) o))
      (Zod.field "includeSpamTrash" (Zod.optional Zod.boolean) o))).

(** The [reduce] over the headers of one message. *)
Definition collectHeaders (hs : list Header) : gmap string string :=
  foldl (fun acc h =>
           match h_name h, h_value h with
           | Some name, Some value =>
               if truthy (Some name) && truthy (Some value)
               then <[name := value]> acc else acc
           | _, _ => acc
           end) ∅ hs.

(** The body of the [map] callback: [null] for a message without an
    identifier, otherwise one [messages.get] and the reshaped message. *)
Definition messageDetail (w : World) (message : MessageRef) : Eff (option json) :=
  match msg_id message with
  | Some id =>
      if negb (truthy (Some id)) then mret None
      else
        result ← perform (MessagesGet id) (messages_get w id);
        let headers :=
          (collectHeaders <$> payload_headers result) ?? ∅ in
        mret (Some (obj [
          ("id", str id);
          ("threadId", JStr <$> msg_threadId message);
          ("snippet", JStr <$> snippet result);
          ("headers", Some (JObj (JStr <$> headers)))]))
  | None => mret None
  end.

Definition handleListMessages (w : World) (payload : jsvalue) : Eff json :=
  parsed ← parse listMessagesSchema payload;
  let params := parsed ?? Build_ListMessagesParams None None None in
  _ ← getGmailClient w;
  let size := maxResults params ?? Finite 10 in
  response ← perform
    (MessagesList size (labelIds params) (includeSpamTrash params))
    (messages_list w size (labelIds params) (includeSpamTrash params));
  let messages := response ?? [] in
  detailedMessages ← promise_all (map (messageDetail w) messages);
  mret (obj [("messages", Some (JArr (omap id detailedMessages)))]).

(** *** gmail.sendMessage *)

Record SendMessageParams := { to : string; subject : string; body : string }.

Definition sendMessageSchema : Zod.schema SendMessageParams :=
  Zod.object (fun o =>
    Zod.ap (Zod.ap (Zod.rmap Build_SendMessageParams
      (Zod.field "to" (Zod.email emailPattern Zod.string_) o))
      (Zod.field "subject" (Zod.min1 Zod.string_) o))
      (Zod.field "body" (Zod.min1 Zod.string_) o)).

(** The literal [Content-Type: text/plain; charset="UTF-8"] *)
Definition contentType : string :=
  "Content-Type: text/plain; charset="
    +:+ String DQUOTE ("UTF-8" +:+ String DQUOTE EmptyString).

Definition rawMessage (params : SendMessageParams) : string :=
  join CRLF [
    "To: " +:+ to params;
    "Subject: " +:+ subject params;
    contentType;
    EmptyString;
    body params].

(** [Buffer.from(s)] gives the bytes of [s]: strings are kept here in their
    UTF-8 encoding. *)
Definition encodedMessage (raw : string) : string :=
  string_of_list_ascii
    (stripTrailing "="
       (replaceAll "/" "_"
          (replaceAll "+" "-"
             (Base64.toString_base64 (list_ascii_of_string raw))))).

Definition handleSendMessage (w : World) (payload : jsvalue) : Eff json :=
  params ← parse sendMessageSchema payload;
  _ ← getGmailClient w;
  let encoded := encodedMessage (rawMessage params) in
  _ ← perform (MessagesSend encoded) (messages_send w encoded);
  mret (obj [("status", str "sent")]).

(** *** notion.listPages *)

Record ListPagesParams := {
  pageSize : option jsnum;
  filterProperty : option string;
  filterValue : option string
}.

Definition filterComplete (data : ListPagesParams) : bool :=
  negb (truthy (filterProperty data))
  || (truthy (filterProperty data) && truthy (filterValue data)).

Definition listPagesSchema : Zod.schema ListPagesParams :=
  Zod.refine filterComplete
    "filterValue must be provided when filterProperty is set."
    [Zod.Key "filterValue"]
    (Zod.object (fun o =>
      Zod.ap (Zod.ap (Zod.rmap Build_ListPagesParams
        (Zod.field "pageSize" sizeSchema o))
        (Zod.field "filterProperty" (Zod.optional Zod.string_) o))
        (Zod.field "filterValue" (Zod.optional Zod.string_) o))).

Definition pageFilter (params : ListPagesParams) : option Filter :=
  match filterProperty params, filterValue params with
  | Some p, Some v =>
      if truthy (Some p) && truthy (Some v)
      then Some {| property := p; contains := v |}
      else None
  | _, _ => None
  end.

(** [isFullPageOrDataSource], then [item.object === "page"], then the
    reshaping of each page. *)
Definition pageSummary (item : QueryItem) : option json :=
  match full item with
  | Some page =>
      if String.eqb (object item) "page"
      then Some (obj [
        ("id", str (item_id item));
        ("url", str (url page));
        ("createdTime", str (created_time page));
        ("lastEditedTime", str (last_edited_time page));
        ("properties", Some (properties page))])
      else None
  | None => None
  end.

Definition handleListPages (w : World) (payload : jsvalue) : Eff json :=
  params ← parse listPagesSchema (Some (payload ?? JObj ∅));
  env ← parse notionEnvSchema (env_object w);
  _ ← getNotionClient w;
  let filter := pageFilter params in
  let size := pageSize params ?? Finite 10 in
  response ← perform
    (DataSourcesQuery (NOTION_DATA_SOURCE_ID env) size filter)
    (dataSources_query w (NOTION_DATA_SOURCE_ID env) size filter);
  mret (obj [("pages", Some (JArr (omap pageSummary response)))]).

(** *** notion.createPage *)

Record CreatePageParams := { title : string; content : string }.

Definition createPageSchema : Zod.schema CreatePageParams :=
  Zod.object (fun o =>
    Zod.ap (Zod.rmap Build_CreatePageParams
      (Zod.field "title" (Zod.min1 Zod.string_) o))
      (Zod.field "content" (Zod.min1 Zod.string_) o)).

Definition handleCreatePage (w : World) (payload : jsvalue) : Eff json :=
  params ← parse createPageSchema payload;
  env ← parse notionEnvSchema (env_object w);
  _ ← getNotionClient w;
  response ← perform
    (PagesCreate (NOTION_DATABASE_ID env) (title params) (content params))
    (pages_create w (NOTION_DATABASE_ID env) (title params) (content params));
  let pageUrl :=
    match created_url response with
    | Some u => JStr u
    | None => JNull
    end in
  mret (obj [("pageId", str (created_id response)); ("url", Some pageUrl)]).

(** *** POST *)

(** The message of the JSON error envelope.  The message of a [ZodError]
    is the JSON text of its issues; the envelope keeps the issues. *)
Inductive message :=
| Issues (issues : list Zod.issue)
| Text (text : string).

Inductive responseBody :=
| Data (value : json)
| ErrorEnvelope (error : message).

Record Response := { status : Z; envelope : responseBody }.

Definition dispatch (w : World) (parsed : Request) : Eff Response :=
  let unknown := JObj <$> payload parsed in
  let json_ (m : Eff json) : Eff Response :=
    value ← m; mret {| status := 200; envelope := Data value |} in
  if String.eqb (action parsed) "gmail.listMessages" then
    json_ (handleListMessages w unknown)
  else if String.eqb (action parsed) "gmail.sendMessage" then
    json_ (handleSendMessage w unknown)
  else if String.eqb (action parsed) "notion.listPages" then
    json_ (handleListPages w unknown)
  else if String.eqb (action parsed) "notion.createPage" then
    json_ (handleCreatePage w unknown)
  else
    mret {| status := 400;
            envelope := ErrorEnvelope (Text "Unsupported action") |}.

(** The [catch] block: what was thrown decides the status. *)
Definition respond (outcome : (thrown + Response) * list call)
  : Response * list call :=
  match outcome with
  | (inr response, log) => (response, log)
  | (inl (ZodError issues), log) =>
      ({| status := 400; envelope := ErrorEnvelope (Issues issues) |}, log)
  | (inl (Error message), log) =>
      ({| status := 500; envelope := ErrorEnvelope (Text message) |}, log)
  | (inl NotAnError, log) =>
      ({| status := 500;
          envelope :=
            ErrorEnvelope (Text "Unexpected error while handling request.") |},
       log)
  end.

(** [requestBody] is the outcome of [request.json()]: the parsed body, or
    what it throws on a body that is not JSON.  The result is the HTTP
    response together with the calls that were made. *)
Definition POST (w : World) (requestBody : thrown + json) : Response * list call :=
  respond
    ((body ← (fun log => (requestBody, log));
      parsed ← parse requestSchema (Some body);
      dispatch w parsed) []).

End Route.

(** ** Words of the specification *)

(** A configuration variable is set when it is present and not empty. *)
Definition variable_set (w : World) (name value : string) : Prop :=
  process_env w !! name = Some value ∧ value ≠ EmptyString.

(** The four variables of the mail service, and the three of the document
    service. *)
Definition gmail_configured (w : World) (env : GmailEnv) : Prop :=
  variable_set w "GOOGLE_CLIENT_ID" (GOOGLE_CLIENT_ID env)
  ∧ variable_set w "GOOGLE_CLIENT_SECRET" (GOOGLE_CLIENT_SECRET env)
  ∧ variable_set w "GOOGLE_REFRESH_TOKEN" (GOOGLE_REFRESH_TOKEN env)
  ∧ variable_set w "GOOGLE_REDIRECT_URI" (GOOGLE_REDIRECT_URI env).

Definition notion_configured (w : World) (env : NotionEnv) : Prop :=
  variable_set w "NOTION_API_KEY" (NOTION_API_KEY env)
  ∧ variable_set w "NOTION_DATABASE_ID" (NOTION_DATABASE_ID env)
  ∧ variable_set w "NOTION_DATA_SOURCE_ID" (NOTION_DATA_SOURCE_ID env).

(** A request body [{action, payload}]; [payload] may be left out. *)
Definition is_request (o : gmap string json) (a : string)
    (p : option (gmap string json)) : Prop :=
  o !! "action" = Some (JStr a) ∧ o !! "payload" = JObj <$> p.

(** The response reports an issue on member [k] of the payload. *)
Definition reports (r : Response) (k : string) : Prop :=
  ∃ issues i,
    envelope r = ErrorEnvelope (Issues issues)
    ∧ In i issues ∧ Zod.path i = [Zod.Key k].

(** A schema result that fails, with [i] among its issues. *)
Definition fails_with {A} (r : Zod.result A) (i : Zod.issue) : Prop :=
  exists errs, r = Zod.fail errs /\ In i errs.

(** The members each action's schema requires. *)
Definition required (a : string) : list string :=
  if String.eqb a "gmail.sendMessage" then ["to"; "subject"; "body"]
  else if String.eqb a "notion.createPage" then ["title"; "content"]
  else [].

(** The number carried by a size member, when it is one. *)
Definition numberOf (v : jsvalue) : option jsnum :=
  match v with
  | Some (JNum n) => Some n
  | _ => None
  end.

(** The size that is requested: the member, or 10 when it is left out. *)
Definition requestedSize (v : jsvalue) : jsnum := numberOf v ?? Finite 10.

(** An integer between 1 and 20. *)
Definition integer_1_to_20 (v : json) : Prop :=
  exists q k, v = JNum (Finite q) /\ 1 <= k <= 20 /\ (q == inject_Z k)%Q.

(** The identifiers of the messages of a listing that have one, in the
    order of the listing.  (The route takes an identifier that is the
    empty string for a missing one.) *)
Definition identified (listing : list MessageRef) : list string :=
  omap (fun m => if truthy (msg_id m) then msg_id m else None) listing.

(** The [id] member of an item of the result. *)
Definition itemId (item : json) : option string :=
  match item with
  | JObj members =>
      match members !! "id" with
      | Some (JStr s) => Some s
      | _ => None
      end
  | _ => None
  end.

(** [n] items are at most [size] items. *)
Definition within (n : nat) (size : jsnum) : Prop :=
  match size with
  | Finite q => (inject_Z (Z.of_nat n) <= q)%Q
  | Infinite negative => negative = false
  end.

(** The size a call asks for, if it is one of the two listing calls. *)
Definition sizeOf (c : call) : option jsnum :=
  match c with
  | MessagesList n _ _ => Some n
  | DataSourcesQuery _ n _ => Some n
  | _ => None
  end.

(** The size member of the two listing actions. *)
Definition sizeMember (a : string) : option string :=
  if String.eqb a "gmail.listMessages" then Some "maxResults"
  else if String.eqb a "notion.listPages" then Some "pageSize"
  else None.

(** The schema of a listing action accepts the payload object. *)
Definition listingAccepts (a : string) (p : gmap string json) : bool :=
  if String.eqb a "gmail.listMessages"
  then Zod.is_ok (listMessagesSchema (Some (JObj p)))
  else if String.eqb a "notion.listPages"
  then Zod.is_ok (listPagesSchema (Some (JObj p)))
  else false.

(** The service behind a listing action is configured. *)
Definition configured (w : World) (a : string) : Prop :=
  if String.eqb a "gmail.listMessages"
  then exists env, gmail_configured w env
  else exists env, notion_configured w env.

(** The issue raised when [filterProperty] comes without [filterValue]. *)
Definition filterValueMissing : Zod.issue :=
  Zod.Issue
    (Zod.custom "filterValue must be provided when filterProperty is set.")
    [Zod.Key "filterValue"].

(** The issue raised for an action tag outside the enumeration. *)
Definition unsupported : Zod.issue :=
  Zod.Issue Zod.invalid_enum_value [Zod.Key "action"].

(** ** Samples *)

Module Sample.

Definition env : gmap string string :=
  list_to_map [
    ("GOOGLE_CLIENT_ID", "client"); ("GOOGLE_CLIENT_SECRET", "secret");
    ("GOOGLE_REFRESH_TOKEN", "token"); ("GOOGLE_REDIRECT_URI", "http://localhost");
    ("NOTION_API_KEY", "key"); ("NOTION_DATABASE_ID", "db");
    ("NOTION_DATA_SOURCE_ID", "ds")].

Definition gmailEnv : GmailEnv :=
  Build_GmailEnv "client" "secret" "token" "http://localhost".

Definition notionEnv : NotionEnv := Build_NotionEnv "key" "db" "ds".

Definition listing : list MessageRef := [
  {| msg_id := Some "m1"; msg_threadId := Some "t1" |};
  {| msg_id := None; msg_threadId := Some "t2" |};
  {| msg_id := Some "m3"; msg_threadId := None |}].

(** A world in which every call succeeds. *)
Definition world (variables : gmap string string) : World := {|
  process_env := variables;
  messages_list := fun _ _ _ => inr (Some listing);
  messages_get := fun id =>
    inr {| snippet := Some "hello";
           payload_headers :=
             Some [ {| h_name := Some "From"; h_value := Some "a@example.com" |};
                    {| h_name := Some "Subject"; h_value := None |} ] |};
  messages_send := fun _ => inr JNull;
  dataSources_query := fun _ _ _ =>
    inr [ {| object := "page"; item_id := "p1";
             full := Some {| url := "https://notion.so/p1";
                             created_time := "2025-01-01";
                             last_edited_time := "2025-01-02";
                             properties := JObj ∅ |} |};
          {| object := "page"; item_id := "p2"; full := None |} ];
  pages_create := fun _ _ _ =>
    inr {| created_id := "p9"; created_url := Some "https://notion.so/p9" |}
|}.

Definition members (l : list (string * json)) : gmap string json :=
  list_to_map l.

Definition request (a : string) (p : option (gmap string json)) : gmap string json :=
  members (("action", JStr a) :: match p with
                                 | Some m => [("payload", JObj m)]
                                 | None => []
                                 end).

(** Payloads. *)
Definition noBody : gmap string json :=
  members [("to", JStr "a@example.com"); ("subject", JStr "Hi")].

Definition badRecipient : gmap string json :=
  members [("to", JStr "not-an-email"); ("subject", JStr "Hi");
           ("body", JStr "Hello")].

Definition mail : gmap string json :=
  members [("to", JStr "a@example.com"); ("subject", JStr "Hi");
           ("body", JStr "Hello")].

Definition newPage : gmap string json :=
  members [("title", JStr "Notes"); ("content", JStr "First line")].

Definition propertyOnly : gmap string json :=
  members [("filterProperty", JStr "Status")].

Definition propertyAndValue : gmap string json :=
  members [("filterProperty", JStr "Status"); ("filterValue", JStr "Done")].

Definition emptyProperty : gmap string json :=
  members [("filterProperty", JStr EmptyString)].

Definition emptyValue : gmap string json :=
  members [("filterProperty", JStr "Status"); ("filterValue", JStr EmptyString)].

Definition valueOnly : gmap string json :=
  members [("filterValue", JStr "Done")].

Definition tooMany : gmap string json :=
  members [("maxResults", JNum (Finite 21))].

End Sample.

(** ** The four actions together *)

(** The schema of the action accepts the payload the handler is given. *)
Definition payloadAccepted (emailPattern : string -> bool) (a : string)
    (p : option (gmap string json)) : bool :=
  if String.eqb a "gmail.listMessages"
  then Zod.is_ok (listMessagesSchema (JObj <$> p))
  else if String.eqb a "gmail.sendMessage"
  then Zod.is_ok (sendMessageSchema emailPattern (JObj <$> p))
  else if String.eqb a "notion.listPages"
  then Zod.is_ok (listPagesSchema (Some ((JObj <$> p) ?? JObj ∅)))
  else if String.eqb a "notion.createPage"
  then Zod.is_ok (createPageSchema (JObj <$> p))
  else false.

(** The service behind the action has all its variables set. *)
Definition serviceConfigured (w : World) (a : string) : Prop :=
  if String.eqb a "gmail.listMessages" || String.eqb a "gmail.sendMessage"
  then exists env, gmail_configured w env
  else exists env, notion_configured w env.

(** A world in which every call to an SDK is rejected with [e]. *)
Definition rejects_all (w : World) (e : thrown) : Prop :=
  (forall n l s, messages_list w n l s = inl e)
  /\ (forall id, messages_get w id = inl e)
  /\ (forall raw, messages_send w raw = inl e)
  /\ (forall d n f, dataSources_query w d n f = inl e)
  /\ (forall d t c, pages_create w d t c = inl e).

(** What the catch block reports for a thrown value that is no [ZodError]. *)
Definition surfaced (e : thrown) : string :=
  match e with
  | Error m => m
  | _ => "Unexpected error while handling request."
  end.

(** A variable that is absent, or present and empty. *)
Definition variable_unset (w : World) (name : string) : Prop :=
  process_env w !! name = None \/ process_env w !! name = Some EmptyString.

(** A full page among the items of a query response. *)
Definition fullPage (item : QueryItem) : bool :=
  match full item with
  | Some _ => String.eqb (object item) "page"
  | None => false
  end.


(** ** Decoding base64url *)

(** The decoder of RFC 4648, section 5, for text without padding: what
    the receiver of the raw message applies.  It is here to state that
    the encoding of the route loses nothing. *)
Module Base64url.

Fixpoint position (c : ascii) (l : list ascii) (i : Z) : Z :=
  match l with
  | [] => 0
  | x :: l' => if Ascii.eqb x c then i else position c l' (i + 1)
  end.

(** The 6-bit group of a character. *)
Definition index (c : ascii) : Z :=
  position c (list_ascii_of_string Base64.urlsafe) 0.

(** Four 6-bit groups make a 24-bit group. *)
Definition regroup (s3 s2 s1 s0 : Z) : Z :=
  Z.lor (Z.lor (Z.lor (Z.shiftl s3 18) (Z.shiftl s2 12)) (Z.shiftl s1 6)) s0.

(** The [k]-th byte (from the right) of a 24-bit group. *)
Definition byteAt (group : Z) (k : Z) : ascii :=
  ascii_of_N (Z.to_N (Z.land (Z.shiftr group (8 * k)) 255)).

Fixpoint decode (chars : list ascii) : list ascii :=
  match chars with
  | c3 :: c2 :: c1 :: c0 :: rest =>
      let g := regroup (index c3) (index c2) (index c1) (index c0) in
      [byteAt g 2; byteAt g 1; byteAt g 0] ++ decode rest
  | [c3; c2; c1] =>
      let g := regroup (index c3) (index c2) (index c1) 0 in
      [byteAt g 2; byteAt g 1]
  | [c3; c2] =>
      let g := regroup (index c3) (index c2) 0 0 in
      [byteAt g 2]
  | _ => []
  end.

End Base64url.

Definition decodedMessage (encoded : string) : string :=
  string_of_list_ascii (Base64url.decode (list_ascii_of_string encoded)).

(** A character that needs no escaping in a URL: a letter, a digit, [-]
    or [_]. *)
Definition urlSafeChar (c : ascii) : bool :=
  Zod.isAlnum c || Zod.oneOf "-_" c.

(** ** The control panel *)

(** The page that calls the route.  What it takes from JavaScript itself
    is kept apart: [String.prototype.trim], [Number(s)] (with [None] for
    [NaN]) and [Number.prototype.toString]. *)
Record Builtins := {
  trim : string -> string;
  toNumber : string -> option jsnum;
  numberToString : jsnum -> string
}.

(** [s.split(sep)] for a separator of one character *)
Definition split (sep : ascii) (s : string) : list string :=
  map string_of_list_ascii (Zod.splitOn sep (list_ascii_of_string s)).

(** A value of the form state: [string | number | boolean]. *)
Inductive formValue :=
| FormBoolean (b : bool)
| FormNumber (n : jsnum)
| FormString (s : string).

Definition DEFAULT_PAYLOADS (action : string) : list (string * formValue) :=
  if String.eqb action "gmail.listMessages" then
    [("maxResults", FormNumber (Finite 5));
     ("labelIds", FormString EmptyString);
     ("includeSpamTrash", FormBoolean false)]
  else if String.eqb action "gmail.sendMessage" then
    [("to", FormString EmptyString);
     ("subject", FormString "Hello from the agent");
     ("body", FormString
        ("Hi there," +:+ String LF (String LF
           ("This message was sent from your agent." +:+ String LF EmptyString))))]
  else if String.eqb action "notion.listPages" then
    [("pageSize", FormNumber (Finite 5));
     ("filterProperty", FormString EmptyString);
     ("filterValue", FormString EmptyString)]
  else if String.eqb action "notion.createPage" then
    [("title", FormString "Agent generated entry");
     ("content", FormString "This content was created by the Gmail + Notion agent.")]
  else [].

(** [{ ...prev, [key]: value }]: a member that is there keeps its place. *)
Fixpoint setMember (key : string) (value : formValue)
    (prev : list (string * formValue)) : list (string * formValue) :=
  match prev with
  | [] => [(key, value)]
  | (k, v) :: rest =>
      if String.eqb k key then (k, value) :: rest
      else (k, v) :: setMember key value rest
  end.

Definition handleChange (key value : string)
    (prev : list (string * formValue)) : list (string * formValue) :=
  setMember key (FormString value) prev.

Definition handleActionChange (action : string) : list (string * formValue) :=
  DEFAULT_PAYLOADS action.

(** The callback of the [reduce] in [handleSubmit]. *)
Definition payloadEntry (js : Builtins) (acc : gmap string json)
    (entry : string * formValue) : gmap string json :=
  let '(key, value) := entry in
  match value with
  | FormBoolean b => <[key := JBool b]> acc
  | FormNumber n => <[key := JNum n]> acc
  | FormString s =>
      let trimmed := trim js s in
      if (String.length trimmed =? 0)%nat then acc
      else if String.eqb trimmed "true" then <[key := JBool true]> acc
      else if String.eqb trimmed "false" then <[key := JBool false]> acc
      else if String.eqb key "labelIds" then
        let labels :=
          List.filter (fun label => truthy (Some label))
            (map (trim js) (split "," trimmed)) in
        if (0 <? length labels)%nat
        then <[key := JArr (JStr <$> labels)]> acc
        else acc
      else
        match toNumber js trimmed with
        | Some numericValue =>
            if String.eqb trimmed (numberToString js numericValue)
            then <[key := JNum numericValue]> acc
            else <[key := JStr trimmed]> acc
        | None => <[key := JStr trimmed]> acc
        end
  end.

(** [Object.entries(formState).reduce(..., {})] *)
Definition submittedPayload (js : Builtins)
    (formState : list (string * formValue)) : gmap string json :=
  foldl (payloadEntry js) ∅ formState.

(** A member of the payload after [JSON.stringify] on the page and
    [request.json()] on the route: an infinite number is written as
    [null]; booleans, finite numbers, strings and arrays of strings arrive
    as they were. *)
Definition overTheWire (v : json) : json :=
  match v with
  | JNum (Infinite _) => JNull
  | _ => v
  end.

(** The body the route parses for [{ action: activeAction, payload }]. *)
Definition submittedBody (js : Builtins) (activeAction : string)
    (formState : list (string * formValue)) : gmap string json :=
  <["action" := JStr activeAction]>
    (<["payload" := JObj (overTheWire <$> submittedPayload js formState)]> ∅).

(** The form states the page can be in for an action: the defaults, and
    what editing one of the fields shown makes of a state. *)
Inductive formStateOf (action : string) : list (string * formValue) -> Prop :=
| form_defaults : formStateOf action (handleActionChange action)
| form_edited state key value :
    formStateOf action state -> In key (map fst state) ->
    formStateOf action (handleChange key value state).

(** What the page may put in a payload: a boolean, a number, a string
    that is neither empty nor [true] nor [false], or an array, not empty,
    of non-empty strings. *)
Definition submittable (v : json) : Prop :=
  match v with
  | JBool _ | JNum _ => True
  | JStr s => s <> EmptyString /\ s <> "true" /\ s <> "false"
  | JArr xs => xs <> [] /\ forall x, In x xs -> exists s, x = JStr s /\ s <> EmptyString
  | JNull | JObj _ => False
  end.

(** The member the callback writes for one entry, if it writes one. *)
Definition converted (js : Builtins) (key : string) (value : formValue)
  : option json :=
  payloadEntry js ∅ (key, value) !! key.

(** ** Scenarios *)

Module Scenario.

(** A world in which every call is rejected. *)
Definition unavailable : thrown := Error "service unavailable".

Definition offline : World := {|
  process_env := Sample.env;
  messages_list := fun _ _ _ => inl unavailable;
  messages_get := fun _ => inl unavailable;
  messages_send := fun _ => inl unavailable;
  dataSources_query := fun _ _ _ => inl unavailable;
  pages_create := fun _ _ _ => inl unavailable
|}.

(** The answer of the query in the world of the samples. *)
Definition items : list QueryItem := [
  {| object := "page"; item_id := "p1";
     full := Some {| url := "https://notion.so/p1";
                     created_time := "2025-01-01";
                     last_edited_time := "2025-01-02";
                     properties := JObj ∅ |} |};
  {| object := "page"; item_id := "p2"; full := None |} ].

(** Stand-ins for the built-ins, enough to run the scenarios: [trim] for
    ASCII white space, and numbers written as plain decimal integers. *)
Definition isSpace (c : ascii) : bool :=
  Zod.between 9 13 c || Ascii.eqb c " ".

Fixpoint trimStart (s : list ascii) : list ascii :=
  match s with
  | c :: s' => if isSpace c then trimStart s' else s
  | [] => []
  end.

Definition asciiTrim (s : string) : string :=
  string_of_list_ascii
    (rev (trimStart (rev (trimStart (list_ascii_of_string s))))).

Definition decimal (s : string) : option jsnum :=
  match NilZero.uint_of_string s with
  | Some u => Some (Finite (inject_Z (Z.of_N (N.of_uint u))))
  | None => None
  end.

Definition printed (n : jsnum) : string :=
  match n with
  | Finite q =>
      if Zod.isInteger n && (0 <=? Qnum q)%Z
      then NilZero.string_of_uint (N.to_uint (Z.to_N (Qnum q / Zpos (Qden q))))
      else "?"
  | Infinite negative => if negative then "-Infinity" else "Infinity"
  end.

Definition builtins : Builtins :=
  {| trim := asciiTrim; toNumber := decimal; numberToString := printed |}.

(** Forms after one edit. *)
Definition filterForm : list (string * formValue) :=
  handleChange "filterProperty" " Status " (DEFAULT_PAYLOADS "notion.listPages").


End Scenario.

(** A world whose services never throw a [ZodError] of their own. *)
Definition services_throw_no_ZodError (w : World) : Prop :=
  (forall n l s errs, messages_list w n l s <> inl (ZodError errs))
  /\ (forall id errs, messages_get w id <> inl (ZodError errs))
  /\ (forall raw errs, messages_send w raw <> inl (ZodError errs))
  /\ (forall d n f errs, dataSources_query w d n f <> inl (ZodError errs))
  /\ (forall d t c errs, pages_create w d t c <> inl (ZodError errs)).

(** ** Properties of the route *)

Section Properties.

Variable emailPattern : string -> bool.

(** *** The request schema and the catch block *)

Lemma requestSchema_ok (o : gmap string json) a p :
  is_request o a p -> In a actions ->
  requestSchema (Some (JObj o)) = Zod.ok {| action := a; payload := p |}.
Proof.
  intros [Ha Hp] Hin.
  unfold requestSchema, Zod.object, Zod.field. rewrite Ha, Hp.
  assert (existsb (String.eqb a) actions = true) as He.
  { apply existsb_exists. exists a. split; [done | apply String.eqb_refl]. }
  cbn [Zod.enum]. rewrite He. destruct p; reflexivity.
Qed.

Lemma POST_parsed w o req :
  requestSchema (Some (JObj o)) = Zod.ok req ->
  POST emailPattern w (inr (JObj o)) = respond (dispatch emailPattern w req []).
Proof.
  intros H. unfold POST, mbind, Eff_bind, bind, parse. cbn beta iota.
  rewrite H. reflexivity.
Qed.

Lemma POST_rejected w o errs :
  requestSchema (Some (JObj o)) = Zod.fail errs ->
  POST emailPattern w (inr (JObj o))
  = ({| status := 400; envelope := ErrorEnvelope (Issues errs) |}, []).
Proof.
  intros H. unfold POST, mbind, Eff_bind, bind, parse. cbn beta iota.
  rewrite H. reflexivity.
Qed.

Lemma action_rejected (o : gmap string json) :
  (forall a, o !! "action" = Some (JStr a) -> ~ In a actions) ->
  exists rest,
    Zod.field "action" (Zod.enum actions) o = Zod.fail [unsupported]
    /\ requestSchema (Some (JObj o)) = Zod.fail (unsupported :: rest)
    /\ rest = Zod.issues_of (Zod.field "payload" (Zod.optional Zod.record_any) o).
Proof.
  intros H.
  assert (Zod.field "action" (Zod.enum actions) o = Zod.fail [unsupported]) as Hf.
  { unfold Zod.field, Zod.enum.
    destruct (o !! "action") as [[| | |a| |]|] eqn:Ha; try reflexivity.
    destruct (existsb (String.eqb a) actions) eqn:He; [|reflexivity].
    apply existsb_exists in He as (a' & Hin & Heq).
    apply String.eqb_eq in Heq. subst a'. destruct (H a eq_refl Hin). }
  eexists. split; [exact Hf|]. split; [|reflexivity].
  unfold requestSchema, Zod.object. rewrite Hf.
  destruct (Zod.field "payload" _ o); reflexivity.
Qed.

(** C8. A request whose action tag is not one of the four recognized tags
    (or is missing, or is not a string) is answered with status 400 and an
    issue on [action], and no handler runs: nothing is called.  The
    answer is the same for every payload object, and for no payload. *)
Theorem unsupported_action_rejected (w : World) (o : gmap string json) :
  (forall a, o !! "action" = Some (JStr a) -> ~ In a actions) ->
  (status (POST emailPattern w (inr (JObj o))).1 = 400
   /\ reports (POST emailPattern w (inr (JObj o))).1 "action"
   /\ (POST emailPattern w (inr (JObj o))).2 = [])
  /\ (forall p : option (gmap string json),
        o !! "payload" = JObj <$> p ->
        POST emailPattern w (inr (JObj o))
        = ({| status := 400;
              envelope := ErrorEnvelope (Issues [unsupported]) |}, [])).
Proof.
  intros H. destruct (action_rejected o H) as (rest & Hf & Hs & Hrest).
  rewrite (POST_rejected _ _ _ Hs). split.
  - split; [reflexivity|]. split; [|reflexivity].
    exists (unsupported :: rest), unsupported.
    split; [reflexivity|]. split; [left; reflexivity | reflexivity].
  - intros p Hp. subst rest. unfold Zod.field. rewrite Hp.
    destruct p; reflexivity.
Qed.

(** *** Running a handler under the catch block *)

Lemma parse_fail {A} (s : Zod.schema A) v errs log :
  s v = Zod.fail errs -> parse s v log = (inl (ZodError errs), log).
Proof. intros H. unfold parse. rewrite H. reflexivity. Qed.

Lemma parse_ok {A} (s : Zod.schema A) v a log :
  s v = Zod.ok a -> parse s v log = (inr a, log).
Proof. intros H. unfold parse. rewrite H. reflexivity. Qed.

Lemma bind_thrown {A B} (m : Eff A) (k : A -> Eff B) log e log' :
  m log = (inl e, log') -> (m ≫= k) log = (inl e, log').
Proof. intros H. unfold mbind, Eff_bind, bind. rewrite H. reflexivity. Qed.

Lemma bind_value {A B} (m : Eff A) (k : A -> Eff B) log a log' :
  m log = (inr a, log') -> (m ≫= k) log = k a log'.
Proof. intros H. unfold mbind, Eff_bind, bind. rewrite H. reflexivity. Qed.

Lemma POST_listMessages w o p :
  is_request o "gmail.listMessages" p ->
  POST emailPattern w (inr (JObj o))
  = respond ((value ← handleListMessages w (JObj <$> p);
              mret {| status := 200; envelope := Data value |}) []).
Proof.
  intros H. rewrite (POST_parsed w o {| action := "gmail.listMessages"; payload := p |}).
  - reflexivity.
  - apply requestSchema_ok; [exact H | simpl; tauto].
Qed.

Lemma POST_sendMessage w o p :
  is_request o "gmail.sendMessage" p ->
  POST emailPattern w (inr (JObj o))
  = respond ((value ← handleSendMessage emailPattern w (JObj <$> p);
              mret {| status := 200; envelope := Data value |}) []).
Proof.
  intros H. rewrite (POST_parsed w o {| action := "gmail.sendMessage"; payload := p |}).
  - reflexivity.
  - apply requestSchema_ok; [exact H | simpl; tauto].
Qed.

Lemma POST_listPages w o p :
  is_request o "notion.listPages" p ->
  POST emailPattern w (inr (JObj o))
  = respond ((value ← handleListPages w (JObj <$> p);
              mret {| status := 200; envelope := Data value |}) []).
Proof.
  intros H. rewrite (POST_parsed w o {| action := "notion.listPages"; payload := p |}).
  - reflexivity.
  - apply requestSchema_ok; [exact H | simpl; tauto].
Qed.

Lemma POST_createPage w o p :
  is_request o "notion.createPage" p ->
  POST emailPattern w (inr (JObj o))
  = respond ((value ← handleCreatePage w (JObj <$> p);
              mret {| status := 200; envelope := Data value |}) []).
Proof.
  intros H. rewrite (POST_parsed w o {| action := "notion.createPage"; payload := p |}).
  - reflexivity.
  - apply requestSchema_ok; [exact H | simpl; tauto].
Qed.

Lemma respond_thrown (m : Eff json) e log :
  m [] = (inl e, log) ->
  respond ((value ← m; mret {| status := 200; envelope := Data value |}) [])
  = respond (inl e, log).
Proof. intros H. rewrite (bind_thrown _ _ _ e log H). reflexivity. Qed.

Lemma respond_value (m : Eff json) v log :
  m [] = (inr v, log) ->
  respond ((value ← m; mret {| status := 200; envelope := Data value |}) [])
  = ({| status := 200; envelope := Data v |}, log).
Proof. intros H. rewrite (bind_value _ _ _ v log H). reflexivity. Qed.

(** A payload that does not parse: status 400, the issues, and no call. *)
Lemma respond_invalid {A} (s : Zod.schema A) v (k : A -> Eff json) errs :
  s v = Zod.fail errs ->
  respond ((value ← (parse s v ≫= k);
            mret {| status := 200; envelope := Data value |}) [])
  = ({| status := 400; envelope := ErrorEnvelope (Issues errs) |}, []).
Proof.
  intros H. rewrite (respond_thrown _ (ZodError errs) []).
  - reflexivity.
  - apply bind_thrown, parse_fail, H.
Qed.

(** *** Issues of an object schema *)

Lemma fails_with_rmap {A B} (f : A -> B) r i :
  fails_with r i -> fails_with (Zod.rmap f r) i.
Proof. intros (errs & -> & Hin). exists errs. split; [reflexivity | exact Hin]. Qed.

Lemma fails_with_ap_l {A B} (rf : Zod.result (A -> B)) ra i :
  fails_with rf i -> fails_with (Zod.ap rf ra) i.
Proof.
  intros (errs & -> & Hin). exists (errs ++ Zod.issues_of ra).
  split; [destruct ra; reflexivity | apply in_or_app; left; exact Hin].
Qed.

Lemma fails_with_ap_r {A B} (rf : Zod.result (A -> B)) ra i :
  fails_with ra i -> fails_with (Zod.ap rf ra) i.
Proof.
  intros (errs & -> & Hin). exists (Zod.issues_of rf ++ errs).
  split; [destruct rf; reflexivity | apply in_or_app; right; exact Hin].
Qed.

Lemma is_ok_rmap {A B} (f : A -> B) r : Zod.is_ok (Zod.rmap f r) = Zod.is_ok r.
Proof. destruct r; reflexivity. Qed.

Lemma is_ok_ap {A B} (rf : Zod.result (A -> B)) ra :
  Zod.is_ok (Zod.ap rf ra) = Zod.is_ok rf && Zod.is_ok ra.
Proof. destruct rf, ra; reflexivity. Qed.

Lemma is_ok_under {A} sg (r : Zod.result A) :
  Zod.is_ok (Zod.under sg r) = Zod.is_ok r.
Proof. destruct r; reflexivity. Qed.

Lemma member_missing (p : gmap string json) k :
  p !! k = None ->
  fails_with (Zod.field k (Zod.min1 Zod.string_) p)
    (Zod.Issue Zod.invalid_type [Zod.Key k]).
Proof.
  intros H. eexists. unfold Zod.field, Zod.min1, Zod.checks, Zod.string_.
  rewrite H. split; [reflexivity | left; reflexivity].
Qed.

(** A [to] member that is missing, is not a string, or does not match the
    email pattern raises one issue, on [to]. *)
Lemma to_rejected (p : gmap string json) :
  (forall s, p !! "to" = Some (JStr s) -> emailPattern s = false) ->
  exists c,
    Zod.field "to" (Zod.email emailPattern Zod.string_) p
    = Zod.fail [Zod.Issue c [Zod.Key "to"]].
Proof.
  intros H. unfold Zod.field, Zod.email, Zod.checks, Zod.string_.
  destruct (p !! "to") as [[| | |s| |]|] eqn:Hto;
    try (exists Zod.invalid_type; reflexivity).
  exists Zod.invalid_email. cbn. rewrite (H s eq_refl). reflexivity.
Qed.

Lemma sendMessage_reports (p : gmap string json) f :
  In f ["to"; "subject"; "body"] -> p !! f = None ->
  exists i, fails_with (sendMessageSchema emailPattern (Some (JObj p))) i
            /\ Zod.path i = [Zod.Key f].
Proof.
  intros Hf Hp. unfold sendMessageSchema, Zod.object.
  destruct Hf as [<-|[<-|[<-|[]]]].
  - destruct (to_rejected p) as [c Hc]; [intros s Hs; congruence|].
    exists (Zod.Issue c [Zod.Key "to"]). split; [|reflexivity].
    apply fails_with_ap_l, fails_with_ap_l, fails_with_rmap.
    eexists. split; [exact Hc | left; reflexivity].
  - exists (Zod.Issue Zod.invalid_type [Zod.Key "subject"]).
    split; [|reflexivity].
    apply fails_with_ap_l, fails_with_ap_r, member_missing, Hp.
  - exists (Zod.Issue Zod.invalid_type [Zod.Key "body"]).
    split; [|reflexivity].
    apply fails_with_ap_r, member_missing, Hp.
Qed.

Lemma createPage_reports (p : gmap string json) f :
  In f ["title"; "content"] -> p !! f = None ->
  exists i, fails_with (createPageSchema (Some (JObj p))) i
            /\ Zod.path i = [Zod.Key f].
Proof.
  intros Hf Hp. unfold createPageSchema, Zod.object.
  destruct Hf as [<-|[<-|[]]].
  - exists (Zod.Issue Zod.invalid_type [Zod.Key "title"]).
    split; [|reflexivity].
    apply fails_with_ap_l, fails_with_rmap, member_missing, Hp.
  - exists (Zod.Issue Zod.invalid_type [Zod.Key "content"]).
    split; [|reflexivity].
    apply fails_with_ap_r, member_missing, Hp.
Qed.

(** C5. For every action and every payload object that lacks a member
    the action's schema requires ([to], [subject], [body] for
    gmail.sendMessage; [title], [content] for notion.createPage), the
    answer has status 400, its issues name the missing member, and nothing
    was called. *)
Theorem missing_required_member_rejected
    (w : World) (o p : gmap string json) (a f : string) :
  is_request o a (Some p) -> In a actions -> In f (required a) ->
  p !! f = None ->
  status (POST emailPattern w (inr (JObj o))).1 = 400
  /\ reports (POST emailPattern w (inr (JObj o))).1 f
  /\ (POST emailPattern w (inr (JObj o))).2 = [].
Proof.
  intros Hreq Ha Hf Hp.
  destruct Ha as [<-|[<-|[<-|[<-|[]]]]]; try (destruct Hf; fail).
  - destruct (sendMessage_reports p f Hf Hp) as (i & (errs & He & Hin) & Hpath).
    rewrite (POST_sendMessage w o _ Hreq). unfold handleSendMessage.
    rewrite (respond_invalid _ _ _ errs He).
    split; [reflexivity|]. split; [|reflexivity].
    exists errs, i. auto.
  - destruct (createPage_reports p f Hf Hp) as (i & (errs & He & Hin) & Hpath).
    rewrite (POST_createPage w o _ Hreq). unfold handleCreatePage.
    rewrite (respond_invalid _ _ _ errs He).
    split; [reflexivity|]. split; [|reflexivity].
    exists errs, i. auto.
Qed.

(** C6. A gmail.sendMessage payload whose [to] member is not a
    syntactically valid email address (it does not match the email
    pattern; or it is no string at all) is answered with status 400 and an
    issue on [to], and no call is made: no client is built and nothing is
    sent. *)
Theorem invalid_recipient_rejected
    (w : World) (o p : gmap string json) :
  is_request o "gmail.sendMessage" (Some p) ->
  (forall s, p !! "to" = Some (JStr s) -> emailPattern s = false) ->
  status (POST emailPattern w (inr (JObj o))).1 = 400
  /\ reports (POST emailPattern w (inr (JObj o))).1 "to"
  /\ (POST emailPattern w (inr (JObj o))).2 = [].
Proof.
  intros Hreq Hto. destruct (to_rejected p Hto) as [c Hc].
  assert (fails_with (sendMessageSchema emailPattern (Some (JObj p)))
            (Zod.Issue c [Zod.Key "to"])) as (errs & He & Hin).
  { unfold sendMessageSchema, Zod.object.
    apply fails_with_ap_l, fails_with_ap_l, fails_with_rmap.
    eexists. split; [exact Hc | left; reflexivity]. }
  rewrite (POST_sendMessage w o _ Hreq). unfold handleSendMessage.
  rewrite (respond_invalid _ _ _ errs He).
  split; [reflexivity|]. split; [|reflexivity].
  exists errs, (Zod.Issue c [Zod.Key "to"]). auto.
Qed.

(** *** The encoding of the raw message *)

Lemma sextet_range g k : 0 <= Base64.sextet g k < 64.
Proof.
  unfold Base64.sextet. change 63 with (Z.ones 6).
  rewrite Z.land_ones by lia. apply Z.mod_pos_bound. lia.
Qed.

Lemma below_64 (P : nat -> Prop) :
  Forall P (seq 0 64) -> forall n, 0 <= n < 64 -> P (Z.to_nat n).
Proof.
  intros H n Hn. rewrite Forall_forall in H. apply H.
  apply elem_of_seq. lia.
Qed.

Lemma digit_urlsafe n :
  0 <= n < 64 ->
  substitute "/" "_" (substitute "+" "-" (Base64.digit Base64.standard n))
  = Base64.digit Base64.urlsafe n
  /\ Base64.digit Base64.urlsafe n <> Base64.PAD.
Proof.
  unfold Base64.digit.
  apply (below_64 (fun k =>
    substitute "/" "_" (substitute "+" "-"
      (nth k (list_ascii_of_string Base64.standard) Base64.PAD))
    = nth k (list_ascii_of_string Base64.urlsafe) Base64.PAD
    /\ nth k (list_ascii_of_string Base64.urlsafe) Base64.PAD <> Base64.PAD)).
  repeat (apply Forall_cons; split; [split; [reflexivity | discriminate]|]).
  apply Forall_nil. done.
Qed.

Lemma stripTrailing_cons c x s :
  x <> c -> stripTrailing c (x :: s) = x :: stripTrailing c s.
Proof.
  intros H. cbn [stripTrailing].
  destruct (stripTrailing c s); [|reflexivity].
  destruct (Ascii.eqb_spec x c); [contradiction | reflexivity].
Qed.

Lemma triples_ind {A} (P : list A -> Prop) :
  P [] -> (forall a, P [a]) -> (forall a b, P [a; b]) ->
  (forall a b c rest, P rest -> P (a :: b :: c :: rest)) ->
  forall l, P l.
Proof.
  intros H0 H1 H2 H3.
  assert (forall l, P l /\ (forall a, P (a :: l)) /\ (forall a b, P (a :: b :: l))) as H.
  { induction l as [|x l (IH0 & IH1 & IH2)]; [auto|].
    split; [apply IH1|]. split; [intros a; apply IH2|].
    intros a b. apply H3, IH0. }
  intros l. apply H.
Qed.

(** Replacing [+] and [/] and removing the trailing [=] of the standard
    encoding gives the base64url encoding without padding. *)
Lemma urlsafe_encoding (bytes : list ascii) :
  stripTrailing "="
    (replaceAll "/" "_" (replaceAll "+" "-" (Base64.toString_base64 bytes)))
  = Base64.base64url bytes.
Proof.
  unfold Base64.toString_base64, Base64.base64url.
  induction bytes as [|a|a b|a b c rest IH] using triples_ind.
  - reflexivity.
  - cbn [Base64.encode Base64.padding replicate app replaceAll map].
    set (g := Z.shiftl _ _).
    destruct (digit_urlsafe _ (sextet_range g 3)) as [-> N3].
    destruct (digit_urlsafe _ (sextet_range g 2)) as [-> N2].
    rewrite !stripTrailing_cons by assumption. reflexivity.
  - cbn [Base64.encode Base64.padding replicate app replaceAll map].
    set (g := Z.lor _ _).
    destruct (digit_urlsafe _ (sextet_range g 3)) as [-> N3].
    destruct (digit_urlsafe _ (sextet_range g 2)) as [-> N2].
    destruct (digit_urlsafe _ (sextet_range g 1)) as [-> N1].
    rewrite !stripTrailing_cons by assumption. reflexivity.
  - cbn [Base64.encode Base64.padding replicate app replaceAll map].
    set (g := Z.lor _ _).
    destruct (digit_urlsafe _ (sextet_range g 3)) as [-> N3].
    destruct (digit_urlsafe _ (sextet_range g 2)) as [-> N2].
    destruct (digit_urlsafe _ (sextet_range g 1)) as [-> N1].
    destruct (digit_urlsafe _ (sextet_range g 0)) as [-> N0].
    rewrite !stripTrailing_cons by assumption.
    unfold replaceAll in IH. rewrite IH. reflexivity.
Qed.

(** *** The environment *)

Lemma min1_ok v :
  v <> EmptyString -> Zod.min1 Zod.string_ (Some (JStr v)) = Zod.ok v.
Proof.
  intros H. unfold Zod.min1, Zod.checks, Zod.string_. cbn.
  destruct (String.eqb_spec v EmptyString); [contradiction | reflexivity].
Qed.

Lemma variable_ok w name value :
  variable_set w name value ->
  match env_object w with
  | Some (JObj o) => Zod.field name (Zod.min1 Zod.string_) o = Zod.ok value
  | _ => False
  end.
Proof.
  intros [Hv Hne]. cbn. unfold Zod.field.
  rewrite lookup_fmap, Hv. cbn [fmap option_fmap option_map].
  rewrite (min1_ok _ Hne). reflexivity.
Qed.

Lemma variable_absent w name :
  process_env w !! name = None ->
  match env_object w with
  | Some (JObj o) =>
      fails_with (Zod.field name (Zod.min1 Zod.string_) o)
        (Zod.Issue Zod.invalid_type [Zod.Key name])
  | _ => False
  end.
Proof.
  intros H. cbn. apply member_missing. rewrite lookup_fmap, H. reflexivity.
Qed.

Lemma gmailEnv_ok w env :
  gmail_configured w env -> gmailEnvSchema (env_object w) = Zod.ok env.
Proof.
  intros (H1 & H2 & H3 & H4).
  apply variable_ok in H1, H2, H3, H4.
  unfold gmailEnvSchema. cbn in *. rewrite H1, H2, H3, H4.
  destruct env; reflexivity.
Qed.

Lemma notionEnv_ok w env :
  notion_configured w env -> notionEnvSchema (env_object w) = Zod.ok env.
Proof.
  intros (H1 & H2 & H3).
  apply variable_ok in H1, H2, H3.
  unfold notionEnvSchema. cbn in *. rewrite H1, H2, H3.
  destruct env; reflexivity.
Qed.

Lemma getGmailClient_ok w env log :
  gmail_configured w env ->
  getGmailClient w log
  = (inr (),
     log ++ [GmailClient (GOOGLE_CLIENT_ID env) (GOOGLE_CLIENT_SECRET env)
               (GOOGLE_REDIRECT_URI env) (GOOGLE_REFRESH_TOKEN env)]).
Proof.
  intros H. unfold getGmailClient. rewrite (gmailEnv_ok _ _ H). reflexivity.
Qed.

Lemma getNotionClient_ok w env log :
  notion_configured w env ->
  getNotionClient w log = (inr (), log ++ [NotionClient (NOTION_API_KEY env)]).
Proof.
  intros H. unfold getNotionClient. rewrite (notionEnv_ok _ _ H). reflexivity.
Qed.

(** *** gmail.sendMessage *)

Lemma sendMessage_valid (p : gmap string json) t s b :
  p !! "to" = Some (JStr t) -> emailPattern t = true ->
  p !! "subject" = Some (JStr s) -> s <> EmptyString ->
  p !! "body" = Some (JStr b) -> b <> EmptyString ->
  sendMessageSchema emailPattern (Some (JObj p))
  = Zod.ok {| to := t; subject := s; body := b |}.
Proof.
  intros Ht He Hs Hs' Hb Hb'.
  unfold sendMessageSchema, Zod.object, Zod.field.
  rewrite Ht, Hs, Hb, (min1_ok _ Hs'), (min1_ok _ Hb').
  unfold Zod.email, Zod.checks, Zod.string_. cbn. rewrite He. reflexivity.
Qed.

Lemma handleSendMessage_run w v params env log :
  sendMessageSchema emailPattern v = Zod.ok params ->
  gmail_configured w env ->
  handleSendMessage emailPattern w v log
  = (match messages_send w (encodedMessage (rawMessage params)) with
     | inl e => inl e
     | inr _ => inr (obj [("status", str "sent")])
     end,
     log ++ [GmailClient (GOOGLE_CLIENT_ID env) (GOOGLE_CLIENT_SECRET env)
               (GOOGLE_REDIRECT_URI env) (GOOGLE_REFRESH_TOKEN env);
             MessagesSend (encodedMessage (rawMessage params))]).
Proof.
  intros Hv Henv. unfold handleSendMessage.
  rewrite (bind_value _ _ _ _ _ (parse_ok _ _ _ _ Hv)).
  rewrite (bind_value _ _ _ _ _ (getGmailClient_ok _ _ _ Henv)).
  unfold mbind, Eff_bind, bind, perform, mret, Eff_ret, ret.
  rewrite <- app_assoc.
  destruct (messages_send w _); reflexivity.
Qed.

(** C9. For a valid gmail.sendMessage payload (with the mail service
    configured), exactly one message is submitted: the [To], [Subject] and
    [Content-Type] header lines, an empty line and the body, joined by
    CRLF, in the standard base64 encoding with [+] replaced by [-], [/]
    replaced by [_] and the trailing [=] removed, which is the base64url
    encoding without padding.  Whatever the mail service answers, the
    response is [{status: "sent"}]. *)
Theorem sendMessage_submits_encoded_message
    (w : World) (o p : gmap string json) (env : GmailEnv)
    (t s b : string) (answer : json) :
  is_request o "gmail.sendMessage" (Some p) ->
  p !! "to" = Some (JStr t) -> emailPattern t = true ->
  p !! "subject" = Some (JStr s) -> s <> EmptyString ->
  p !! "body" = Some (JStr b) -> b <> EmptyString ->
  gmail_configured w env ->
  let raw :=
    "To: " +:+ t +:+ CRLF +:+ "Subject: " +:+ s +:+ CRLF
      +:+ contentType +:+ CRLF +:+ CRLF +:+ b in
  let encoded :=
    string_of_list_ascii
      (stripTrailing "="
         (replaceAll "/" "_"
            (replaceAll "+" "-"
               (Base64.toString_base64 (list_ascii_of_string raw))))) in
  messages_send w encoded = inr answer ->
  POST emailPattern w (inr (JObj o))
  = ({| status := 200; envelope := Data (obj [("status", str "sent")]) |},
     [GmailClient (GOOGLE_CLIENT_ID env) (GOOGLE_CLIENT_SECRET env)
        (GOOGLE_REDIRECT_URI env) (GOOGLE_REFRESH_TOKEN env);
      MessagesSend encoded])
  /\ encoded
     = string_of_list_ascii (Base64.base64url (list_ascii_of_string raw)).
Proof.
  intros Hreq Ht He Hs Hs' Hb Hb' Henv raw encoded Hsend.
  split; [|unfold encoded; rewrite urlsafe_encoding; reflexivity].
  rewrite (POST_sendMessage w o _ Hreq).
  change (JObj <$> Some p) with (Some (JObj p)).
  pose proof (handleSendMessage_run w (Some (JObj p)) _ env []
                (sendMessage_valid p t s b Ht He Hs Hs' Hb Hb') Henv) as Hrun.
  change (encodedMessage (rawMessage {| to := t; subject := s; body := b |}))
    with encoded in Hrun.
  rewrite Hsend in Hrun.
  rewrite (respond_value _ _ _ Hrun). reflexivity.
Qed.

(** *** notion.createPage *)

Lemma respond_200 (m : Eff json) v log :
  respond ((value ← m; mret {| status := 200; envelope := Data value |}) [])
  = ({| status := 200; envelope := Data v |}, log) ->
  m [] = (inr v, log).
Proof.
  unfold mbind, Eff_bind, bind, mret, Eff_ret, ret, respond.
  destruct (m []) as [[[]|j] log']; intros H; try discriminate H.
  injection H as -> ->. reflexivity.
Qed.

Lemma handleCreatePage_inv w v log j log' :
  handleCreatePage w v log = (inr j, log') ->
  exists params env page,
    createPageSchema v = Zod.ok params
    /\ notionEnvSchema (env_object w) = Zod.ok env
    /\ pages_create w (NOTION_DATABASE_ID env) (title params) (content params)
       = inr page
    /\ log' = log ++ [NotionClient (NOTION_API_KEY env);
                      PagesCreate (NOTION_DATABASE_ID env) (title params)
                        (content params)]
    /\ j = obj [("pageId", str (created_id page));
                ("url", Some (match created_url page with
                              | Some u => JStr u
                              | None => JNull
                              end))].
Proof.
  unfold handleCreatePage, mbind, Eff_bind, bind, parse, getNotionClient,
    perform, throw, mret, Eff_ret, ret.
  destruct (createPageSchema v) as [params|] eqn:Hp; [|discriminate].
  destruct (notionEnvSchema (env_object w)) as [env|] eqn:He; [|discriminate].
  destruct (pages_create w _ _ _) as [|page] eqn:Hc; [discriminate|].
  intros [= <- <-]. exists params, env, page.
  rewrite <- app_assoc. auto.
Qed.

(** C7. Whenever notion.createPage succeeds, the external call has
    answered with a page, and the object returned has a [pageId] member,
    the identifier of that page, and a [url] member, which is the page's
    url (a string) when the answer has one and [null] when it has none. *)
Theorem createPage_returns_pageId_and_url
    (w : World) (o : gmap string json) (p : option (gmap string json))
    (v : json) (log : list call) :
  is_request o "notion.createPage" p ->
  POST emailPattern w (inr (JObj o))
  = ({| status := 200; envelope := Data v |}, log) ->
  exists database title content page fields,
    pages_create w database title content = inr page
    /\ In (PagesCreate database title content) log
    /\ v = JObj fields
    /\ fields !! "pageId" = Some (JStr (created_id page))
    /\ fields !! "url"
       = Some (match created_url page with
               | Some u => JStr u
               | None => JNull
               end).
Proof.
  intros Hreq Hpost. rewrite (POST_createPage w o _ Hreq) in Hpost.
  apply respond_200, handleCreatePage_inv in Hpost
    as (params & env & page & _ & _ & Hc & -> & ->).
  exists (NOTION_DATABASE_ID env), (title params), (content params), page.
  eexists. split; [exact Hc|]. split; [simpl; tauto|].
  split; [reflexivity|]. split; reflexivity.
Qed.

(** *** The size member *)

Lemma size_checks q :
  Zod.isInteger (Finite q) && Zod.gt0 (Finite q) && Zod.le 20 (Finite q) = true
  <-> exists k, 1 <= k <= 20 /\ (q == inject_Z k)%Q.
Proof.
  destruct q as [n d]. unfold Zod.isInteger, Zod.gt0, Zod.le, Qeq. cbn.
  rewrite !andb_true_iff, Z.eqb_eq, Z.ltb_lt, Z.leb_le. split.
  - intros [[Hm Hp] Hl]. exists (n / Z.pos d).
    assert (n = Z.pos d * (n / Z.pos d)) as E
      by (apply Z.div_exact; [lia | exact Hm]).
    split; [nia | lia].
  - intros (k & Hk & E). rewrite Z.mul_1_r in E. subst n.
    split; [split|]; [apply Z.mod_mul; lia | nia | nia].
Qed.

Lemma sizeSchema_accepts v :
  Zod.is_ok (sizeSchema v) = true
  <-> v = None \/ exists j, v = Some j /\ integer_1_to_20 j.
Proof.
  destruct v as [j|]; [|split; [left; reflexivity | reflexivity]].
  unfold sizeSchema, Zod.optional. rewrite is_ok_rmap.
  unfold Zod.checks, Zod.number, Zod.int_, Zod.positive_, Zod.max_.
  split.
  - intros H. right. exists j. split; [reflexivity|].
    destruct j as [| |[q|neg]| | |]; try discriminate H.
    destruct (size_checks q) as [Hk _].
    cbn -[Zod.isInteger Zod.gt0 Zod.le] in H.
    destruct (Zod.isInteger (Finite q)), (Zod.gt0 (Finite q)),
      (Zod.le 20 (Finite q)); try discriminate H.
    destruct (Hk eq_refl) as (k & Hr & E). exists q, k. auto.
  - intros [Hn|(j' & [= <-] & q & k & -> & Hk & E)]; [discriminate|].
    destruct (size_checks q) as [_ Hb].
    specialize (Hb (ex_intro _ k (conj Hk E))).
    apply andb_true_iff in Hb as [Hb H3].
    apply andb_true_iff in Hb as [H1 H2].
    cbn -[Zod.isInteger Zod.gt0 Zod.le]. rewrite H1, H2, H3. reflexivity.
Qed.

Lemma sizeSchema_ok v :
  Zod.is_ok (sizeSchema v) = true -> sizeSchema v = Zod.ok (numberOf v).
Proof.
  destruct v as [j|]; [|reflexivity].
  unfold sizeSchema, Zod.optional, Zod.checks, Zod.number.
  destruct j; try discriminate. cbn [numberOf].
  destruct (omap _ _); [reflexivity | discriminate].
Qed.

Lemma sizeSchema_fail v :
  Zod.is_ok (sizeSchema v) = false ->
  exists c, fails_with (sizeSchema v) (Zod.Issue c []).
Proof.
  destruct v as [j|]; [|discriminate].
  unfold sizeSchema, Zod.optional, Zod.checks, Zod.number.
  destruct j as [| |n| | |];
    try (intros _; exists Zod.invalid_type; eexists;
         split; [reflexivity | left; reflexivity]).
  unfold Zod.int_, Zod.positive_, Zod.max_.
  cbn -[Zod.isInteger Zod.gt0 Zod.le].
  destruct (Zod.isInteger n), (Zod.gt0 n), (Zod.le 20 n);
    cbn; intros H; try discriminate H;
    eexists; eexists; (split; [reflexivity | left; reflexivity]).
Qed.

(** *** notion.listPages *)

Lemma respond_log (m : Eff json) :
  (respond ((value ← m; mret {| status := 200; envelope := Data value |}) [])).2
  = (m []).2.
Proof.
  unfold mbind, Eff_bind, bind, mret, Eff_ret, ret, respond.
  destruct (m []) as [[[]|j] log']; reflexivity.
Qed.

Lemma optional_string (p : gmap string json) k (s : option string) :
  p !! k = JStr <$> s ->
  Zod.field k (Zod.optional Zod.string_) p = Zod.ok s.
Proof.
  intros H. unfold Zod.field. rewrite H. destruct s; reflexivity.
Qed.

(** With a size that passes and filter members that are strings (or left
    out), only the refinement decides. *)
Lemma listPages_parsed (p : gmap string json) fp fv :
  Zod.is_ok (sizeSchema (p !! "pageSize")) = true ->
  p !! "filterProperty" = JStr <$> fp ->
  p !! "filterValue" = JStr <$> fv ->
  let params :=
    {| pageSize := numberOf (p !! "pageSize");
       filterProperty := fp; filterValue := fv |} in
  listPagesSchema (Some (JObj p))
  = if filterComplete params then Zod.ok params
    else Zod.fail [filterValueMissing].
Proof.
  intros Hs Hp Hv params.
  unfold listPagesSchema, Zod.refine, Zod.object.
  rewrite (optional_string _ _ _ Hp), (optional_string _ _ _ Hv).
  unfold Zod.field at 1. rewrite (sizeSchema_ok _ Hs). reflexivity.
Qed.

Lemma handleListPages_run w v params env log :
  listPagesSchema (Some (v ?? JObj ∅)) = Zod.ok params ->
  notion_configured w env ->
  let size := pageSize params ?? Finite 10 in
  handleListPages w v log
  = (match dataSources_query w (NOTION_DATA_SOURCE_ID env) size
             (pageFilter params) with
     | inl e => inl e
     | inr items => inr (obj [("pages", Some (JArr (omap pageSummary items)))])
     end,
     log ++ [NotionClient (NOTION_API_KEY env);
             DataSourcesQuery (NOTION_DATA_SOURCE_ID env) size
               (pageFilter params)]).
Proof.
  intros Hv Henv size. unfold handleListPages.
  rewrite (bind_value _ _ _ _ _ (parse_ok _ _ _ _ Hv)).
  rewrite (bind_value _ _ _ _ _
             (parse_ok _ _ _ _ (notionEnv_ok _ _ Henv))).
  rewrite (bind_value _ _ _ _ _ (getNotionClient_ok _ _ _ Henv)).
  unfold mbind, Eff_bind, bind, perform, mret, Eff_ret, ret.
  rewrite <- app_assoc. fold size.
  destruct (dataSources_query w _ _ _); reflexivity.
Qed.

(** C3, as the route has it.  Take a notion.listPages payload whose
    [filterProperty] is a string that is not empty.  If [filterValue] is
    left out, or is the empty string, the payload is rejected: status 400,
    nothing called, and (the page size being fine) the issue is the one on
    [filterValue].  If [filterValue] is a string that is not empty (the
    page size being fine and the document service configured), exactly one
    query is issued, with a filter that matches [filterValue] with
    "contains" on the property named by [filterProperty]. *)
Theorem filterProperty_requires_filterValue
    (w : World) (o p : gmap string json) (fp : string) :
  is_request o "notion.listPages" (Some p) ->
  p !! "filterProperty" = Some (JStr fp) -> fp <> EmptyString ->
  (p !! "filterValue" = None \/ p !! "filterValue" = Some (JStr EmptyString) ->
     status (POST emailPattern w (inr (JObj o))).1 = 400
     /\ (POST emailPattern w (inr (JObj o))).2 = []
     /\ (Zod.is_ok (sizeSchema (p !! "pageSize")) = true ->
         envelope (POST emailPattern w (inr (JObj o))).1
         = ErrorEnvelope (Issues [filterValueMissing])))
  /\ (forall fv env,
        p !! "filterValue" = Some (JStr fv) -> fv <> EmptyString ->
        Zod.is_ok (sizeSchema (p !! "pageSize")) = true ->
        notion_configured w env ->
        (POST emailPattern w (inr (JObj o))).2
        = [NotionClient (NOTION_API_KEY env);
           DataSourcesQuery (NOTION_DATA_SOURCE_ID env)
             (requestedSize (p !! "pageSize"))
             (Some {| property := fp; contains := fv |})]).
Proof.
  intros Hreq Hfp Hne.
  rewrite (POST_listPages w o _ Hreq).
  change (JObj <$> Some p) with (Some (JObj p)).
  assert (truthy (Some fp) = true) as Tfp by (destruct fp; [contradiction | reflexivity]).
  split.
  - intros Hfv.
    assert (exists fv, p !! "filterValue" = JStr <$> fv /\ truthy fv = false)
      as (fv & Hfv' & Tfv).
    { destruct Hfv as [H|H]; [exists None | exists (Some EmptyString)]; auto. }
    destruct (Zod.is_ok (sizeSchema (p !! "pageSize"))) eqn:Hs.
    + pose proof (listPages_parsed p (Some fp) fv Hs Hfp Hfv') as Hparse.
      cbn zeta in Hparse. unfold filterComplete in Hparse at 1.
      cbn [filterProperty filterValue] in Hparse.
      rewrite Tfp, Tfv in Hparse. cbn [negb orb andb] in Hparse.
      unfold handleListPages.
      rewrite (respond_invalid _ _ _ _ Hparse). auto.
    + destruct (sizeSchema_fail _ Hs) as (c & errs & He & _).
      assert (exists errs', listPagesSchema (Some (JObj p)) = Zod.fail errs')
        as [errs' Hparse].
      { unfold listPagesSchema, Zod.refine, Zod.object.
        unfold Zod.field at 1. rewrite He. cbn [Zod.under Zod.rmap].
        destruct (Zod.field "filterProperty" _ p), (Zod.field "filterValue" _ p);
          eexists; reflexivity. }
      unfold handleListPages.
      rewrite (respond_invalid _ _ _ _ Hparse).
      split; [reflexivity|]. split; [reflexivity | discriminate].
  - intros fv env Hfv Hfvne Hs Henv.
    assert (truthy (Some fv) = true) as Tfv by (destruct fv; [contradiction | reflexivity]).
    pose proof (listPages_parsed p (Some fp) (Some fv) Hs Hfp Hfv) as Hparse.
    cbn zeta in Hparse. unfold filterComplete in Hparse at 1.
    cbn [filterProperty filterValue] in Hparse.
    rewrite Tfp, Tfv in Hparse. cbn [negb orb andb] in Hparse.
    rewrite respond_log.
    rewrite (handleListPages_run w (Some (JObj p)) _ env [] Hparse Henv).
    cbn [snd pageSize app]. unfold pageFilter.
    cbn [filterProperty filterValue]. rewrite Tfp, Tfv. reflexivity.
Qed.

(** C10. Take a notion.listPages payload (or no payload) whose
    [filterProperty] is left out or is the empty string, whose
    [filterValue] is any string or is left out, and whose page size is
    fine.  The payload passes validation, and (the document service being
    configured) exactly one query is issued, without a filter: a
    [filterValue] that comes alone is ignored. *)
Theorem filterValue_alone_is_ignored
    (w : World) (o : gmap string json) (p : option (gmap string json))
    (fv : option string) :
  is_request o "notion.listPages" p ->
  (p ?? ∅) !! "filterProperty" = None
  \/ (p ?? ∅) !! "filterProperty" = Some (JStr EmptyString) ->
  (p ?? ∅) !! "filterValue" = JStr <$> fv ->
  Zod.is_ok (sizeSchema ((p ?? ∅) !! "pageSize")) = true ->
  Zod.is_ok (listPagesSchema (Some (JObj (p ?? ∅)))) = true
  /\ (forall env,
        notion_configured w env ->
        (POST emailPattern w (inr (JObj o))).2
        = [NotionClient (NOTION_API_KEY env);
           DataSourcesQuery (NOTION_DATA_SOURCE_ID env)
             (requestedSize ((p ?? ∅) !! "pageSize")) None]).
Proof.
  intros Hreq Hfp Hfv Hs.
  assert (exists fp, (p ?? ∅) !! "filterProperty" = JStr <$> fp
                     /\ truthy fp = false) as (fp & Hfp' & Tfp).
  { destruct Hfp as [H|H]; [exists None | exists (Some EmptyString)]; auto. }
  pose proof (listPages_parsed (p ?? ∅) fp fv Hs Hfp' Hfv) as Hparse.
  cbn zeta in Hparse. unfold filterComplete in Hparse at 1.
  cbn [filterProperty filterValue] in Hparse.
  rewrite Tfp in Hparse. cbn [negb orb] in Hparse.
  split; [rewrite Hparse; reflexivity|].
  intros env Henv.
  rewrite (POST_listPages w o _ Hreq), respond_log.
  assert ((JObj <$> p) ?? JObj ∅ = JObj (p ?? ∅)) as E by (destruct p; reflexivity).
  rewrite <- E in Hparse.
  rewrite (handleListPages_run w (JObj <$> p) _ env [] Hparse Henv).
  cbn [snd pageSize app]. unfold pageFilter. cbn [filterProperty filterValue].
  destruct fp as [[|]|], fv; try discriminate Tfp; reflexivity.
Qed.

(** *** gmail.listMessages *)

Lemma itemId_obj s rest : itemId (obj (("id", str s) :: rest)) = Some s.
Proof.
  unfold itemId, obj, str. cbn [omap list_omap fst snd fmap option_fmap option_map].
  rewrite list_to_map_cons, lookup_insert_eq. reflexivity.
Qed.

Lemma messageDetail_spec w m log :
  match (if truthy (msg_id m) then msg_id m else None) with
  | None => messageDetail w m log = (inr None, log)
  | Some id =>
      exists r,
        messageDetail w m log = (r, log ++ [MessagesGet id])
        /\ forall d, r = inr d ->
             exists item, d = Some item /\ itemId item = Some id
  end.
Proof.
  unfold messageDetail. destruct (msg_id m) as [[|c id]|]; try reflexivity.
  cbn [truthy negb].
  unfold mbind, Eff_bind, bind, perform, mret, Eff_ret, ret.
  destruct (messages_get w (String c id)) as [e|data].
  - eexists. split; [reflexivity | discriminate].
  - eexists. split; [reflexivity|]. intros d [= <-].
    eexists. split; [reflexivity | apply itemId_obj].
Qed.

Lemma details_spec w listing log :
  let '(r, log') := promise_all (map (messageDetail w) listing) log in
  log' = log ++ map MessagesGet (identified listing)
  /\ forall ds, r = inr ds ->
       map itemId (omap id ds) = map Some (identified listing).
Proof.
  revert log. induction listing as [|m listing IH]; intros log.
  - cbn. rewrite app_nil_r. split; [reflexivity|]. intros ds [= <-]. reflexivity.
  - cbn [map promise_all]. pose proof (messageDetail_spec w m log) as Hm.
    unfold identified. cbn [omap list_omap]. fold (identified listing).
    destruct (if truthy (msg_id m) then msg_id m else None) as [i|].
    + destruct Hm as (r & -> & Hr).
      specialize (IH (log ++ [MessagesGet i])).
      destruct (promise_all _ _) as [rs log2]. destruct IH as [-> IH].
      split; [rewrite <- app_assoc; reflexivity|].
      intros ds Hds. destruct r as [e|d]; [discriminate|].
      destruct rs as [e|l]; [discriminate|]. injection Hds as <-.
      destruct (Hr d eq_refl) as (item & -> & Hi).
      cbn [omap list_omap id map]. rewrite Hi. f_equal. apply IH. reflexivity.
    + rewrite Hm. specialize (IH log).
      destruct (promise_all _ _) as [rs log2]. destruct IH as [-> IH].
      split; [reflexivity|].
      intros ds Hds. destruct rs as [e|l]; [discriminate|]. injection Hds as <-.
      cbn [omap list_omap id]. apply IH. reflexivity.
Qed.

Lemma identified_length listing : (length (identified listing) <= length listing)%nat.
Proof.
  unfold identified. induction listing as [|m listing IH]; [reflexivity|].
  cbn [omap list_omap length].
  destruct (if truthy (msg_id m) then msg_id m else None); cbn [length]; lia.
Qed.

Lemma sizeOf_details ids : omap sizeOf (map MessagesGet ids) = [].
Proof. induction ids as [|i ids IH]; [reflexivity | exact IH]. Qed.

Lemma handleListMessages_unfold w v parsed env log :
  listMessagesSchema v = Zod.ok parsed ->
  gmailEnvSchema (env_object w) = Zod.ok env ->
  let params := parsed ?? Build_ListMessagesParams None None None in
  let size := maxResults params ?? Finite 10 in
  let log1 :=
    log ++ [GmailClient (GOOGLE_CLIENT_ID env) (GOOGLE_CLIENT_SECRET env)
              (GOOGLE_REDIRECT_URI env) (GOOGLE_REFRESH_TOKEN env);
            MessagesList size (labelIds params) (includeSpamTrash params)] in
  handleListMessages w v log
  = match messages_list w size (labelIds params) (includeSpamTrash params) with
    | inl e => (inl e, log1)
    | inr response =>
        let '(r, log2) :=
          promise_all (map (messageDetail w) (response ?? [])) log1 in
        (match r with
         | inl e => inl e
         | inr ds => inr (obj [("messages", Some (JArr (omap id ds)))])
         end, log2)
    end.
Proof.
  intros Hv Henv params size log1.
  unfold handleListMessages, mbind, Eff_bind, bind, parse, getGmailClient,
    perform, mret, Eff_ret, ret.
  rewrite Hv, Henv. cbn beta iota zeta. fold params. fold size.
  rewrite <- app_assoc. cbn [app]. fold log1.
  destruct (messages_list w _ _ _) as [e|response]; [reflexivity|].
  destruct (promise_all _ _) as [[e|ds] log2]; reflexivity.
Qed.

Lemma sizeSchema_value v r : sizeSchema v = Zod.ok r -> r = numberOf v.
Proof.
  intros H. assert (Zod.is_ok (sizeSchema v) = true) as Hok by (rewrite H; reflexivity).
  rewrite (sizeSchema_ok _ Hok) in H. congruence.
Qed.

Lemma listMessages_size (p : option (gmap string json)) parsed :
  listMessagesSchema (JObj <$> p) = Zod.ok parsed ->
  maxResults (parsed ?? Build_ListMessagesParams None None None) ?? Finite 10
  = requestedSize ((p ?? ∅) !! "maxResults").
Proof.
  destruct p as [m|]; [|intros [= <-]; reflexivity].
  unfold listMessagesSchema, Zod.optional, Zod.object. cbn [fmap option_fmap option_map].
  unfold Zod.field at 1.
  destruct (sizeSchema (m !! "maxResults")) as [r|] eqn:Hs;
    [apply sizeSchema_value in Hs; subst r|];
    destruct (Zod.field "labelIds" _ m), (Zod.field "includeSpamTrash" _ m);
    intros [= <-]; reflexivity.
Qed.

Lemma within_le n n' size : (n' <= n)%nat -> within n size -> within n' size.
Proof.
  intros Hle. destruct size as [q|neg]; [|trivial]. cbn.
  apply Qle_trans. rewrite <- Zle_Qle. lia.
Qed.

(** C2. Whenever gmail.listMessages succeeds, the listing call was made
    with the requested size (10 when [maxResults] is left out), and the
    result holds, for the messages of the listing that have an identifier
    and for no others, one item each, in the order of the listing.  So the
    result is no longer than the listing, and no longer than the requested
    size when the mail service returned no more messages than were asked
    for. *)
Theorem listMessages_keeps_listing_order
    (w : World) (o : gmap string json) (p : option (gmap string json))
    (v : json) (log : list call) :
  is_request o "gmail.listMessages" p ->
  POST emailPattern w (inr (JObj o))
  = ({| status := 200; envelope := Data v |}, log) ->
  exists labels spam response items,
    let size := requestedSize ((p ?? ∅) !! "maxResults") in
    let listing := response ?? [] in
    messages_list w size labels spam = inr response
    /\ In (MessagesList size labels spam) log
    /\ v = obj [("messages", Some (JArr items))]
    /\ map itemId items = map Some (identified listing)
    /\ (length items <= length listing)%nat
    /\ (within (length listing) size -> within (length items) size).
Proof.
  intros Hreq Hpost. rewrite (POST_listMessages w o _ Hreq) in Hpost.
  apply respond_200 in Hpost.
  destruct (listMessagesSchema (JObj <$> p)) as [parsed|errs] eqn:Hv.
  2:{ unfold handleListMessages in Hpost.
      rewrite (bind_thrown _ _ _ _ _ (parse_fail _ _ _ _ Hv)) in Hpost.
      discriminate Hpost. }
  destruct (gmailEnvSchema (env_object w)) as [env|errs] eqn:Henv.
  2:{ unfold handleListMessages in Hpost.
      rewrite (bind_value _ _ _ _ _ (parse_ok _ _ _ _ Hv)) in Hpost.
      unfold mbind, Eff_bind, bind, getGmailClient in Hpost.
      rewrite Henv in Hpost. discriminate Hpost. }
  rewrite (handleListMessages_unfold w _ parsed env [] Hv Henv) in Hpost.
  cbn zeta in Hpost. rewrite (listMessages_size p parsed Hv) in Hpost.
  set (params := parsed ?? Build_ListMessagesParams None None None) in *.
  destruct (messages_list w _ (labelIds params) (includeSpamTrash params))
    as [e|response] eqn:Hlist; [discriminate Hpost|].
  pose proof (details_spec w (response ?? [])
    ([] ++ [GmailClient (GOOGLE_CLIENT_ID env) (GOOGLE_CLIENT_SECRET env)
              (GOOGLE_REDIRECT_URI env) (GOOGLE_REFRESH_TOKEN env);
            MessagesList (requestedSize ((p ?? ∅) !! "maxResults"))
              (labelIds params) (includeSpamTrash params)])) as Hd.
  destruct (promise_all _ _) as [[e|ds] log2]; [discriminate Hpost|].
  destruct Hd as [-> Hids]. injection Hpost as <- <-.
  specialize (Hids ds eq_refl).
  assert (length (omap id ds) <= length (response ?? []))%nat as Hlen.
  { rewrite <- (length_map itemId), Hids, length_map. apply identified_length. }
  exists (labelIds params), (includeSpamTrash params), response, (omap id ds).
  cbn zeta. split; [exact Hlist|]. split; [cbn; tauto|].
  split; [reflexivity|]. split; [exact Hids|]. split; [exact Hlen|].
  apply within_le, Hlen.
Qed.

(** *** The size member of the two listing actions *)

Lemma listMessages_accepts_split (m : gmap string json) :
  Zod.is_ok (listMessagesSchema (Some (JObj m)))
  = Zod.is_ok (sizeSchema (m !! "maxResults"))
    && Zod.is_ok (listMessagesSchema (Some (JObj (delete "maxResults" m)))).
Proof.
  unfold listMessagesSchema, Zod.optional, Zod.object, Zod.field.
  rewrite !is_ok_rmap, !is_ok_ap, !is_ok_rmap, !is_ok_under.
  rewrite lookup_delete_eq, !lookup_delete_ne by done.
  cbn [sizeSchema Zod.optional Zod.is_ok andb]. rewrite andb_assoc. reflexivity.
Qed.

Lemma listPages_accepts_split (m : gmap string json) :
  Zod.is_ok (listPagesSchema (Some (JObj m)))
  = Zod.is_ok (sizeSchema (m !! "pageSize"))
    && Zod.is_ok (listPagesSchema (Some (JObj (delete "pageSize" m)))).
Proof.
  unfold listPagesSchema, Zod.refine, Zod.object, Zod.field.
  rewrite lookup_delete_eq, !lookup_delete_ne by done.
  destruct (sizeSchema (m !! "pageSize")),
    (Zod.optional Zod.string_ (m !! "filterProperty")),
    (Zod.optional Zod.string_ (m !! "filterValue"));
    cbn; unfold filterComplete; cbn [filterProperty filterValue];
    try reflexivity; destruct (negb _ || _); reflexivity.
Qed.

Lemma listMessages_size_rejected (m : gmap string json) :
  Zod.is_ok (sizeSchema (m !! "maxResults")) = false ->
  exists c, fails_with (listMessagesSchema (Some (JObj m)))
              (Zod.Issue c [Zod.Key "maxResults"]).
Proof.
  intros H. destruct (sizeSchema_fail _ H) as (c & errs & He & Hin).
  exists c. unfold listMessagesSchema, Zod.optional, Zod.object.
  apply fails_with_rmap, fails_with_ap_l, fails_with_ap_l, fails_with_rmap.
  unfold Zod.field. rewrite He. eexists. split; [reflexivity|].
  apply (in_map (Zod.at_seg (Zod.Key "maxResults"))) in Hin. exact Hin.
Qed.

Lemma listPages_size_rejected (m : gmap string json) :
  Zod.is_ok (sizeSchema (m !! "pageSize")) = false ->
  exists c, fails_with (listPagesSchema (Some (JObj m)))
              (Zod.Issue c [Zod.Key "pageSize"]).
Proof.
  intros H. destruct (sizeSchema_fail _ H) as (c & errs & He & Hin).
  exists c.
  assert (fails_with
            (Zod.ap (Zod.ap (Zod.rmap Build_ListPagesParams
               (Zod.field "pageSize" sizeSchema m))
               (Zod.field "filterProperty" (Zod.optional Zod.string_) m))
               (Zod.field "filterValue" (Zod.optional Zod.string_) m))
            (Zod.Issue c [Zod.Key "pageSize"])) as (errs' & He' & Hin').
  { apply fails_with_ap_l, fails_with_ap_l, fails_with_rmap.
    unfold Zod.field. rewrite He. eexists. split; [reflexivity|].
    apply (in_map (Zod.at_seg (Zod.Key "pageSize"))) in Hin. exact Hin. }
  unfold listPagesSchema, Zod.refine, Zod.object. rewrite He'.
  exists errs'. auto.
Qed.

Lemma listPages_size (m : gmap string json) params :
  listPagesSchema (Some (JObj m)) = Zod.ok params ->
  pageSize params = numberOf (m !! "pageSize")
  /\ (m !! "filterProperty" = None -> pageFilter params = None).
Proof.
  unfold listPagesSchema, Zod.refine, Zod.object.
  unfold Zod.field at 1.
  destruct (sizeSchema (m !! "pageSize")) as [r|] eqn:Hs;
    [apply sizeSchema_value in Hs; subst r|].
  - unfold Zod.field.
    destruct (m !! "filterProperty") as [j|] eqn:Hp.
    + destruct (Zod.optional Zod.string_ (Some j)),
        (Zod.optional Zod.string_ (m !! "filterValue")); cbn;
        try discriminate.
      destruct (filterComplete _); [|discriminate].
      intros [= <-]. split; [reflexivity | discriminate].
    + destruct (Zod.optional Zod.string_ (m !! "filterValue")); cbn;
        try discriminate.
      intros [= <-]. split; [reflexivity | reflexivity].
  - destruct (Zod.field "filterProperty" _ m), (Zod.field "filterValue" _ m);
      discriminate.
Qed.

Lemma twenty_one_out_of_range : ~ integer_1_to_20 (JNum (Finite 21)).
Proof.
  intros (q & k & [= <-] & Hk & E). unfold Qeq in E. cbn in E. lia.
Qed.

Lemma size_not_accepted v j :
  v = Some j -> ~ integer_1_to_20 j -> Zod.is_ok (sizeSchema v) = false.
Proof.
  intros -> Hn. destruct (Zod.is_ok (sizeSchema (Some j))) eqn:H; [|reflexivity].
  apply sizeSchema_accepts in H as [H|(j' & [= <-] & H)]; [discriminate|].
  contradiction.
Qed.

Lemma size_member_range (m : gmap string json) k v (rest : bool) :
  m !! k = Some v ->
  Zod.is_ok (sizeSchema (m !! k)) && rest = true
  <-> rest = true /\ integer_1_to_20 v.
Proof.
  intros Hv. rewrite andb_true_iff, sizeSchema_accepts, Hv. split.
  - intros [[H|(j & [= <-] & H)] Hr]; [discriminate | auto].
  - intros [Hr H]. split; [right; exists v; auto | exact Hr].
Qed.

Lemma listMessages_default_log w (p : option (gmap string json)) :
  Zod.is_ok (listMessagesSchema (Some (JObj (p ?? ∅)))) = true ->
  (exists env, gmail_configured w env) ->
  omap sizeOf (handleListMessages w (JObj <$> p) []).2
  = [requestedSize ((p ?? ∅) !! "maxResults")].
Proof.
  intros Hok [env Henv].
  assert (exists parsed, listMessagesSchema (JObj <$> p) = Zod.ok parsed)
    as [parsed Hv].
  { destruct p as [m|]; [|exists None; reflexivity].
    change (JObj <$> Some m) with (Some (JObj m)).
    change (Some m ?? ∅) with m in Hok.
    destruct (listMessagesSchema (Some (JObj m))); [eauto | discriminate Hok]. }
  rewrite (handleListMessages_unfold w _ parsed env [] Hv (gmailEnv_ok _ _ Henv)).
  cbn zeta. rewrite (listMessages_size p parsed Hv).
  destruct (messages_list w _ _ _) as [e|response]; [reflexivity|].
  pose proof (details_spec w (response ?? [])
    ([] ++ [GmailClient (GOOGLE_CLIENT_ID env) (GOOGLE_CLIENT_SECRET env)
              (GOOGLE_REDIRECT_URI env) (GOOGLE_REFRESH_TOKEN env);
            MessagesList (requestedSize ((p ?? ∅) !! "maxResults"))
              (labelIds (parsed ?? Build_ListMessagesParams None None None))
              (includeSpamTrash (parsed ?? Build_ListMessagesParams None None None))]))
    as Hd.
  destruct (promise_all _ _) as [r log2]. destruct Hd as [-> _].
  cbn [snd]. rewrite omap_app, sizeOf_details. reflexivity.
Qed.

Lemma listPages_default_log w (p : option (gmap string json)) :
  Zod.is_ok (listPagesSchema (Some (JObj (p ?? ∅)))) = true ->
  (exists env, notion_configured w env) ->
  omap sizeOf (handleListPages w (JObj <$> p) []).2
  = [requestedSize ((p ?? ∅) !! "pageSize")].
Proof.
  intros Hok [env Henv].
  destruct (listPagesSchema (Some (JObj (p ?? ∅)))) as [params|] eqn:Hv;
    [|discriminate].
  destruct (listPages_size _ _ Hv) as [Hsize _].
  assert ((JObj <$> p) ?? JObj ∅ = JObj (p ?? ∅)) as E by (destruct p; reflexivity).
  rewrite <- E in Hv.
  rewrite (handleListPages_run w (JObj <$> p) _ env [] Hv Henv).
  cbn [snd app omap list_omap sizeOf]. rewrite Hsize. reflexivity.
Qed.

(** C4. For gmail.listMessages ([maxResults]) and for notion.listPages
    ([pageSize]) alike, with a payload that is accepted once the size
    member is taken out: a size member that is present is accepted exactly
    when it is an integer between 1 and 20; one that is not is answered
    with status 400 and an issue on that member, and nothing is called; 21
    is not accepted; and when the member is left out (the service being
    configured) the one listing call that is made asks for 10. *)
Theorem size_parameter_range
    (w : World) (o : gmap string json) (p : option (gmap string json))
    (a k : string) :
  sizeMember a = Some k -> is_request o a p ->
  listingAccepts a (delete k (p ?? ∅)) = true ->
  (forall v, (p ?? ∅) !! k = Some v ->
     (listingAccepts a (p ?? ∅) = true <-> integer_1_to_20 v))
  /\ (forall v, (p ?? ∅) !! k = Some v -> ~ integer_1_to_20 v ->
        status (POST emailPattern w (inr (JObj o))).1 = 400
        /\ reports (POST emailPattern w (inr (JObj o))).1 k
        /\ (POST emailPattern w (inr (JObj o))).2 = [])
  /\ ~ integer_1_to_20 (JNum (Finite 21))
  /\ ((p ?? ∅) !! k = None -> configured w a ->
      omap sizeOf (POST emailPattern w (inr (JObj o))).2 = [Finite 10]).
Proof.
  unfold sizeMember, listingAccepts, configured.
  destruct (String.eqb_spec a "gmail.listMessages") as [->|_].
  - intros [= <-] Hreq Hrest.
    rewrite (POST_listMessages w o _ Hreq).
    split; [|split; [|split; [exact twenty_one_out_of_range|]]].
    + intros v Hv. rewrite listMessages_accepts_split, Hrest.
      rewrite (size_member_range _ _ v true Hv). tauto.
    + intros v Hv Hn.
      destruct p as [m|]; cbn [nullish] in Hv;
        [|rewrite lookup_empty in Hv; discriminate].
      destruct (listMessages_size_rejected m (size_not_accepted _ _ Hv Hn))
        as (c & errs & He & Hin).
      unfold handleListMessages. rewrite (respond_invalid _ _ _ errs He).
      split; [reflexivity|]. split; [|reflexivity].
      exists errs, (Zod.Issue c [Zod.Key "maxResults"]). auto.
    + intros Hnone Hconf. rewrite (delete_id _ _ Hnone) in Hrest.
      rewrite respond_log, (listMessages_default_log w p Hrest Hconf), Hnone.
      reflexivity.
  - destruct (String.eqb_spec a "notion.listPages") as [->|_]; [|discriminate].
    intros [= <-] Hreq Hrest.
    rewrite (POST_listPages w o _ Hreq).
    split; [|split; [|split; [exact twenty_one_out_of_range|]]].
    + intros v Hv. rewrite listPages_accepts_split, Hrest.
      rewrite (size_member_range _ _ v true Hv). tauto.
    + intros v Hv Hn.
      destruct p as [m|]; cbn [nullish] in Hv;
        [|rewrite lookup_empty in Hv; discriminate].
      destruct (listPages_size_rejected m (size_not_accepted _ _ Hv Hn))
        as (c & errs & He & Hin).
      unfold handleListPages. change ((JObj <$> Some m) ?? JObj ∅) with (JObj m).
      rewrite (respond_invalid _ _ _ errs He).
      split; [reflexivity|]. split; [|reflexivity].
      exists errs, (Zod.Issue c [Zod.Key "pageSize"]). auto.
    + intros Hnone Hconf. rewrite (delete_id _ _ Hnone) in Hrest.
      rewrite respond_log, (listPages_default_log w p Hrest Hconf), Hnone.
      reflexivity.
Qed.

(** *** A missing configuration variable *)

Lemma gmailEnv_missing w k :
  In k ["GOOGLE_CLIENT_ID"; "GOOGLE_CLIENT_SECRET"; "GOOGLE_REFRESH_TOKEN";
        "GOOGLE_REDIRECT_URI"] ->
  process_env w !! k = None ->
  exists errs, gmailEnvSchema (env_object w) = Zod.fail errs.
Proof.
  intros Hk Hnone. apply variable_absent in Hnone. cbn in Hnone.
  unfold gmailEnvSchema. cbn [env_object Zod.object].
  assert (forall A (r : Zod.result A) i, fails_with r i -> exists errs, r = Zod.fail errs)
    as Hf by (intros A r i (errs & -> & _); eauto).
  apply (Hf _ _ (Zod.Issue Zod.invalid_type [Zod.Key k])).
  destruct Hk as [<-|[<-|[<-|[<-|[]]]]].
  - apply fails_with_ap_l, fails_with_ap_l, fails_with_ap_l, fails_with_rmap, Hnone.
  - apply fails_with_ap_l, fails_with_ap_l, fails_with_ap_r, Hnone.
  - apply fails_with_ap_l, fails_with_ap_r, Hnone.
  - apply fails_with_ap_r, Hnone.
Qed.

Lemma notionEnv_missing w k :
  In k ["NOTION_API_KEY"; "NOTION_DATABASE_ID"; "NOTION_DATA_SOURCE_ID"] ->
  process_env w !! k = None ->
  fails_with (notionEnvSchema (env_object w))
    (Zod.Issue Zod.invalid_type [Zod.Key k]).
Proof.
  intros Hk Hnone. apply variable_absent in Hnone. cbn in Hnone.
  unfold notionEnvSchema. cbn [env_object Zod.object].
  destruct Hk as [<-|[<-|[<-|[]]]].
  - apply fails_with_ap_l, fails_with_ap_l, fails_with_rmap, Hnone.
  - apply fails_with_ap_l, fails_with_ap_r, Hnone.
  - apply fails_with_ap_r, Hnone.
Qed.

(** The mail service: a payload that passes, a variable that is absent.
    The client is not built, nothing is called, and the answer is the
    configuration error with status 500. *)
Lemma gmail_unconfigured_is_server_error
    (w : World) (o : gmap string json) (p : option (gmap string json))
    (a k : string) :
  is_request o a p ->
  (a = "gmail.listMessages"
   /\ Zod.is_ok (listMessagesSchema (JObj <$> p)) = true)
  \/ (a = "gmail.sendMessage"
      /\ Zod.is_ok (sendMessageSchema emailPattern (JObj <$> p)) = true) ->
  In k ["GOOGLE_CLIENT_ID"; "GOOGLE_CLIENT_SECRET"; "GOOGLE_REFRESH_TOKEN";
        "GOOGLE_REDIRECT_URI"] ->
  process_env w !! k = None ->
  POST emailPattern w (inr (JObj o))
  = ({| status := 500; envelope := ErrorEnvelope (Text gmailEnvMissing) |}, []).
Proof.
  intros Hreq Ha Hk Hnone.
  destruct (gmailEnv_missing w k Hk Hnone) as [errs He].
  assert (getGmailClient w [] = (inl (Error gmailEnvMissing), [])) as Hc
    by (unfold getGmailClient; rewrite He; reflexivity).
  destruct Ha as [[-> Hok]|[-> Hok]].
  - rewrite (POST_listMessages w o _ Hreq).
    destruct (listMessagesSchema (JObj <$> p)) as [parsed|] eqn:Hv; [|discriminate].
    rewrite (respond_thrown _ (Error gmailEnvMissing) []); [reflexivity|].
    unfold handleListMessages.
    rewrite (bind_value _ _ _ _ _ (parse_ok _ _ _ _ Hv)).
    apply bind_thrown, Hc.
  - rewrite (POST_sendMessage w o _ Hreq).
    destruct (sendMessageSchema emailPattern (JObj <$> p)) as [parsed|] eqn:Hv;
      [|discriminate].
    rewrite (respond_thrown _ (Error gmailEnvMissing) []); [reflexivity|].
    unfold handleSendMessage.
    rewrite (bind_value _ _ _ _ _ (parse_ok _ _ _ _ Hv)).
    apply bind_thrown, Hc.
Qed.

(** The document service: a payload that passes, a variable that is
    absent.  The handler parses the environment with [parse], which throws
    a [ZodError] before [getNotionClient] can raise the configuration
    error; the answer has status 400 and carries the issues. *)
Lemma notion_unconfigured_is_validation_error
    (w : World) (o : gmap string json) (p : option (gmap string json))
    (a k : string) :
  is_request o a p ->
  (a = "notion.listPages"
   /\ Zod.is_ok (listPagesSchema (Some (JObj (p ?? ∅)))) = true)
  \/ (a = "notion.createPage"
      /\ Zod.is_ok (createPageSchema (JObj <$> p)) = true) ->
  In k ["NOTION_API_KEY"; "NOTION_DATABASE_ID"; "NOTION_DATA_SOURCE_ID"] ->
  process_env w !! k = None ->
  status (POST emailPattern w (inr (JObj o))).1 = 400
  /\ reports (POST emailPattern w (inr (JObj o))).1 k
  /\ (POST emailPattern w (inr (JObj o))).2 = [].
Proof.
  intros Hreq Ha Hk Hnone.
  destruct (notionEnv_missing w k Hk Hnone) as (errs & He & Hin).
  assert (forall (m : Eff json),
            m [] = (inl (ZodError errs), []) ->
            let r := respond ((value ← m;
                       mret {| status := 200; envelope := Data value |}) []) in
            status r.1 = 400 /\ reports r.1 k /\ r.2 = []) as Hgoal.
  { intros m Hm. rewrite (respond_thrown _ _ _ Hm). cbn.
    split; [reflexivity|]. split; [|reflexivity].
    exists errs, (Zod.Issue Zod.invalid_type [Zod.Key k]). auto. }
  destruct Ha as [[-> Hok]|[-> Hok]].
  - rewrite (POST_listPages w o _ Hreq). apply Hgoal.
    assert ((JObj <$> p) ?? JObj ∅ = JObj (p ?? ∅)) as E by (destruct p; reflexivity).
    destruct (listPagesSchema (Some (JObj (p ?? ∅)))) as [parsed|] eqn:Hv;
      [|discriminate].
    rewrite <- E in Hv. unfold handleListPages.
    rewrite (bind_value _ _ _ _ _ (parse_ok _ _ _ _ Hv)).
    apply bind_thrown, parse_fail, He.
  - rewrite (POST_createPage w o _ Hreq). apply Hgoal.
    destruct (createPageSchema (JObj <$> p)) as [parsed|] eqn:Hv; [|discriminate].
    unfold handleCreatePage.
    rewrite (bind_value _ _ _ _ _ (parse_ok _ _ _ _ Hv)).
    apply bind_thrown, parse_fail, He.
Qed.

End Properties.

(** ** The properties on the samples *)

(** C1. With [NOTION_API_KEY] absent, notion.listPages is answered with
    status 400 and the issues of the environment schema, not with status
    500 and the configuration error of [getNotionClient]. *)
Theorem notion_missing_variable_answers_400 :
  POST Zod.emailRegex (Sample.world (delete "NOTION_API_KEY" Sample.env))
    (inr (JObj (Sample.request "notion.listPages" None)))
  = ({| status := 400;
        envelope :=
          ErrorEnvelope
            (Issues [Zod.Issue Zod.invalid_type [Zod.Key "NOTION_API_KEY"]]) |},
     []).
Proof. vm_compute. reflexivity. Qed.

Lemma unsupported_action_rejected_witness :
  (forall a,
     Sample.request "gmail.deleteMessage" (Some Sample.mail) !! "action"
     = Some (JStr a) -> ~ In a actions)
  /\ POST Zod.emailRegex (Sample.world Sample.env)
       (inr (JObj (Sample.request "gmail.deleteMessage" (Some Sample.mail))))
     = ({| status := 400; envelope := ErrorEnvelope (Issues [unsupported]) |}, []).
Proof.
  assert (forall a,
     Sample.request "gmail.deleteMessage" (Some Sample.mail) !! "action"
     = Some (JStr a) -> ~ In a actions) as H.
  { intros a Ha. vm_compute in Ha. injection Ha as <-.
    simpl. intros [E|[E|[E|[E|[]]]]]; discriminate E. }
  split; [exact H|].
  apply (proj2 (unsupported_action_rejected Zod.emailRegex
                  (Sample.world Sample.env) _ H) (Some Sample.mail)).
  reflexivity.
Defined.

Lemma missing_required_member_rejected_witness :
  is_request (Sample.request "gmail.sendMessage" (Some Sample.noBody))
    "gmail.sendMessage" (Some Sample.noBody)
  /\ In "gmail.sendMessage" actions
  /\ In "body" (required "gmail.sendMessage")
  /\ Sample.noBody !! "body" = None
  /\ status (POST Zod.emailRegex (Sample.world Sample.env)
               (inr (JObj (Sample.request "gmail.sendMessage"
                             (Some Sample.noBody))))).1 = 400.
Proof.
  assert (is_request (Sample.request "gmail.sendMessage" (Some Sample.noBody))
            "gmail.sendMessage" (Some Sample.noBody)) as H1
    by (split; reflexivity).
  assert (In "gmail.sendMessage" actions) as H2 by (simpl; tauto).
  assert (In "body" (required "gmail.sendMessage")) as H3 by (simpl; tauto).
  assert (Sample.noBody !! "body" = None) as H4 by reflexivity.
  repeat (split; [assumption|]).
  apply (missing_required_member_rejected Zod.emailRegex
           (Sample.world Sample.env) _ _ _ _ H1 H2 H3 H4).
Defined.

Lemma invalid_recipient_rejected_witness :
  is_request (Sample.request "gmail.sendMessage" (Some Sample.badRecipient))
    "gmail.sendMessage" (Some Sample.badRecipient)
  /\ (forall s, Sample.badRecipient !! "to" = Some (JStr s) ->
                Zod.emailRegex s = false)
  /\ (POST Zod.emailRegex (Sample.world Sample.env)
        (inr (JObj (Sample.request "gmail.sendMessage"
                      (Some Sample.badRecipient))))).2 = [].
Proof.
  assert (is_request (Sample.request "gmail.sendMessage" (Some Sample.badRecipient))
            "gmail.sendMessage" (Some Sample.badRecipient)) as H1
    by (split; reflexivity).
  assert (forall s, Sample.badRecipient !! "to" = Some (JStr s) ->
                    Zod.emailRegex s = false) as H2.
  { intros s Hs. vm_compute in Hs. injection Hs as <-. reflexivity. }
  repeat (split; [assumption|]).
  apply (invalid_recipient_rejected Zod.emailRegex
           (Sample.world Sample.env) _ _ H1 H2).
Defined.

Lemma sendMessage_submits_encoded_message_witness :
  is_request (Sample.request "gmail.sendMessage" (Some Sample.mail))
    "gmail.sendMessage" (Some Sample.mail)
  /\ Zod.emailRegex "a@example.com" = true
  /\ gmail_configured (Sample.world Sample.env) Sample.gmailEnv
  /\ POST Zod.emailRegex (Sample.world Sample.env)
       (inr (JObj (Sample.request "gmail.sendMessage" (Some Sample.mail))))
     = ({| status := 200; envelope := Data (obj [("status", str "sent")]) |},
        [GmailClient "client" "secret" "http://localhost" "token";
         MessagesSend
           "VG86IGFAZXhhbXBsZS5jb20NClN1YmplY3Q6IEhpDQpDb250ZW50LVR5cGU6IHRleHQvcGxhaW47IGNoYXJzZXQ9IlVURi04Ig0KDQpIZWxsbw"]).
Proof.
  assert (is_request (Sample.request "gmail.sendMessage" (Some Sample.mail))
            "gmail.sendMessage" (Some Sample.mail)) as H1
    by (split; reflexivity).
  assert (Zod.emailRegex "a@example.com" = true) as H2 by reflexivity.
  assert (gmail_configured (Sample.world Sample.env) Sample.gmailEnv) as H3
    by (repeat split; (reflexivity || discriminate)).
  repeat (split; [assumption|]).
  apply (proj1 (sendMessage_submits_encoded_message Zod.emailRegex
                  (Sample.world Sample.env) _ Sample.mail Sample.gmailEnv
                  "a@example.com" "Hi" "Hello" JNull
                  H1 eq_refl H2 eq_refl ltac:(discriminate)
                  eq_refl ltac:(discriminate) H3 eq_refl)).
Defined.

Lemma createPage_returns_pageId_and_url_witness :
  is_request (Sample.request "notion.createPage" (Some Sample.newPage))
    "notion.createPage" (Some Sample.newPage)
  /\ POST Zod.emailRegex (Sample.world Sample.env)
       (inr (JObj (Sample.request "notion.createPage" (Some Sample.newPage))))
     = ({| status := 200;
           envelope :=
             Data (obj [("pageId", str "p9");
                        ("url", str "https://notion.so/p9")]) |},
        [NotionClient "key"; PagesCreate "db" "Notes" "First line"])
  /\ exists database title content page fields,
       pages_create (Sample.world Sample.env) database title content = inr page
       /\ In (PagesCreate database title content)
            [NotionClient "key"; PagesCreate "db" "Notes" "First line"]
       /\ obj [("pageId", str "p9"); ("url", str "https://notion.so/p9")]
          = JObj fields
       /\ fields !! "pageId" = Some (JStr (created_id page))
       /\ fields !! "url"
          = Some (match created_url page with
                  | Some u => JStr u
                  | None => JNull
                  end).
Proof.
  assert (is_request (Sample.request "notion.createPage" (Some Sample.newPage))
            "notion.createPage" (Some Sample.newPage)) as H1
    by (split; reflexivity).
  assert (POST Zod.emailRegex (Sample.world Sample.env)
            (inr (JObj (Sample.request "notion.createPage" (Some Sample.newPage))))
          = ({| status := 200;
                envelope :=
                  Data (obj [("pageId", str "p9");
                             ("url", str "https://notion.so/p9")]) |},
             [NotionClient "key"; PagesCreate "db" "Notes" "First line"])) as H2
    by (vm_compute; reflexivity).
  repeat (split; [assumption|]).
  apply (createPage_returns_pageId_and_url Zod.emailRegex
           (Sample.world Sample.env) _ _ _ _ H1 H2).
Defined.

Lemma listMessages_keeps_listing_order_witness :
  is_request (Sample.request "gmail.listMessages" None) "gmail.listMessages" None
  /\ (exists v,
        POST Zod.emailRegex (Sample.world Sample.env)
          (inr (JObj (Sample.request "gmail.listMessages" None)))
        = ({| status := 200; envelope := Data v |},
           [GmailClient "client" "secret" "http://localhost" "token";
            MessagesList (Finite 10) None None;
            MessagesGet "m1"; MessagesGet "m3"])
        /\ exists items,
             v = obj [("messages", Some (JArr items))]
             /\ map itemId items = [Some "m1"; Some "m3"]
             /\ (length items <= length Sample.listing)%nat
             /\ within (length Sample.listing) (Finite 10)
             /\ within (length items) (Finite 10)).
Proof.
  assert (is_request (Sample.request "gmail.listMessages" None)
            "gmail.listMessages" None) as H1 by (split; reflexivity).
  split; [exact H1|].
  eexists. split; [vm_compute; reflexivity|].
  destruct (listMessages_keeps_listing_order Zod.emailRegex
              (Sample.world Sample.env) _ None _ _ H1 eq_refl)
    as (labels & spam & response & items & Hl & _ & Hv & Hids & Hlen & Hw).
  injection Hl as <-.
  assert (within (length Sample.listing) (Finite 10)) as H3
    by (vm_compute; discriminate).
  exists items. repeat split; try assumption. apply Hw, H3.
Defined.

Lemma filterProperty_requires_filterValue_witness :
  (is_request (Sample.request "notion.listPages" (Some Sample.propertyOnly))
     "notion.listPages" (Some Sample.propertyOnly)
   /\ Sample.propertyOnly !! "filterProperty" = Some (JStr "Status")
   /\ Sample.propertyOnly !! "filterValue" = None
   /\ POST Zod.emailRegex (Sample.world Sample.env)
        (inr (JObj (Sample.request "notion.listPages" (Some Sample.propertyOnly))))
      = ({| status := 400;
            envelope := ErrorEnvelope (Issues [filterValueMissing]) |}, []))
  /\ (is_request (Sample.request "notion.listPages" (Some Sample.propertyAndValue))
        "notion.listPages" (Some Sample.propertyAndValue)
      /\ Sample.propertyAndValue !! "filterProperty" = Some (JStr "Status")
      /\ Sample.propertyAndValue !! "filterValue" = Some (JStr "Done")
      /\ notion_configured (Sample.world Sample.env) Sample.notionEnv
      /\ (POST Zod.emailRegex (Sample.world Sample.env)
            (inr (JObj (Sample.request "notion.listPages"
                          (Some Sample.propertyAndValue))))).2
         = [NotionClient "key";
            DataSourcesQuery "ds" (Finite 10)
              (Some {| property := "Status"; contains := "Done" |})]).
Proof.
  assert (is_request (Sample.request "notion.listPages" (Some Sample.propertyOnly))
            "notion.listPages" (Some Sample.propertyOnly)) as H1
    by (split; reflexivity).
  assert (is_request (Sample.request "notion.listPages" (Some Sample.propertyAndValue))
            "notion.listPages" (Some Sample.propertyAndValue)) as H2
    by (split; reflexivity).
  assert (notion_configured (Sample.world Sample.env) Sample.notionEnv) as H3
    by (repeat split; (reflexivity || discriminate)).
  split.
  - split; [exact H1|]. split; [reflexivity|]. split; [reflexivity|].
    destruct (proj1 (filterProperty_requires_filterValue Zod.emailRegex
                       (Sample.world Sample.env) _ Sample.propertyOnly "Status"
                       H1 eq_refl ltac:(discriminate)) (or_introl eq_refl))
      as (Hs & Hl & He).
    specialize (He eq_refl).
    destruct (POST _ _ _) as [[st env] log]. cbn in Hs, Hl, He.
    rewrite Hs, Hl, He. reflexivity.
  - split; [exact H2|]. split; [reflexivity|]. split; [reflexivity|].
    split; [exact H3|].
    apply (proj2 (filterProperty_requires_filterValue Zod.emailRegex
                    (Sample.world Sample.env) _ Sample.propertyAndValue "Status"
                    H2 eq_refl ltac:(discriminate))
             "Done" Sample.notionEnv eq_refl ltac:(discriminate) eq_refl H3).
Defined.

(** The claim of C3 as the specification words it fails on the route: a
    payload whose [filterProperty] is present but empty, with no
    [filterValue], passes validation and is queried without a filter; and
    a payload with both members present, [filterValue] being empty, is
    rejected, so no query is issued for it. *)
Lemma empty_filter_members_escape_the_rule :
  (Sample.emptyProperty !! "filterProperty" = Some (JStr EmptyString)
   /\ Sample.emptyProperty !! "filterValue" = None
   /\ Zod.is_ok (listPagesSchema (Some (JObj Sample.emptyProperty))) = true
   /\ POST Zod.emailRegex (Sample.world Sample.env)
        (inr (JObj (Sample.request "notion.listPages" (Some Sample.emptyProperty))))
      = ({| status := 200;
            envelope :=
              Data (obj [("pages", Some (JArr [obj [
                ("id", str "p1"); ("url", str "https://notion.so/p1");
                ("createdTime", str "2025-01-01");
                ("lastEditedTime", str "2025-01-02");
                ("properties", Some (JObj ∅))]]))]) |},
         [NotionClient "key"; DataSourcesQuery "ds" (Finite 10) None]))
  /\ (Sample.emptyValue !! "filterProperty" = Some (JStr "Status")
      /\ Sample.emptyValue !! "filterValue" = Some (JStr EmptyString)
      /\ POST Zod.emailRegex (Sample.world Sample.env)
           (inr (JObj (Sample.request "notion.listPages" (Some Sample.emptyValue))))
         = ({| status := 400;
               envelope := ErrorEnvelope (Issues [filterValueMissing]) |}, [])).
Proof. vm_compute. repeat split. Qed.

Lemma size_parameter_range_witness :
  (sizeMember "gmail.listMessages" = Some "maxResults"
   /\ is_request (Sample.request "gmail.listMessages" (Some Sample.tooMany))
        "gmail.listMessages" (Some Sample.tooMany)
   /\ listingAccepts "gmail.listMessages" (delete "maxResults" Sample.tooMany)
      = true
   /\ Sample.tooMany !! "maxResults" = Some (JNum (Finite 21))
   /\ listingAccepts "gmail.listMessages" Sample.tooMany = false
   /\ status (POST Zod.emailRegex (Sample.world Sample.env)
                (inr (JObj (Sample.request "gmail.listMessages"
                              (Some Sample.tooMany))))).1 = 400)
  /\ (sizeMember "notion.listPages" = Some "pageSize"
      /\ is_request (Sample.request "notion.listPages" None)
           "notion.listPages" None
      /\ configured (Sample.world Sample.env) "notion.listPages"
      /\ omap sizeOf
           (POST Zod.emailRegex (Sample.world Sample.env)
              (inr (JObj (Sample.request "notion.listPages" None)))).2
         = [Finite 10]).
Proof.
  assert (is_request (Sample.request "gmail.listMessages" (Some Sample.tooMany))
            "gmail.listMessages" (Some Sample.tooMany)) as H1
    by (split; reflexivity).
  assert (is_request (Sample.request "notion.listPages" None)
            "notion.listPages" None) as H2 by (split; reflexivity).
  assert (configured (Sample.world Sample.env) "notion.listPages") as H3.
  { exists Sample.notionEnv. repeat split; (reflexivity || discriminate). }
  split.
  - destruct (size_parameter_range Zod.emailRegex (Sample.world Sample.env) _
                (Some Sample.tooMany) "gmail.listMessages" "maxResults"
                eq_refl H1 eq_refl) as (Hiff & Hrej & H21 & _).
    split; [reflexivity|]. split; [exact H1|]. split; [reflexivity|].
    split; [reflexivity|]. split; [reflexivity|].
    apply (Hrej (JNum (Finite 21)) eq_refl H21).
  - destruct (size_parameter_range Zod.emailRegex (Sample.world Sample.env) _
                None "notion.listPages" "pageSize"
                eq_refl H2 eq_refl) as (_ & _ & _ & Hdef).
    split; [reflexivity|]. split; [exact H2|]. split; [exact H3|].
    apply (Hdef eq_refl H3).
Defined.

Lemma filterValue_alone_is_ignored_witness :
  is_request (Sample.request "notion.listPages" (Some Sample.valueOnly))
    "notion.listPages" (Some Sample.valueOnly)
  /\ Sample.valueOnly !! "filterProperty" = None
  /\ Sample.valueOnly !! "filterValue" = Some (JStr "Done")
  /\ notion_configured (Sample.world Sample.env) Sample.notionEnv
  /\ Zod.is_ok (listPagesSchema (Some (JObj Sample.valueOnly))) = true
  /\ (POST Zod.emailRegex (Sample.world Sample.env)
        (inr (JObj (Sample.request "notion.listPages" (Some Sample.valueOnly))))).2
     = [NotionClient "key"; DataSourcesQuery "ds" (Finite 10) None].
Proof.
  assert (is_request (Sample.request "notion.listPages" (Some Sample.valueOnly))
            "notion.listPages" (Some Sample.valueOnly)) as H1
    by (split; reflexivity).
  assert (notion_configured (Sample.world Sample.env) Sample.notionEnv) as H2
    by (repeat split; (reflexivity || discriminate)).
  destruct (filterValue_alone_is_ignored Zod.emailRegex (Sample.world Sample.env)
              _ (Some Sample.valueOnly) (Some "Done")
              H1 (or_introl eq_refl) eq_refl eq_refl) as [Hok Hlog].
  split; [exact H1|]. split; [reflexivity|]. split; [reflexivity|].
  split; [exact H2|]. split; [exact Hok|]. apply (Hlog _ H2).
Defined.

(** ** Further properties of the route and of the control panel *)

Section Further.

Variable emailPattern : string -> bool.

(** *** What every answer looks like *)

Lemma requestSchema_action v parsed :
  requestSchema v = Zod.ok parsed -> In (action parsed) actions.
Proof.
  unfold requestSchema, Zod.object.
  destruct v as [[| | | | |o]|]; try discriminate.
  unfold Zod.field at 1. unfold Zod.enum.
  destruct (o !! "action") as [[| | |a| |]|];
    try (destruct (Zod.field "payload" _ o); discriminate).
  destruct (existsb (String.eqb a) actions) eqn:He;
    [|destruct (Zod.field "payload" _ o); discriminate].
  destruct (Zod.field "payload" _ o); [|discriminate].
  intros [= <-]. apply existsb_exists in He as (a' & Hin & E).
  apply String.eqb_eq in E. subst a'. exact Hin.
Qed.

(** After the request schema, the switch always finds its case. *)
Lemma dispatch_handler w parsed :
  In (action parsed) actions ->
  exists m : Eff json,
    dispatch emailPattern w parsed
    = (value ← m; mret {| status := 200; envelope := Data value |}).
Proof.
  destruct parsed as [a p]. cbn [action].
  intros [<-|[<-|[<-|[<-|[]]]]]; eexists; reflexivity.
Qed.

Lemma respond_shape (m : Eff json) :
  let r := (respond ((value ← m;
              mret {| status := 200; envelope := Data value |}) [])).1 in
  (status r = 200 /\ exists v, envelope r = Data v)
  \/ ((status r = 400 \/ status r = 500) /\ exists e, envelope r = ErrorEnvelope e).
Proof.
  unfold mbind, Eff_bind, bind, mret, Eff_ret, ret, respond.
  destruct (m []) as [[[]|j] log]; cbn; eauto 6.
Qed.

(** The status is 200, 400 or 500; the body is the handler's data exactly
    when the status is 200, and an error envelope otherwise.  This holds
    for every request body, parsed or not, and in every world. *)
Theorem POST_status_and_envelope (w : World) (requestBody : thrown + json) :
  let r := (POST emailPattern w requestBody).1 in
  (status r = 200 /\ exists v, envelope r = Data v)
  \/ ((status r = 400 \/ status r = 500) /\ exists e, envelope r = ErrorEnvelope e).
Proof.
  destruct requestBody as [e|body].
  - right. destruct e; cbn; solve [eauto 6].
  - destruct body as [| | | | |o]; try solve [right; cbn; eauto 6].
    destruct (requestSchema (Some (JObj o))) as [parsed|errs] eqn:Hs.
    + destruct (dispatch_handler w parsed (requestSchema_action _ _ Hs)) as [m Hm].
      rewrite (POST_parsed emailPattern w o parsed Hs), Hm.
      apply (respond_shape m).
    + rewrite (POST_rejected emailPattern w o errs Hs). right. cbn. eauto 6.
Qed.

(** *** No call before validation and configuration *)

Lemma requestSchema_inv (o : gmap string json) parsed :
  requestSchema (Some (JObj o)) = Zod.ok parsed ->
  is_request o (action parsed) (payload parsed).
Proof.
  unfold requestSchema, Zod.object, Zod.field, Zod.enum, Zod.optional,
    Zod.record_any, is_request.
  destruct (o !! "action") as [[| | |a| |]|];
    try (destruct (o !! "payload") as [[]|]; discriminate).
  destruct (existsb (String.eqb a) actions);
    [|destruct (o !! "payload") as [[]|]; discriminate].
  destruct (o !! "payload") as [[| | | | |p]|]; try discriminate;
    intros [= <-]; split; reflexivity.
Qed.

Lemma variable_set_inv w name value :
  match env_object w with
  | Some (JObj o) => Zod.field name (Zod.min1 Zod.string_) o = Zod.ok value
  | _ => False
  end ->
  variable_set w name value.
Proof.
  cbn. unfold Zod.field, Zod.min1, Zod.checks, Zod.string_, variable_set.
  rewrite lookup_fmap. destruct (process_env w !! name) as [v|]; [|discriminate].
  cbn. destruct (String.eqb_spec v EmptyString) as [->|Hne]; [discriminate|].
  cbn. intros [= <-]. auto.
Qed.

Lemma gmailEnv_inv w env :
  gmailEnvSchema (env_object w) = Zod.ok env -> gmail_configured w env.
Proof.
  unfold gmailEnvSchema. cbn [env_object Zod.object].
  pose proof (variable_set_inv w "GOOGLE_CLIENT_ID") as H1.
  pose proof (variable_set_inv w "GOOGLE_CLIENT_SECRET") as H2.
  pose proof (variable_set_inv w "GOOGLE_REFRESH_TOKEN") as H3.
  pose proof (variable_set_inv w "GOOGLE_REDIRECT_URI") as H4.
  cbn [env_object] in H1, H2, H3, H4.
  destruct (Zod.field "GOOGLE_CLIENT_ID" _ _) as [a|],
    (Zod.field "GOOGLE_CLIENT_SECRET" _ _) as [b|],
    (Zod.field "GOOGLE_REFRESH_TOKEN" _ _) as [c|],
    (Zod.field "GOOGLE_REDIRECT_URI" _ _) as [d|]; try discriminate.
  intros [= <-].
  exact (conj (H1 _ eq_refl) (conj (H2 _ eq_refl)
           (conj (H3 _ eq_refl) (H4 _ eq_refl)))).
Qed.

Lemma notionEnv_inv w env :
  notionEnvSchema (env_object w) = Zod.ok env -> notion_configured w env.
Proof.
  unfold notionEnvSchema. cbn [env_object Zod.object].
  pose proof (variable_set_inv w "NOTION_API_KEY") as H1.
  pose proof (variable_set_inv w "NOTION_DATABASE_ID") as H2.
  pose proof (variable_set_inv w "NOTION_DATA_SOURCE_ID") as H3.
  cbn [env_object] in H1, H2, H3.
  destruct (Zod.field "NOTION_API_KEY" _ _) as [a|],
    (Zod.field "NOTION_DATABASE_ID" _ _) as [b|],
    (Zod.field "NOTION_DATA_SOURCE_ID" _ _) as [c|]; try discriminate.
  intros [= <-].
  exact (conj (H1 _ eq_refl) (conj (H2 _ eq_refl) (H3 _ eq_refl))).
Qed.

Lemma not_accepted_fails {A} (r : Zod.result A) :
  Zod.is_ok r = false -> exists errs, r = Zod.fail errs.
Proof. destruct r; [discriminate | eauto]. Qed.

(** A handler that called something had parsed its payload and found its
    service configured. *)
Lemma gmail_handler_called {A} (s : Zod.schema A) v (k : A -> Eff json) w :
  ((params ← parse s v; _ ← getGmailClient w; k params) []).2 <> [] ->
  Zod.is_ok (s v) = true /\ exists env, gmail_configured w env.
Proof.
  destruct (s v) as [a|errs] eqn:Hv.
  2:{ rewrite (bind_thrown _ _ _ _ _ (parse_fail _ _ _ _ Hv)). contradiction. }
  rewrite (bind_value _ _ _ _ _ (parse_ok _ _ _ _ Hv)).
  destruct (gmailEnvSchema (env_object w)) as [env|errs] eqn:He.
  - intros _. split; [reflexivity|]. exists env. apply gmailEnv_inv, He.
  - assert (getGmailClient w [] = (inl (Error gmailEnvMissing), [])) as Hc
      by (unfold getGmailClient; rewrite He; reflexivity).
    rewrite (bind_thrown _ _ _ _ _ Hc). contradiction.
Qed.

Lemma notion_handler_called {A} (s : Zod.schema A) v (k : A -> NotionEnv -> Eff json) w :
  ((params ← parse s v; env ← parse notionEnvSchema (env_object w);
    k params env) []).2 <> [] ->
  Zod.is_ok (s v) = true /\ exists env, notion_configured w env.
Proof.
  destruct (s v) as [a|errs] eqn:Hv.
  2:{ rewrite (bind_thrown _ _ _ _ _ (parse_fail _ _ _ _ Hv)). contradiction. }
  rewrite (bind_value _ _ _ _ _ (parse_ok _ _ _ _ Hv)).
  destruct (notionEnvSchema (env_object w)) as [env|errs] eqn:He.
  - intros _. split; [reflexivity|]. exists env. apply notionEnv_inv, He.
  - rewrite (bind_thrown _ _ _ _ _ (parse_fail _ _ _ _ He)). contradiction.
Qed.

(** Whatever the request body and the world: if anything at all was
    called (even the construction of a client), the body was a request for
    one of the four actions, its payload had passed the schema of that
    action, and the service of that action had all its variables set. *)
Theorem calls_only_after_validation (w : World) (requestBody : thrown + json) :
  (POST emailPattern w requestBody).2 <> [] ->
  exists o a p,
    requestBody = inr (JObj o)
    /\ is_request o a p /\ In a actions
    /\ payloadAccepted emailPattern a p = true
    /\ serviceConfigured w a.
Proof.
  destruct requestBody as [e|body]; [destruct e; contradiction|].
  destruct body as [| | | | |o]; try contradiction.
  destruct (requestSchema (Some (JObj o))) as [parsed|errs] eqn:Hs.
  2:{ rewrite (POST_rejected emailPattern w o errs Hs). contradiction. }
  pose proof (requestSchema_action _ _ Hs) as Hin.
  pose proof (requestSchema_inv _ _ Hs) as Hreq.
  destruct parsed as [a p]. cbn [action payload] in *.
  intros Hlog. exists o, a, p. split; [reflexivity|]. split; [exact Hreq|].
  split; [exact Hin|].
  destruct Hin as [<-|[<-|[<-|[<-|[]]]]].
  - rewrite (POST_listMessages emailPattern w o p Hreq), respond_log in Hlog.
    apply gmail_handler_called in Hlog. exact Hlog.
  - rewrite (POST_sendMessage emailPattern w o p Hreq), respond_log in Hlog.
    apply gmail_handler_called in Hlog. exact Hlog.
  - rewrite (POST_listPages emailPattern w o p Hreq), respond_log in Hlog.
    apply notion_handler_called in Hlog. exact Hlog.
  - rewrite (POST_createPage emailPattern w o p Hreq), respond_log in Hlog.
    apply notion_handler_called in Hlog. exact Hlog.
Qed.

(** *** Failures of the services *)

Lemma handleCreatePage_run w v params env log :
  createPageSchema v = Zod.ok params ->
  notion_configured w env ->
  handleCreatePage w v log
  = (match pages_create w (NOTION_DATABASE_ID env) (title params)
             (content params) with
     | inl e => inl e
     | inr page =>
         inr (obj [("pageId", str (created_id page));
                   ("url", Some (match created_url page with
                                 | Some u => JStr u
                                 | None => JNull
                                 end))])
     end,
     log ++ [NotionClient (NOTION_API_KEY env);
             PagesCreate (NOTION_DATABASE_ID env) (title params)
               (content params)]).
Proof.
  intros Hv Henv. unfold handleCreatePage.
  rewrite (bind_value _ _ _ _ _ (parse_ok _ _ _ _ Hv)).
  rewrite (bind_value _ _ _ _ _
             (parse_ok _ _ _ _ (notionEnv_ok _ _ Henv))).
  rewrite (bind_value _ _ _ _ _ (getNotionClient_ok _ _ _ Henv)).
  unfold mbind, Eff_bind, bind, perform, mret, Eff_ret, ret.
  rewrite <- app_assoc.
  destruct (pages_create w _ _ _); reflexivity.
Qed.

Lemma accepted_parsed {A} (r : Zod.result A) :
  Zod.is_ok r = true -> exists a, r = Zod.ok a.
Proof. destruct r; [eauto | discriminate]. Qed.

Lemma respond_surfaced (m : Eff json) e log :
  m [] = (inl e, log) -> (forall errs, e <> ZodError errs) ->
  let r := (respond ((value ← m;
              mret {| status := 200; envelope := Data value |}) [])).1 in
  status r = 500 /\ envelope r = ErrorEnvelope (Text (surfaced e)).
Proof.
  intros Hm He. rewrite (respond_thrown _ _ _ Hm).
  destruct e as [errs| |]; [destruct (He errs eq_refl)| |]; split; reflexivity.
Qed.

(** When the payload is accepted and the service configured, a call that
    the service rejects ends the request with status 500, and the message
    of the thrown error is passed on as it is (a fixed text stands in for
    a thrown value that is no error). *)
Theorem external_failure_is_surfaced
    (w : World) (o : gmap string json) (p : option (gmap string json))
    (a : string) (e : thrown) :
  is_request o a p -> In a actions ->
  payloadAccepted emailPattern a p = true -> serviceConfigured w a ->
  rejects_all w e -> (forall errs, e <> ZodError errs) ->
  status (POST emailPattern w (inr (JObj o))).1 = 500
  /\ envelope (POST emailPattern w (inr (JObj o))).1
     = ErrorEnvelope (Text (surfaced e)).
Proof.
  intros Hreq Hin Hacc Hconf (Hlist & _ & Hsend & Hquery & Hcreate) He.
  unfold payloadAccepted, serviceConfigured in *.
  destruct Hin as [<-|[<-|[<-|[<-|[]]]]]; cbn in Hacc, Hconf;
    destruct Hconf as [env Henv];
    apply accepted_parsed in Hacc as [params Hv].
  - rewrite (POST_listMessages emailPattern w o p Hreq).
    apply (respond_surfaced _ e
      ([] ++ [GmailClient (GOOGLE_CLIENT_ID env) (GOOGLE_CLIENT_SECRET env)
                (GOOGLE_REDIRECT_URI env) (GOOGLE_REFRESH_TOKEN env);
              MessagesList
                (maxResults (params ?? Build_ListMessagesParams None None None)
                   ?? Finite 10)
                (labelIds (params ?? Build_ListMessagesParams None None None))
                (includeSpamTrash
                   (params ?? Build_ListMessagesParams None None None))]));
      [|exact He].
    rewrite (handleListMessages_unfold w _ params env [] Hv (gmailEnv_ok _ _ Henv)).
    cbn zeta. rewrite Hlist. reflexivity.
  - rewrite (POST_sendMessage emailPattern w o p Hreq).
    apply (respond_surfaced _ e
      ([] ++ [GmailClient (GOOGLE_CLIENT_ID env) (GOOGLE_CLIENT_SECRET env)
                (GOOGLE_REDIRECT_URI env) (GOOGLE_REFRESH_TOKEN env);
              MessagesSend (encodedMessage (rawMessage params))]));
      [|exact He].
    rewrite (handleSendMessage_run emailPattern w _ params env [] Hv Henv).
    rewrite Hsend. reflexivity.
  - rewrite (POST_listPages emailPattern w o p Hreq).
    apply (respond_surfaced _ e
      ([] ++ [NotionClient (NOTION_API_KEY env);
              DataSourcesQuery (NOTION_DATA_SOURCE_ID env)
                (pageSize params ?? Finite 10) (pageFilter params)]));
      [|exact He].
    rewrite (handleListPages_run w _ params env [] Hv Henv).
    cbn zeta. rewrite Hquery. reflexivity.
  - rewrite (POST_createPage emailPattern w o p Hreq).
    apply (respond_surfaced _ e
      ([] ++ [NotionClient (NOTION_API_KEY env);
              PagesCreate (NOTION_DATABASE_ID env) (title params)
                (content params)]));
      [|exact He].
    rewrite (handleCreatePage_run w _ params env [] Hv Henv).
    rewrite Hcreate. reflexivity.
Qed.

(** *** The mail service without its configuration *)

Lemma variable_unset_fails w name :
  variable_unset w name ->
  exists i, fails_with
    (Zod.field name (Zod.min1 Zod.string_) (JStr <$> process_env w)) i.
Proof.
  intros [H|H]; unfold Zod.field, Zod.min1, Zod.checks, Zod.string_;
    rewrite lookup_fmap, H; eexists; eexists;
    (split; [reflexivity | left; reflexivity]).
Qed.

(** A gmail action whose payload is accepted, with one of the four
    variables absent or empty: the answer is the configuration error with
    status 500, and nothing is called, not even the client constructor. *)
Theorem gmail_configuration_error
    (w : World) (o : gmap string json) (p : option (gmap string json))
    (a k : string) :
  is_request o a p ->
  a = "gmail.listMessages" \/ a = "gmail.sendMessage" ->
  payloadAccepted emailPattern a p = true ->
  In k ["GOOGLE_CLIENT_ID"; "GOOGLE_CLIENT_SECRET"; "GOOGLE_REFRESH_TOKEN";
        "GOOGLE_REDIRECT_URI"] ->
  variable_unset w k ->
  POST emailPattern w (inr (JObj o))
  = ({| status := 500; envelope := ErrorEnvelope (Text gmailEnvMissing) |}, []).
Proof.
  intros Hreq Ha Hacc Hk Hunset.
  destruct (variable_unset_fails w k Hunset) as [i Hi].
  assert (exists errs, gmailEnvSchema (env_object w) = Zod.fail errs) as [errs He].
  { assert (fails_with (gmailEnvSchema (env_object w)) i) as (errs & He & _);
      [|eauto].
    unfold gmailEnvSchema. cbn [env_object Zod.object].
    destruct Hk as [<-|[<-|[<-|[<-|[]]]]].
    - apply fails_with_ap_l, fails_with_ap_l, fails_with_ap_l, fails_with_rmap, Hi.
    - apply fails_with_ap_l, fails_with_ap_l, fails_with_ap_r, Hi.
    - apply fails_with_ap_l, fails_with_ap_r, Hi.
    - apply fails_with_ap_r, Hi. }
  assert (getGmailClient w [] = (inl (Error gmailEnvMissing), [])) as Hc
    by (unfold getGmailClient; rewrite He; reflexivity).
  unfold payloadAccepted in Hacc.
  destruct Ha as [->| ->]; cbn in Hacc;
    apply accepted_parsed in Hacc as [params Hv].
  - rewrite (POST_listMessages emailPattern w o p Hreq).
    rewrite (respond_thrown _ (Error gmailEnvMissing) []); [reflexivity|].
    unfold handleListMessages.
    rewrite (bind_value _ _ _ _ _ (parse_ok _ _ _ _ Hv)).
    apply bind_thrown, Hc.
  - rewrite (POST_sendMessage emailPattern w o p Hreq).
    rewrite (respond_thrown _ (Error gmailEnvMissing) []); [reflexivity|].
    unfold handleSendMessage.
    rewrite (bind_value _ _ _ _ _ (parse_ok _ _ _ _ Hv)).
    apply bind_thrown, Hc.
Qed.

(** *** notion.createPage and notion.listPages, forwards *)

Lemma createPage_valid (p : gmap string json) t c :
  p !! "title" = Some (JStr t) -> t <> EmptyString ->
  p !! "content" = Some (JStr c) -> c <> EmptyString ->
  createPageSchema (Some (JObj p)) = Zod.ok {| title := t; content := c |}.
Proof.
  intros Ht Ht' Hc Hc'. unfold createPageSchema, Zod.object, Zod.field.
  rewrite Ht, Hc, (min1_ok _ Ht'), (min1_ok _ Hc'). reflexivity.
Qed.

(** A createPage payload with a non-empty title and content, the document
    service being configured: the client is built with the API key and
    exactly one page is created, under the configured database, with the
    title and the content as they were given; when the service answers,
    the status is 200. *)
Theorem createPage_creates_one_page
    (w : World) (o p : gmap string json) (env : NotionEnv)
    (t c : string) (page : CreatedPage) :
  is_request o "notion.createPage" (Some p) ->
  p !! "title" = Some (JStr t) -> t <> EmptyString ->
  p !! "content" = Some (JStr c) -> c <> EmptyString ->
  notion_configured w env ->
  pages_create w (NOTION_DATABASE_ID env) t c = inr page ->
  POST emailPattern w (inr (JObj o))
  = ({| status := 200;
        envelope :=
          Data (obj [("pageId", str (created_id page));
                     ("url", Some (match created_url page with
                                   | Some u => JStr u
                                   | None => JNull
                                   end))]) |},
     [NotionClient (NOTION_API_KEY env);
      PagesCreate (NOTION_DATABASE_ID env) t c]).
Proof.
  intros Hreq Ht Ht' Hc Hc' Henv Hpage.
  rewrite (POST_createPage emailPattern w o _ Hreq).
  change (JObj <$> Some p) with (Some (JObj p)).
  pose proof (handleCreatePage_run w (Some (JObj p)) _ env []
                (createPage_valid p t c Ht Ht' Hc Hc') Henv) as Hrun.
  cbn [title content] in Hrun. rewrite Hpage in Hrun.
  rewrite (respond_value _ _ _ Hrun). reflexivity.
Qed.

Lemma pageSummary_ids items :
  map itemId (omap pageSummary items)
  = map (fun item => Some (item_id item)) (List.filter fullPage items).
Proof.
  induction items as [|item items IH]; [reflexivity|].
  cbn [omap list_omap List.filter]. unfold pageSummary at 1, fullPage at 1.
  destruct (full item) as [page|]; [|exact IH].
  destruct (String.eqb (object item) "page"); [|exact IH].
  cbn [map]. rewrite itemId_obj, IH. reflexivity.
Qed.

Lemma filter_length_le {A} (f : A -> bool) l :
  (length (List.filter f l) <= length l)%nat.
Proof.
  induction l as [|x l IH]; [reflexivity|]. cbn.
  destruct (f x); cbn; lia.
Qed.

(** A listPages payload that is accepted, the document service being
    configured, and a query that answers with [items]: the status is 200
    and the pages of the result are, in the order of the answer, the items
    that are full pages; partial objects and data sources are left out. *)
Theorem listPages_returns_the_full_pages
    (w : World) (o : gmap string json) (p : option (gmap string json))
    (env : NotionEnv) (items : list QueryItem) :
  is_request o "notion.listPages" p ->
  payloadAccepted emailPattern "notion.listPages" p = true ->
  notion_configured w env ->
  (forall size filter,
     dataSources_query w (NOTION_DATA_SOURCE_ID env) size filter = inr items) ->
  exists pages,
    (POST emailPattern w (inr (JObj o))).1
    = {| status := 200;
         envelope := Data (obj [("pages", Some (JArr pages))]) |}
    /\ map itemId pages
       = map (fun item => Some (item_id item)) (List.filter fullPage items)
    /\ (length pages <= length items)%nat.
Proof.
  intros Hreq Hacc Henv Hquery.
  unfold payloadAccepted in Hacc. cbn in Hacc.
  apply accepted_parsed in Hacc as [params Hv].
  exists (omap pageSummary items).
  rewrite (POST_listPages emailPattern w o p Hreq).
  pose proof (handleListPages_run w _ params env [] Hv Henv) as Hrun.
  cbn zeta in Hrun. rewrite Hquery in Hrun.
  rewrite (respond_value _ _ _ Hrun).
  split; [reflexivity|]. split; [apply pageSummary_ids|].
  rewrite <- (length_map itemId), pageSummary_ids, length_map.
  apply filter_length_le.
Qed.

(** *** The headers of a message *)


(** *** gmail.listMessages: the fan-out *)

Lemma messageDetail_get w m log id :
  (if truthy (msg_id m) then msg_id m else None) = Some id ->
  exists render,
    messageDetail w m log
    = (match messages_get w id with
       | inl e => inl e
       | inr data => inr (Some (render data))
       end, log ++ [MessagesGet id]).
Proof.
  unfold messageDetail. destruct (msg_id m) as [[|c i]|]; try discriminate.
  cbn [truthy negb]. intros [= <-].
  unfold mbind, Eff_bind, bind, perform, mret, Eff_ret, ret.
  eexists (fun data => _).
  destruct (messages_get w (String c i)); reflexivity.
Qed.

Lemma details_outcome w listing log :
  (exists ds, (promise_all (map (messageDetail w) listing) log).1 = inr ds)
  <-> (forall id, In id (identified listing) ->
                  exists d, messages_get w id = inr d).
Proof.
  revert log. induction listing as [|m listing IH]; intros log.
  - cbn. split; [intros _ id [] | eauto].
  - cbn [map promise_all]. unfold identified. cbn [omap list_omap].
    fold (identified listing).
    pose proof (messageDetail_spec w m log) as Hnone.
    destruct (if truthy (msg_id m) then msg_id m else None) as [i|] eqn:Hi.
    + clear Hnone. destruct (messageDetail_get w m log i Hi) as [render ->].
      specialize (IH (log ++ [MessagesGet i])).
      destruct (promise_all _ _) as [rs log2]. cbn [fst] in *.
      destruct (messages_get w i) as [e|data] eqn:Hget.
      * split; [intros [ds Hds]; cbn in Hds; discriminate Hds|].
        intros H. destruct (H i (or_introl eq_refl)) as [d Hd].
        rewrite Hget in Hd. discriminate Hd.
      * split.
        -- intros [ds Hds]. destruct rs as [e|l]; [cbn in Hds; discriminate Hds|].
           intros id [<-|Hin]; [eauto|].
           apply (proj1 IH); [eauto | exact Hin].
        -- intros H. destruct (proj2 IH (fun id Hin => H id (or_intror Hin)))
             as [l ->]. eauto.
    + rewrite Hnone. specialize (IH log).
      destruct (promise_all _ _) as [rs log2]. cbn [fst] in *.
      split.
      * intros [ds Hds]. destruct rs as [e|l]; [cbn in Hds; discriminate Hds|].
        apply (proj1 IH). eauto.
      * intros H. destruct (proj2 IH H) as [l ->]. eauto.
Qed.

Lemma respond_status_200 (m : Eff json) :
  status (respond ((value ← m;
            mret {| status := 200; envelope := Data value |}) [])).1 = 200
  <-> exists v, (m []).1 = inr v.
Proof.
  unfold mbind, Eff_bind, bind, mret, Eff_ret, ret, respond.
  destruct (m []) as [[[]|j] log]; cbn; split;
    (discriminate || eauto || (intros [v Hv]; discriminate Hv)).
Qed.

(** A listMessages payload that is accepted, the mail service being
    configured, and a listing call that answers.  After the client and the
    listing call, one detail call is made for every message of the listing
    that has an identifier, in the order of the listing, whether or not
    some of them fail; a listing without messages makes none.  The status
    is 200 exactly when every one of these detail calls succeeds: one
    failure fails the whole request. *)
Theorem listMessages_fans_out
    (w : World) (o : gmap string json) (p : option (gmap string json))
    (env : GmailEnv) (response : option (list MessageRef)) :
  is_request o "gmail.listMessages" p ->
  payloadAccepted emailPattern "gmail.listMessages" p = true ->
  gmail_configured w env ->
  (forall n l s, messages_list w n l s = inr response) ->
  (exists labels spam,
     (POST emailPattern w (inr (JObj o))).2
     = [GmailClient (GOOGLE_CLIENT_ID env) (GOOGLE_CLIENT_SECRET env)
          (GOOGLE_REDIRECT_URI env) (GOOGLE_REFRESH_TOKEN env);
        MessagesList (requestedSize ((p ?? ∅) !! "maxResults")) labels spam]
       ++ map MessagesGet (identified (response ?? [])))
  /\ (status (POST emailPattern w (inr (JObj o))).1 = 200
      <-> forall id, In id (identified (response ?? [])) ->
                     exists d, messages_get w id = inr d).
Proof.
  intros Hreq Hacc Henv Hlist.
  unfold payloadAccepted in Hacc. cbn in Hacc.
  apply accepted_parsed in Hacc as [parsed Hv].
  rewrite (POST_listMessages emailPattern w o p Hreq).
  rewrite respond_log, respond_status_200.
  rewrite (handleListMessages_unfold w _ parsed env [] Hv (gmailEnv_ok _ _ Henv)).
  cbn zeta. rewrite (listMessages_size p parsed Hv), Hlist.
  set (params := parsed ?? Build_ListMessagesParams None None None).
  set (log1 := [] ++ _).
  pose proof (details_spec w (response ?? []) log1) as Hd.
  pose proof (details_outcome w (response ?? []) log1) as Ho.
  destruct (promise_all _ _) as [r log2]. destruct Hd as [-> _].
  cbn [fst snd] in *. split.
  - exists (labelIds params), (includeSpamTrash params). reflexivity.
  - rewrite <- Ho. destruct r as [e|ds]; split; intros [x Hx];
      (discriminate Hx || eauto).
Qed.

(** *** The encoded message *)

Lemma lor_small x y n :
  0 <= n -> x mod 2 ^ n = 0 -> 0 <= y < 2 ^ n -> Z.lor x y = x + y.
Proof.
  intros Hn Hx Hy.
  assert (Z.land x y = 0) as Hl.
  { apply Z.bits_inj'. intros i Hi. rewrite Z.land_spec, Z.bits_0.
    destruct (Z.lt_ge_cases i n) as [Hlt|Hge].
    - assert (x = (x / 2 ^ n) * 2 ^ n) as E.
      { rewrite Z.mul_comm. apply Z.div_exact; [lia | exact Hx]. }
      rewrite E, Z.mul_pow2_bits_low by lia. reflexivity.
    - rewrite <- (Z.mod_small y (2 ^ n)) by lia.
      rewrite Z.mod_pow2_bits_high by lia. apply andb_false_r. }
  rewrite <- Z.lxor_lor by exact Hl. symmetry. apply Z.add_nocarry_lxor, Hl.
Qed.

Lemma sextet_arith g k : 0 <= k -> Base64.sextet g k = (g / 2 ^ (6 * k)) mod 64.
Proof.
  intros Hk. unfold Base64.sextet. rewrite Z.shiftr_div_pow2 by lia.
  change 63 with (Z.ones 6). rewrite Z.land_ones by lia. reflexivity.
Qed.

Lemma regroup_arith s3 s2 s1 s0 :
  0 <= s3 < 64 -> 0 <= s2 < 64 -> 0 <= s1 < 64 -> 0 <= s0 < 64 ->
  Base64url.regroup s3 s2 s1 s0 = s3 * 262144 + s2 * 4096 + s1 * 64 + s0.
Proof.
  intros H3 H2 H1 H0. unfold Base64url.regroup.
  rewrite !Z.shiftl_mul_pow2 by lia.
  change (2 ^ 18) with 262144. change (2 ^ 12) with 4096. change (2 ^ 6) with 64.
  rewrite (lor_small (s3 * 262144) (s2 * 4096) 18);
    [|lia|change (2^18) with 262144; Z.to_euclidean_division_equations; lia
     |change (2^18) with 262144; lia].
  rewrite (lor_small _ (s1 * 64) 12);
    [|lia|change (2^12) with 4096; Z.to_euclidean_division_equations; lia
     |change (2^12) with 4096; lia].
  rewrite (lor_small _ s0 6);
    [|lia|change (2^6) with 64; Z.to_euclidean_division_equations; lia
     |change (2^6) with 64; lia].
  reflexivity.
Qed.

Lemma regroup_sextets g :
  0 <= g < 16777216 ->
  Base64url.regroup (Base64.sextet g 3) (Base64.sextet g 2)
    (Base64.sextet g 1) (Base64.sextet g 0) = g.
Proof.
  intros Hg. rewrite !sextet_arith by lia.
  change (2 ^ (6 * 3)) with 262144. change (2 ^ (6 * 2)) with 4096.
  change (2 ^ (6 * 1)) with 64. change (2 ^ (6 * 0)) with 1.
  rewrite regroup_arith by (apply Z.mod_pos_bound; lia).
  Z.to_euclidean_division_equations. lia.
Qed.

Lemma group_arith a b c :
  0 <= a < 256 -> 0 <= b < 256 -> 0 <= c < 256 ->
  Z.lor (Z.lor (Z.shiftl a 16) (Z.shiftl b 8)) c = a * 65536 + b * 256 + c.
Proof.
  intros Ha Hb Hc. rewrite !Z.shiftl_mul_pow2 by lia.
  change (2 ^ 16) with 65536. change (2 ^ 8) with 256.
  rewrite (lor_small (a * 65536) (b * 256) 16);
    [|lia|change (2^16) with 65536; Z.to_euclidean_division_equations; lia
     |change (2^16) with 65536; lia].
  rewrite (lor_small _ c 8);
    [|lia|change (2^8) with 256; Z.to_euclidean_division_equations; lia
     |change (2^8) with 256; lia].
  reflexivity.
Qed.

Lemma byte_range a : 0 <= Base64.byte a < 256.
Proof.
  unfold Base64.byte. pose proof (N_ascii_bounded a). lia.
Qed.

Lemma byteAt_arith g k x :
  0 <= k -> (g / 2 ^ (8 * k)) mod 256 = Base64.byte x ->
  Base64url.byteAt g k = x.
Proof.
  intros Hk E. unfold Base64url.byteAt. rewrite Z.shiftr_div_pow2 by lia.
  change 255 with (Z.ones 8). rewrite Z.land_ones by lia.
  change (2 ^ 8) with 256. rewrite E. unfold Base64.byte.
  rewrite N2Z.id. apply ascii_N_embedding.
Qed.

Lemma index_digit n :
  0 <= n < 64 -> Base64url.index (Base64.digit Base64.urlsafe n) = n
                 /\ urlSafeChar (Base64.digit Base64.urlsafe n) = true.
Proof.
  intros Hn. rewrite <- (Z2Nat.id n) at 2 by lia. unfold Base64.digit.
  apply (below_64 (fun k =>
    Base64url.index (nth k (list_ascii_of_string Base64.urlsafe) Base64.PAD)
    = Z.of_nat k
    /\ urlSafeChar (nth k (list_ascii_of_string Base64.urlsafe) Base64.PAD)
       = true)); [|exact Hn].
  repeat (apply Forall_cons; split; [split; reflexivity|]).
  apply Forall_nil. done.
Qed.

Lemma encodedMessage_base64url raw :
  encodedMessage raw
  = string_of_list_ascii (Base64.base64url (list_ascii_of_string raw)).
Proof. unfold encodedMessage. rewrite urlsafe_encoding. reflexivity. Qed.

Lemma decode_base64url (bytes : list ascii) :
  Base64url.decode (Base64.base64url bytes) = bytes.
Proof.
  unfold Base64.base64url.
  induction bytes as [|a|a b|a b c rest IH] using triples_ind.
  - reflexivity.
  - cbn [Base64.encode Base64.padding app Base64url.decode].
    pose proof (byte_range a) as Ha.
    assert (Z.shiftl (Base64.byte a) 16 = Base64.byte a * 65536) as Eg
      by (rewrite Z.shiftl_mul_pow2 by lia; reflexivity).
    rewrite Eg. set (g := Base64.byte a * 65536).
    rewrite (proj1 (index_digit _ (sextet_range g 3))),
      (proj1 (index_digit _ (sextet_range g 2))).
    rewrite regroup_arith, !sextet_arith
      by (try apply sextet_range; lia).
    change (2 ^ (6 * 3)) with 262144. change (2 ^ (6 * 2)) with 4096.
    f_equal. apply byteAt_arith; [lia|]. change (2 ^ (8 * 2)) with 65536.
    unfold g. Z.to_euclidean_division_equations. lia.
  - cbn [Base64.encode Base64.padding app Base64url.decode].
    pose proof (byte_range a) as Ha. pose proof (byte_range b) as Hb.
    assert (Z.lor (Z.shiftl (Base64.byte a) 16) (Z.shiftl (Base64.byte b) 8)
            = Base64.byte a * 65536 + Base64.byte b * 256) as Eg.
    { rewrite <- (Z.lor_0_r (Z.lor _ _)), group_arith by lia. lia. }
    rewrite Eg. set (g := Base64.byte a * 65536 + Base64.byte b * 256).
    rewrite (proj1 (index_digit _ (sextet_range g 3))),
      (proj1 (index_digit _ (sextet_range g 2))),
      (proj1 (index_digit _ (sextet_range g 1))).
    rewrite regroup_arith, !sextet_arith
      by (try apply sextet_range; lia).
    change (2 ^ (6 * 3)) with 262144. change (2 ^ (6 * 2)) with 4096.
    change (2 ^ (6 * 1)) with 64.
    f_equal; [|f_equal]; (apply byteAt_arith; [lia|]).
    + change (2 ^ (8 * 2)) with 65536.
      unfold g. Z.to_euclidean_division_equations. lia.
    + change (2 ^ (8 * 1)) with 256.
      unfold g. Z.to_euclidean_division_equations. lia.
  - cbn [Base64.encode app Base64url.decode].
    pose proof (byte_range a) as Ha. pose proof (byte_range b) as Hb.
    pose proof (byte_range c) as Hc.
    rewrite group_arith by assumption.
    set (g := Base64.byte a * 65536 + Base64.byte b * 256 + Base64.byte c).
    rewrite (proj1 (index_digit _ (sextet_range g 3))),
      (proj1 (index_digit _ (sextet_range g 2))),
      (proj1 (index_digit _ (sextet_range g 1))),
      (proj1 (index_digit _ (sextet_range g 0))).
    rewrite regroup_sextets by (unfold g; lia).
    rewrite IH.
    f_equal; [|f_equal; [|f_equal]]; (apply byteAt_arith; [lia|]).
    + change (2 ^ (8 * 2)) with 65536.
      unfold g. Z.to_euclidean_division_equations. lia.
    + change (2 ^ (8 * 1)) with 256.
      unfold g. Z.to_euclidean_division_equations. lia.
    + change (2 ^ (8 * 0)) with 1.
      unfold g. Z.to_euclidean_division_equations. lia.
Qed.

(** Decoding the raw member that the route submits gives back the
    message, byte for byte: replacing the two characters and removing the
    padding loses nothing. *)
Theorem encodedMessage_decodes_to_the_message (raw : string) :
  decodedMessage (encodedMessage raw) = raw.
Proof.
  unfold decodedMessage. rewrite encodedMessage_base64url.
  rewrite list_ascii_of_string_of_list_ascii, decode_base64url.
  apply string_of_list_ascii_of_string.
Qed.

Lemma base64url_chars (bytes : list ascii) :
  forallb urlSafeChar (Base64.base64url bytes) = true.
Proof.
  unfold Base64.base64url.
  induction bytes as [|a|a b|a b c rest IH] using triples_ind;
    cbn [Base64.encode Base64.padding app forallb];
    rewrite ?(proj2 (index_digit _ (sextet_range _ _))), ?IH; reflexivity.
Qed.

(** The raw member is made of letters, digits, [-] and [_] only: it
    holds no [+], no [/] and no [=]. *)
Theorem encodedMessage_is_url_safe (raw : string) :
  forallb urlSafeChar (list_ascii_of_string (encodedMessage raw)) = true
  /\ forallb (fun c => negb (Zod.oneOf "+/=" c))
       (list_ascii_of_string (encodedMessage raw)) = true.
Proof.
  rewrite encodedMessage_base64url, list_ascii_of_string_of_list_ascii.
  pose proof (base64url_chars (list_ascii_of_string raw)) as H.
  split; [exact H|].
  rewrite forallb_forall in *. intros c Hc. specialize (H c Hc).
  destruct (Zod.oneOf "+/=" c) eqn:E; [|reflexivity].
  unfold Zod.oneOf in E. cbn in E.
  rewrite !orb_true_iff in E. rewrite !Ascii.eqb_eq in E.
  destruct E as [->|[->|[->|E]]]; try discriminate E;
    vm_compute in H; discriminate H.
Qed.

Lemma base64url_length (bytes : list ascii) :
  length (Base64.base64url bytes) = ((4 * length bytes + 2) / 3)%nat.
Proof.
  unfold Base64.base64url.
  induction bytes as [|a|a b|a b c rest IH] using triples_ind;
    try reflexivity.
  cbn [Base64.encode app length]. rewrite IH.
  replace (4 * S (S (S (length rest))) + 2)%nat
    with (4 * length rest + 2 + 4 * 3)%nat by lia.
  rewrite Nat.div_add by lia. lia.
Qed.

Lemma list_ascii_length s : length (list_ascii_of_string s) = String.length s.
Proof. induction s as [|c s IH]; [reflexivity | cbn; rewrite IH; reflexivity]. Qed.

(** A message of [n] bytes is submitted as [(4 n + 2) / 3] characters
    (rounded down): four characters for every three bytes, two or three
    for what is left, and no padding. *)
Theorem encodedMessage_length (raw : string) :
  String.length (encodedMessage raw)
  = ((4 * String.length raw + 2) / 3)%nat.
Proof.
  rewrite <- !list_ascii_length, encodedMessage_base64url.
  rewrite list_ascii_of_string_of_list_ascii. apply base64url_length.
Qed.

(** *** The control panel: what the form submits *)

Lemma payloadEntry_converted js acc key value :
  payloadEntry js acc (key, value)
  = match converted js key value with
    | Some v => <[key := v]> acc
    | None => acc
    end.
Proof.
  unfold converted, payloadEntry.
  destruct value as [b|n|s]; rewrite ?lookup_insert_eq; try reflexivity.
  cbn zeta.
  repeat match goal with
         | |- context [if ?c then _ else _] => destruct c
         | |- context [match toNumber js ?t with _ => _ end] =>
             destruct (toNumber js t)
         end;
    rewrite ?lookup_insert_eq, ?lookup_empty; reflexivity.
Qed.

Lemma length_zero_empty s : (String.length s =? 0)%nat = false -> s <> EmptyString.
Proof. intros H ->. discriminate H. Qed.

Lemma converted_submittable js key value v :
  converted js key value = Some v -> submittable v.
Proof.
  unfold converted, payloadEntry.
  destruct value as [b|n|s].
  - rewrite lookup_insert_eq. intros [= <-]. exact I.
  - rewrite lookup_insert_eq. intros [= <-]. exact I.
  - cbn zeta.
    destruct (String.length (trim js s) =? 0)%nat eqn:Hlen;
      [rewrite lookup_empty; discriminate|].
    apply length_zero_empty in Hlen.
    destruct (String.eqb_spec (trim js s) "true") as [|Ht];
      [rewrite lookup_insert_eq; intros [= <-]; exact I|].
    destruct (String.eqb_spec (trim js s) "false") as [|Hf];
      [rewrite lookup_insert_eq; intros [= <-]; exact I|].
    destruct (String.eqb key "labelIds").
    + set (labels := List.filter _ _).
      destruct (0 <? length labels)%nat eqn:Hn;
        [|rewrite lookup_empty; discriminate].
      rewrite lookup_insert_eq. intros [= <-]. cbn. split.
      * destruct labels; [discriminate Hn | discriminate].
      * intros x Hx. apply in_map_iff in Hx as (l & <- & Hl).
        exists l. split; [reflexivity|].
        apply filter_In in Hl as [_ Hl]. intros ->. discriminate Hl.
    + destruct (toNumber js (trim js s)) as [n|];
        [destruct (String.eqb (trim js s) (numberToString js n))|];
        rewrite lookup_insert_eq; intros [= <-]; cbn; auto.
Qed.

Lemma submittedPayload_snoc js formState entry :
  submittedPayload js (formState ++ [entry])
  = payloadEntry js (submittedPayload js formState) entry.
Proof. unfold submittedPayload. rewrite foldl_app. reflexivity. Qed.

Lemma submittedPayload_invariant js formState k v :
  submittedPayload js formState !! k = Some v ->
  In k (map fst formState) /\ submittable v.
Proof.
  revert k v. induction formState as [|[key value] form IH] using rev_ind;
    intros k v.
  - unfold submittedPayload. cbn. rewrite lookup_empty. discriminate.
  - rewrite submittedPayload_snoc, payloadEntry_converted, map_app, in_app_iff.
    destruct (converted js key value) as [c|] eqn:Hc.
    + destruct (decide (key = k)) as [->|Hne].
      * rewrite lookup_insert_eq. intros [= <-].
        split; [right; left; reflexivity|].
        apply (converted_submittable js k value c Hc).
      * rewrite lookup_insert_ne by exact Hne. intros H.
        destruct (IH k v H). auto.
    + intros H. destruct (IH k v H). auto.
Qed.

(** Every member the route receives from the page comes from a field of
    the form and is a boolean, a number, a string that is neither empty
    nor [true] nor [false], or a non-empty array of non-empty strings; or
    it is [null], which stands for an infinite number.  The page never
    sends an empty string or an object. *)
Theorem submitted_members_are_never_blank
    (js : Builtins) (formState : list (string * formValue))
    (k : string) (v : json) :
  (overTheWire <$> submittedPayload js formState) !! k = Some v ->
  In k (map fst formState)
  /\ (submittable v
      \/ (v = JNull
          /\ exists negative,
               submittedPayload js formState !! k
               = Some (JNum (Infinite negative)))).
Proof.
  rewrite lookup_fmap.
  destruct (submittedPayload js formState !! k) as [m|] eqn:Hm; [|discriminate].
  destruct (submittedPayload_invariant js formState k m Hm) as [Hk Hv].
  cbn. intros [= <-]. split; [exact Hk|].
  destruct m as [| |[q|negative]| | |]; cbn; auto.
  right. split; [reflexivity|]. exists negative. reflexivity.
Qed.

Lemma submittedPayload_lookup js formState k value :
  NoDup (map fst formState) -> In (k, value) formState ->
  submittedPayload js formState !! k = converted js k value.
Proof.
  induction formState as [|[key val] form IH] using rev_ind; [intros _ []|].
  rewrite map_app, in_app_iff. cbn [map fst In].
  intros Hnd Hin. apply NoDup_app in Hnd as (Hnd & Hfresh & _).
  rewrite submittedPayload_snoc, payloadEntry_converted.
  destruct Hin as [Hin|[[= -> ->]|[]]].
  - assert (key <> k) as Hne.
    { intros ->. apply (Hfresh k); [|left; reflexivity].
      apply list_elem_of_In, in_map_iff. exists (k, value). auto. }
    destruct (converted js key val);
      [rewrite lookup_insert_ne by exact Hne|]; apply IH; assumption.
  - destruct (converted js k value) as [c|] eqn:Hc;
      [apply lookup_insert_eq|].
    destruct (submittedPayload js form !! k) as [v|] eqn:Hv; [|reflexivity].
    apply submittedPayload_invariant in Hv as [Hk _].
    destruct (Hfresh k); [apply list_elem_of_In, Hk | left; reflexivity].
Qed.

(** In a form whose fields have distinct names, the member submitted for
    a field depends on that field alone; a text field that is blank once
    trimmed is left out of the payload, whatever it held before, and a
    boolean or a number is submitted as it is. *)
Theorem submitted_member_of_a_field
    (js : Builtins) (formState : list (string * formValue))
    (k : string) (value : formValue) :
  NoDup (map fst formState) -> In (k, value) formState ->
  submittedPayload js formState !! k = converted js k value
  /\ (forall s, value = FormString s -> trim js s = EmptyString ->
                submittedPayload js formState !! k = None)
  /\ (forall b, value = FormBoolean b ->
                submittedPayload js formState !! k = Some (JBool b))
  /\ (forall n, value = FormNumber n ->
                submittedPayload js formState !! k = Some (JNum n)).
Proof.
  intros Hnd Hin.
  rewrite (submittedPayload_lookup js formState k value Hnd Hin).
  split; [reflexivity|]. unfold converted, payloadEntry.
  split; [|split]; intros x ->.
  - intros ->. reflexivity.
  - apply lookup_insert_eq.
  - apply lookup_insert_eq.
Qed.

(** *** The control panel: the fields of the form *)

Lemma setMember_keys key value prev :
  In key (map fst prev) ->
  map fst (setMember key value prev) = map fst prev.
Proof.
  induction prev as [|[k v] rest IH]; [intros []|].
  cbn [setMember map fst In].
  destruct (String.eqb_spec k key) as [->|Hne]; [reflexivity|].
  intros [E|Hin]; [contradiction|]. cbn [map fst]. rewrite IH by exact Hin.
  reflexivity.
Qed.

Lemma DEFAULT_PAYLOADS_NoDup action : NoDup (map fst (DEFAULT_PAYLOADS action)).
Proof.
  unfold DEFAULT_PAYLOADS.
  repeat match goal with
         | |- context [if ?c then _ else _] => destruct c
         end;
    cbn [map fst];
    repeat (apply NoDup_cons_2;
            [rewrite list_elem_of_In; cbn; intros H;
             repeat (destruct H as [H|H]; [discriminate H|]); exact H|]);
    apply NoDup_nil_2.
Qed.

(** Whatever is typed into the form, its fields stay those of the
    defaults of the active action, in the same order and each once:
    editing replaces the value of a field and nothing else. *)
Theorem form_fields_are_those_of_the_action
    (action : string) (formState : list (string * formValue)) :
  formStateOf action formState ->
  map fst formState = map fst (DEFAULT_PAYLOADS action)
  /\ NoDup (map fst formState).
Proof.
  intros H.
  assert (map fst formState = map fst (DEFAULT_PAYLOADS action)) as E.
  { induction H as [|state key value _ IH Hin]; [reflexivity|].
    unfold handleChange. rewrite setMember_keys by exact Hin. exact IH. }
  split; [exact E|]. rewrite E. apply DEFAULT_PAYLOADS_NoDup.
Qed.

(** *** The control panel and the route together *)

Lemma submittedBody_request js a formState :
  is_request (submittedBody js a formState) a
    (Some (overTheWire <$> submittedPayload js formState)).
Proof.
  unfold is_request, submittedBody. split.
  - apply lookup_insert_eq.
  - rewrite lookup_insert_ne by discriminate. apply lookup_insert_eq.
Qed.

Lemma wire_lookup_string (m : gmap string json) k s :
  (overTheWire <$> m) !! k = Some (JStr s) -> m !! k = Some (JStr s).
Proof.
  rewrite lookup_fmap. destruct (m !! k) as [[| |[q|neg]| | |]|];
    cbn; congruence.
Qed.


Lemma submitted_string_not_empty js formState k s :
  (overTheWire <$> submittedPayload js formState) !! k = Some (JStr s) ->
  truthy (Some s) = true.
Proof.
  intros H. apply wire_lookup_string, submittedPayload_invariant in H as [_ [Hs _]].
  destruct s; [contradiction | reflexivity].
Qed.

(** For a notion.listPages request that the form submits, the filter
    rule holds as it reads, since the form sends no empty string.  If the
    payload has a [filterProperty] string and no [filterValue] (the page
    size being fine), the answer is status 400 with the issue on
    [filterValue], and nothing is called; if it has both as strings (the
    document service being configured), the one query that is issued
    matches [filterValue] with "contains" on that property. *)
Theorem panel_filter_rule
    (js : Builtins) (w : World) (formState : list (string * formValue))
    (fp : string) :
  let p := overTheWire <$> submittedPayload js formState in
  let body := JObj (submittedBody js "notion.listPages" formState) in
  p !! "filterProperty" = Some (JStr fp) ->
  Zod.is_ok (sizeSchema (p !! "pageSize")) = true ->
  (p !! "filterValue" = None ->
     POST emailPattern w (inr body)
     = ({| status := 400;
           envelope := ErrorEnvelope (Issues [filterValueMissing]) |}, []))
  /\ (forall fv env,
        p !! "filterValue" = Some (JStr fv) ->
        notion_configured w env ->
        (POST emailPattern w (inr body)).2
        = [NotionClient (NOTION_API_KEY env);
           DataSourcesQuery (NOTION_DATA_SOURCE_ID env)
             (requestedSize (p !! "pageSize"))
             (Some {| property := fp; contains := fv |})]).
Proof.
  intros p body Hfp Hs.
  pose proof (submitted_string_not_empty js formState _ _ Hfp) as Tfp.
  unfold body.
  rewrite (POST_listPages emailPattern w _ _
             (submittedBody_request js "notion.listPages" formState)).
  fold p. change (JObj <$> Some p) with (Some (JObj p)).
  split.
  - intros Hfv.
    pose proof (listPages_parsed p (Some fp) None Hs Hfp Hfv) as Hparse.
    cbn zeta in Hparse. unfold filterComplete in Hparse at 1.
    cbn [filterProperty filterValue] in Hparse.
    rewrite Tfp in Hparse. cbn [negb orb andb truthy] in Hparse.
    unfold handleListPages.
    rewrite (respond_invalid _ _ _ _ Hparse). reflexivity.
  - intros fv env Hfv Henv.
    pose proof (submitted_string_not_empty js formState _ _ Hfv) as Tfv.
    pose proof (listPages_parsed p (Some fp) (Some fv) Hs Hfp Hfv) as Hparse.
    cbn zeta in Hparse. unfold filterComplete in Hparse at 1.
    cbn [filterProperty filterValue] in Hparse.
    rewrite Tfp, Tfv in Hparse. cbn [negb orb andb] in Hparse.
    rewrite respond_log.
    rewrite (handleListPages_run w (Some (JObj p)) _ env [] Hparse Henv).
    cbn [snd pageSize app]. unfold pageFilter.
    cbn [filterProperty filterValue]. rewrite Tfp, Tfv. reflexivity.
Qed.

Lemma items_strings labels i :
  Zod.items Zod.string_ i (JStr <$> labels) = Zod.ok labels.
Proof.
  revert i. induction labels as [|l labels IH]; intros i; [reflexivity|].
  cbn [fmap list_fmap Zod.items]. rewrite IH. reflexivity.
Qed.



(** A form with distinct field names in which a field that the action
    requires is blank once trimmed: the member is not submitted, so the
    route answers with status 400 and an issue on that member, and calls
    nothing.  A send form without a recipient never reaches the mail
    service. *)
Theorem panel_blank_required_field
    (js : Builtins) (w : World) (formState : list (string * formValue))
    (a f s : string) :
  In a actions -> In f (required a) ->
  NoDup (map fst formState) -> In (f, FormString s) formState ->
  trim js s = EmptyString ->
  let body := JObj (submittedBody js a formState) in
  status (POST emailPattern w (inr body)).1 = 400
  /\ reports (POST emailPattern w (inr body)).1 f
  /\ (POST emailPattern w (inr body)).2 = [].
Proof.
  intros Ha Hf Hnd Hin Hblank body. unfold body.
  pose proof (submittedBody_request js a formState) as Hreq.
  set (p := overTheWire <$> submittedPayload js formState) in *.
  assert (p !! f = None) as Hp.
  { unfold p. rewrite lookup_fmap.
    rewrite (submittedPayload_lookup js formState f _ Hnd Hin).
    unfold converted, payloadEntry. rewrite Hblank. reflexivity. }
  destruct Ha as [<-|[<-|[<-|[<-|[]]]]]; try (destruct Hf; fail).
  - destruct (sendMessage_reports emailPattern p f Hf Hp)
      as (i & (errs & He & Hi) & Hpath).
    rewrite (POST_sendMessage emailPattern w _ _ Hreq). unfold handleSendMessage.
    rewrite (respond_invalid _ _ _ errs He).
    split; [reflexivity|]. split; [|reflexivity]. exists errs, i. auto.
  - destruct (createPage_reports p f Hf Hp) as (i & (errs & He & Hi) & Hpath).
    rewrite (POST_createPage emailPattern w _ _ Hreq). unfold handleCreatePage.
    rewrite (respond_invalid _ _ _ errs He).
    split; [reflexivity|]. split; [|reflexivity]. exists errs, i. auto.
Qed.

(** *** A validation answer has no side effect *)

Lemma details_thrown w listing log e :
  (promise_all (map (messageDetail w) listing) log).1 = inl e ->
  exists id, messages_get w id = inl e.
Proof.
  revert log. induction listing as [|m listing IH]; intros log; [discriminate|].
  cbn [map promise_all].
  pose proof (messageDetail_spec w m log) as Hnone.
  destruct (if truthy (msg_id m) then msg_id m else None) as [i|] eqn:Hi.
  - clear Hnone. destruct (messageDetail_get w m log i Hi) as [render ->].
    specialize (IH (log ++ [MessagesGet i])).
    destruct (promise_all _ _) as [rs log2]. cbn [fst] in *.
    destruct (messages_get w i) as [e'|data] eqn:Hget.
    + intros [= <-]. eauto.
    + destruct rs as [e'|l]; [intros [= <-]; apply IH; reflexivity|discriminate].
  - rewrite Hnone. specialize (IH log).
    destruct (promise_all _ _) as [rs log2]. cbn [fst] in *.
    destruct rs as [e'|l]; [intros [= <-]; apply IH; reflexivity|discriminate].
Qed.

Lemma respond_not_400 (m : Eff json) :
  (forall errs, (m []).1 <> inl (ZodError errs)) ->
  status (respond ((value ← m;
            mret {| status := 200; envelope := Data value |}) [])).1 <> 400.
Proof.
  unfold mbind, Eff_bind, bind, mret, Eff_ret, ret, respond.
  destruct (m []) as [[[errs| |]|j] log]; cbn; intros H; try discriminate.
  destruct (H errs eq_refl).
Qed.

(** In a world whose services throw no [ZodError] of their own, an answer
    with status 400 means that nothing was called, not even a client
    constructor: a request that is refused as invalid has had no effect. *)
Theorem validation_answer_means_no_call
    (w : World) (requestBody : thrown + json) :
  services_throw_no_ZodError w ->
  status (POST emailPattern w requestBody).1 = 400 ->
  (POST emailPattern w requestBody).2 = [].
Proof.
  intros (Hlist & Hget & Hsend & Hquery & Hcreate) Hstatus.
  destruct ((POST emailPattern w requestBody).2) as [|c log] eqn:Hlog;
    [reflexivity|exfalso].
  assert ((POST emailPattern w requestBody).2 <> []) as Hne
    by (rewrite Hlog; discriminate).
  clear Hlog.
  destruct requestBody as [e|body]; [destruct e; contradiction|].
  destruct body as [| | | | |o]; try contradiction.
  destruct (requestSchema (Some (JObj o))) as [parsed|errs] eqn:Hs.
  2:{ rewrite (POST_rejected emailPattern w o errs Hs) in Hne. contradiction. }
  pose proof (requestSchema_action _ _ Hs) as Hin.
  pose proof (requestSchema_inv _ _ Hs) as Hreq.
  destruct parsed as [a p]. cbn [action payload] in *.
  destruct Hin as [<-|[<-|[<-|[<-|[]]]]].
  - rewrite (POST_listMessages emailPattern w o p Hreq) in Hstatus, Hne.
    rewrite respond_log in Hne. pose proof Hne as Hc.
    apply gmail_handler_called in Hc as [Hacc [env Henv]].
    apply accepted_parsed in Hacc as [parsed Hv].
    revert Hstatus. apply respond_not_400. intros errs.
    rewrite (handleListMessages_unfold w _ parsed env [] Hv (gmailEnv_ok _ _ Henv)).
    cbn zeta.
    destruct (messages_list w _ _ _) as [e|response] eqn:Hl.
    + cbn. intros [= ->]. apply (Hlist _ _ _ _ Hl).
    + pose proof (details_thrown w (response ?? [])
        ([] ++ [GmailClient (GOOGLE_CLIENT_ID env) (GOOGLE_CLIENT_SECRET env)
                  (GOOGLE_REDIRECT_URI env) (GOOGLE_REFRESH_TOKEN env);
                MessagesList
                  (maxResults (parsed ?? Build_ListMessagesParams None None None)
                     ?? Finite 10)
                  (labelIds (parsed ?? Build_ListMessagesParams None None None))
                  (includeSpamTrash
                     (parsed ?? Build_ListMessagesParams None None None))]))
        as Hd.
      destruct (promise_all _ _) as [[e|ds] log2]; cbn; [|discriminate].
      intros [= ->]. destruct (Hd _ eq_refl) as [id Hid].
      apply (Hget _ _ Hid).
  - rewrite (POST_sendMessage emailPattern w o p Hreq) in Hstatus, Hne.
    rewrite respond_log in Hne. pose proof Hne as Hc.
    apply gmail_handler_called in Hc as [Hacc [env Henv]].
    apply accepted_parsed in Hacc as [params Hv].
    revert Hstatus. apply respond_not_400. intros errs.
    rewrite (handleSendMessage_run emailPattern w _ params env [] Hv Henv).
    destruct (messages_send w _) as [e|r] eqn:Hr; cbn; [|discriminate].
    intros [= ->]. apply (Hsend _ _ Hr).
  - rewrite (POST_listPages emailPattern w o p Hreq) in Hstatus, Hne.
    rewrite respond_log in Hne. pose proof Hne as Hc.
    apply notion_handler_called in Hc as [Hacc [env Henv]].
    apply accepted_parsed in Hacc as [params Hv].
    revert Hstatus. apply respond_not_400. intros errs.
    rewrite (handleListPages_run w _ params env [] Hv Henv). cbn zeta.
    destruct (dataSources_query w _ _ _) as [e|r] eqn:Hr; cbn; [|discriminate].
    intros [= ->]. apply (Hquery _ _ _ _ Hr).
  - rewrite (POST_createPage emailPattern w o p Hreq) in Hstatus, Hne.
    rewrite respond_log in Hne. pose proof Hne as Hc.
    apply notion_handler_called in Hc as [Hacc [env Henv]].
    apply accepted_parsed in Hacc as [params Hv].
    revert Hstatus. apply respond_not_400. intros errs.
    rewrite (handleCreatePage_run w _ params env [] Hv Henv).
    destruct (pages_create w _ _ _) as [e|r] eqn:Hr; cbn; [|discriminate].
    intros [= ->]. apply (Hcreate _ _ _ _ Hr).
Qed.

(** *** What the listing call is given *)

Lemma listMessages_valid (p : gmap string json) labels spam :
  Zod.is_ok (sizeSchema (p !! "maxResults")) = true ->
  p !! "labelIds" = (fun ls : list string => JArr (JStr <$> ls)) <$> labels ->
  p !! "includeSpamTrash" = JBool <$> spam ->
  listMessagesSchema (Some (JObj p))
  = Zod.ok (Some {| maxResults := numberOf (p !! "maxResults");
                    labelIds := labels; includeSpamTrash := spam |}).
Proof.
  intros Hs Hl Hb. unfold listMessagesSchema, Zod.optional, Zod.object.
  unfold Zod.field. rewrite (sizeSchema_ok _ Hs), Hl, Hb.
  destruct labels as [ls|], spam as [b|];
    cbn [fmap option_fmap option_map Zod.array Zod.boolean];
    rewrite ?items_strings; reflexivity.
Qed.

(** A listMessages payload with a valid size, [labelIds] an array of
    strings (or left out) and [includeSpamTrash] a boolean (or left out),
    the mail service being configured: the first call after the client is
    the listing call, and it is given the labels and the flag exactly as
    the payload has them (nothing when they are left out), with the
    requested size. *)
Theorem listMessages_passes_its_options
    (w : World) (o p : gmap string json) (env : GmailEnv)
    (labels : option (list string)) (spam : option bool) :
  is_request o "gmail.listMessages" (Some p) ->
  Zod.is_ok (sizeSchema (p !! "maxResults")) = true ->
  p !! "labelIds" = (fun ls : list string => JArr (JStr <$> ls)) <$> labels ->
  p !! "includeSpamTrash" = JBool <$> spam ->
  gmail_configured w env ->
  exists details,
    (POST emailPattern w (inr (JObj o))).2
    = [GmailClient (GOOGLE_CLIENT_ID env) (GOOGLE_CLIENT_SECRET env)
         (GOOGLE_REDIRECT_URI env) (GOOGLE_REFRESH_TOKEN env);
       MessagesList (requestedSize (p !! "maxResults")) labels spam]
      ++ map MessagesGet details.
Proof.
  intros Hreq Hs Hl Hb Henv.
  rewrite (POST_listMessages emailPattern w o _ Hreq), respond_log.
  change (JObj <$> Some p) with (Some (JObj p)).
  rewrite (handleListMessages_unfold w _ _ env []
             (listMessages_valid p labels spam Hs Hl Hb) (gmailEnv_ok _ _ Henv)).
  cbn [nullish maxResults labelIds includeSpamTrash].
  fold (requestedSize (p !! "maxResults")).
  destruct (messages_list w _ labels spam) as [e|response].
  - exists []. reflexivity.
  - pose proof (details_spec w (response ?? [])
      ([] ++ [GmailClient (GOOGLE_CLIENT_ID env) (GOOGLE_CLIENT_SECRET env)
                (GOOGLE_REDIRECT_URI env) (GOOGLE_REFRESH_TOKEN env);
              MessagesList (requestedSize (p !! "maxResults")) labels spam]))
      as Hd.
    destruct (promise_all _ _) as [r log2]. destruct Hd as [-> _].
    exists (identified (response ?? [])). reflexivity.
Qed.

(** *** Bodies that are no request *)

(** A body that cannot be parsed as JSON is answered with status 500 and
    the message of the parser's error, not with status 400; a body that
    is JSON but not an object is answered with status 400 and one issue on
    the body as a whole.  Neither calls anything nor depends on the world. *)
Theorem body_that_is_no_request (w : World) :
  (forall m,
     POST emailPattern w (inl (Error m))
     = ({| status := 500; envelope := ErrorEnvelope (Text m) |}, []))
  /\ (forall body,
        (forall o, body <> JObj o) ->
        POST emailPattern w (inr body)
        = ({| status := 400;
              envelope :=
                ErrorEnvelope (Issues [Zod.Issue Zod.invalid_type []]) |}, [])).
Proof.
  split; [reflexivity|].
  intros body H. destruct body as [| | | | |o]; try reflexivity.
  destruct (H o eq_refl).
Qed.

End Further.

(** ** The further properties on the scenarios *)

Lemma calls_only_after_validation_witness :
  (POST Zod.emailRegex (Sample.world Sample.env)
     (inr (JObj (Sample.request "gmail.sendMessage" (Some Sample.mail))))).2 <> []
  /\ exists o a p,
       inr (JObj (Sample.request "gmail.sendMessage" (Some Sample.mail)))
       = inr (JObj o) :> thrown + json
       /\ is_request o a p /\ In a actions
       /\ payloadAccepted Zod.emailRegex a p = true
       /\ serviceConfigured (Sample.world Sample.env) a.
Proof.
  assert ((POST Zod.emailRegex (Sample.world Sample.env)
             (inr (JObj (Sample.request "gmail.sendMessage" (Some Sample.mail))))).2
          <> []) as H by (vm_compute; discriminate).
  split; [exact H|].
  apply (calls_only_after_validation Zod.emailRegex _ _ H).
Defined.

Lemma external_failure_is_surfaced_witness :
  is_request (Sample.request "notion.createPage" (Some Sample.newPage))
    "notion.createPage" (Some Sample.newPage)
  /\ In "notion.createPage" actions
  /\ payloadAccepted Zod.emailRegex "notion.createPage" (Some Sample.newPage) = true
  /\ serviceConfigured Scenario.offline "notion.createPage"
  /\ rejects_all Scenario.offline Scenario.unavailable
  /\ (forall errs, Scenario.unavailable <> ZodError errs)
  /\ status (POST Zod.emailRegex Scenario.offline
               (inr (JObj (Sample.request "notion.createPage"
                             (Some Sample.newPage))))).1 = 500
  /\ envelope (POST Zod.emailRegex Scenario.offline
                 (inr (JObj (Sample.request "notion.createPage"
                               (Some Sample.newPage))))).1
     = ErrorEnvelope (Text "service unavailable").
Proof.
  assert (is_request (Sample.request "notion.createPage" (Some Sample.newPage))
            "notion.createPage" (Some Sample.newPage)) as H1
    by (split; reflexivity).
  assert (In "notion.createPage" actions) as H2 by (simpl; tauto).
  assert (payloadAccepted Zod.emailRegex "notion.createPage"
            (Some Sample.newPage) = true) as H3 by reflexivity.
  assert (serviceConfigured Scenario.offline "notion.createPage") as H4.
  { exists Sample.notionEnv. repeat split; (reflexivity || discriminate). }
  assert (rejects_all Scenario.offline Scenario.unavailable) as H5
    by (repeat split; intros; reflexivity).
  assert (forall errs, Scenario.unavailable <> ZodError errs) as H6
    by (intros errs; discriminate).
  repeat (split; [assumption|]).
  apply (external_failure_is_surfaced Zod.emailRegex Scenario.offline
           _ _ _ _ H1 H2 H3 H4 H5 H6).
Defined.

Lemma gmail_configuration_error_witness :
  is_request (Sample.request "gmail.sendMessage" (Some Sample.mail))
    "gmail.sendMessage" (Some Sample.mail)
  /\ payloadAccepted Zod.emailRegex "gmail.sendMessage" (Some Sample.mail) = true
  /\ variable_unset
       (Sample.world (<["GOOGLE_CLIENT_SECRET" := EmptyString]> Sample.env))
       "GOOGLE_CLIENT_SECRET"
  /\ POST Zod.emailRegex
       (Sample.world (<["GOOGLE_CLIENT_SECRET" := EmptyString]> Sample.env))
       (inr (JObj (Sample.request "gmail.sendMessage" (Some Sample.mail))))
     = ({| status := 500; envelope := ErrorEnvelope (Text gmailEnvMissing) |}, []).
Proof.
  assert (is_request (Sample.request "gmail.sendMessage" (Some Sample.mail))
            "gmail.sendMessage" (Some Sample.mail)) as H1
    by (split; reflexivity).
  assert (payloadAccepted Zod.emailRegex "gmail.sendMessage"
            (Some Sample.mail) = true) as H2 by reflexivity.
  assert (variable_unset
            (Sample.world (<["GOOGLE_CLIENT_SECRET" := EmptyString]> Sample.env))
            "GOOGLE_CLIENT_SECRET") as H3 by (right; reflexivity).
  repeat (split; [assumption|]).
  apply (gmail_configuration_error Zod.emailRegex _ _ _ "gmail.sendMessage"
           "GOOGLE_CLIENT_SECRET" H1 (or_intror eq_refl) H2);
    [simpl; tauto | exact H3].
Defined.

Lemma createPage_creates_one_page_witness :
  is_request (Sample.request "notion.createPage" (Some Sample.newPage))
    "notion.createPage" (Some Sample.newPage)
  /\ notion_configured (Sample.world Sample.env) Sample.notionEnv
  /\ POST Zod.emailRegex (Sample.world Sample.env)
       (inr (JObj (Sample.request "notion.createPage" (Some Sample.newPage))))
     = ({| status := 200;
           envelope :=
             Data (obj [("pageId", str "p9");
                        ("url", str "https://notion.so/p9")]) |},
        [NotionClient "key"; PagesCreate "db" "Notes" "First line"]).
Proof.
  assert (is_request (Sample.request "notion.createPage" (Some Sample.newPage))
            "notion.createPage" (Some Sample.newPage)) as H1
    by (split; reflexivity).
  assert (notion_configured (Sample.world Sample.env) Sample.notionEnv) as H2
    by (repeat split; (reflexivity || discriminate)).
  repeat (split; [assumption|]).
  apply (createPage_creates_one_page Zod.emailRegex (Sample.world Sample.env)
           _ Sample.newPage Sample.notionEnv "Notes" "First line"
           {| created_id := "p9"; created_url := Some "https://notion.so/p9" |}
           H1 eq_refl ltac:(discriminate) eq_refl ltac:(discriminate) H2 eq_refl).
Defined.

Lemma listPages_returns_the_full_pages_witness :
  is_request (Sample.request "notion.listPages" None) "notion.listPages" None
  /\ payloadAccepted Zod.emailRegex "notion.listPages" None = true
  /\ notion_configured (Sample.world Sample.env) Sample.notionEnv
  /\ (forall size filter,
        dataSources_query (Sample.world Sample.env) "ds" size filter
        = inr Scenario.items)
  /\ exists pages,
       (POST Zod.emailRegex (Sample.world Sample.env)
          (inr (JObj (Sample.request "notion.listPages" None)))).1
       = {| status := 200;
            envelope := Data (obj [("pages", Some (JArr pages))]) |}
       /\ map itemId pages = [Some "p1"]
       /\ (length pages <= 2)%nat.
Proof.
  assert (is_request (Sample.request "notion.listPages" None)
            "notion.listPages" None) as H1 by (split; reflexivity).
  assert (payloadAccepted Zod.emailRegex "notion.listPages" None = true) as H2
    by reflexivity.
  assert (notion_configured (Sample.world Sample.env) Sample.notionEnv) as H3
    by (repeat split; (reflexivity || discriminate)).
  assert (forall size filter,
            dataSources_query (Sample.world Sample.env) "ds" size filter
            = inr Scenario.items) as H4 by (intros; reflexivity).
  repeat (split; [assumption|]).
  apply (listPages_returns_the_full_pages Zod.emailRegex
           (Sample.world Sample.env) _ None Sample.notionEnv Scenario.items
           H1 H2 H3 H4).
Defined.

Lemma listMessages_fans_out_witness :
  is_request (Sample.request "gmail.listMessages" None) "gmail.listMessages" None
  /\ payloadAccepted Zod.emailRegex "gmail.listMessages" None = true
  /\ gmail_configured (Sample.world Sample.env) Sample.gmailEnv
  /\ (forall n l s,
        messages_list (Sample.world Sample.env) n l s
        = inr (Some Sample.listing))
  /\ (exists labels spam,
        (POST Zod.emailRegex (Sample.world Sample.env)
           (inr (JObj (Sample.request "gmail.listMessages" None)))).2
        = [GmailClient "client" "secret" "http://localhost" "token";
           MessagesList (Finite 10) labels spam;
           MessagesGet "m1"; MessagesGet "m3"])
  /\ (status (POST Zod.emailRegex (Sample.world Sample.env)
                (inr (JObj (Sample.request "gmail.listMessages" None)))).1 = 200
      <-> forall id, In id ["m1"; "m3"] ->
            exists d, messages_get (Sample.world Sample.env) id = inr d).
Proof.
  assert (is_request (Sample.request "gmail.listMessages" None)
            "gmail.listMessages" None) as H1 by (split; reflexivity).
  assert (payloadAccepted Zod.emailRegex "gmail.listMessages" None = true) as H2
    by reflexivity.
  assert (gmail_configured (Sample.world Sample.env) Sample.gmailEnv) as H3
    by (repeat split; (reflexivity || discriminate)).
  assert (forall n l s,
            messages_list (Sample.world Sample.env) n l s
            = inr (Some Sample.listing)) as H4 by (intros; reflexivity).
  repeat (split; [assumption|]).
  apply (listMessages_fans_out Zod.emailRegex (Sample.world Sample.env)
           _ None Sample.gmailEnv (Some Sample.listing) H1 H2 H3 H4).
Defined.

Lemma submitted_members_are_never_blank_witness :
  (overTheWire <$> submittedPayload Scenario.builtins Scenario.filterForm)
    !! "filterProperty" = Some (JStr "Status")
  /\ In "filterProperty" (map fst Scenario.filterForm)
  /\ (submittable (JStr "Status")
      \/ (JStr "Status" = JNull
          /\ exists negative,
               submittedPayload Scenario.builtins Scenario.filterForm
                 !! "filterProperty" = Some (JNum (Infinite negative)))).
Proof.
  assert ((overTheWire <$> submittedPayload Scenario.builtins Scenario.filterForm)
            !! "filterProperty" = Some (JStr "Status")) as H by reflexivity.
  split; [exact H|].
  apply (submitted_members_are_never_blank Scenario.builtins
           Scenario.filterForm "filterProperty" (JStr "Status") H).
Defined.

Lemma submitted_member_of_a_field_witness :
  NoDup (map fst Scenario.filterForm)
  /\ In ("filterValue", FormString EmptyString) Scenario.filterForm
  /\ trim Scenario.builtins EmptyString = EmptyString
  /\ submittedPayload Scenario.builtins Scenario.filterForm !! "filterValue"
     = None.
Proof.
  assert (NoDup (map fst Scenario.filterForm)) as H1.
  { cbn.
    repeat (apply NoDup_cons_2;
            [rewrite list_elem_of_In; cbn; intros H;
             repeat (destruct H as [H|H]; [discriminate H|]); exact H|]).
    apply NoDup_nil_2. }
  assert (In ("filterValue", FormString EmptyString) Scenario.filterForm) as H2
    by (cbn; tauto).
  assert (trim Scenario.builtins EmptyString = EmptyString) as H3 by reflexivity.
  repeat (split; [assumption|]).
  apply (proj1 (proj2 (submitted_member_of_a_field Scenario.builtins
                         Scenario.filterForm "filterValue"
                         (FormString EmptyString) H1 H2))
           EmptyString eq_refl H3).
Defined.

Lemma form_fields_are_those_of_the_action_witness :
  formStateOf "notion.listPages" Scenario.filterForm
  /\ map fst Scenario.filterForm = ["pageSize"; "filterProperty"; "filterValue"]
  /\ NoDup (map fst Scenario.filterForm).
Proof.
  assert (formStateOf "notion.listPages" Scenario.filterForm) as H.
  { apply (form_edited "notion.listPages"
             (handleActionChange "notion.listPages") "filterProperty" " Status ").
    - apply form_defaults.
    - cbn. tauto. }
  split; [exact H|].
  apply (form_fields_are_those_of_the_action "notion.listPages"
           Scenario.filterForm H).
Defined.

Lemma panel_filter_rule_witness :
  (overTheWire <$> submittedPayload Scenario.builtins Scenario.filterForm)
    !! "filterProperty" = Some (JStr "Status")
  /\ Zod.is_ok
       (sizeSchema
          ((overTheWire <$> submittedPayload Scenario.builtins Scenario.filterForm)
             !! "pageSize")) = true
  /\ (overTheWire <$> submittedPayload Scenario.builtins Scenario.filterForm)
       !! "filterValue" = None
  /\ POST Zod.emailRegex (Sample.world Sample.env)
       (inr (JObj (submittedBody Scenario.builtins "notion.listPages"
                     Scenario.filterForm)))
     = ({| status := 400;
           envelope := ErrorEnvelope (Issues [filterValueMissing]) |}, []).
Proof.
  assert ((overTheWire <$> submittedPayload Scenario.builtins Scenario.filterForm)
            !! "filterProperty" = Some (JStr "Status")) as H1 by reflexivity.
  assert (Zod.is_ok
            (sizeSchema
               ((overTheWire <$> submittedPayload Scenario.builtins
                                   Scenario.filterForm) !! "pageSize")) = true)
    as H2 by reflexivity.
  assert ((overTheWire <$> submittedPayload Scenario.builtins Scenario.filterForm)
            !! "filterValue" = None) as H3 by reflexivity.
  repeat (split; [assumption|]).
  apply (proj1 (panel_filter_rule Zod.emailRegex Scenario.builtins
                  (Sample.world Sample.env) Scenario.filterForm "Status" H1 H2)
           H3).
Defined.


Lemma panel_blank_required_field_witness :
  In "gmail.sendMessage" actions
  /\ In "to" (required "gmail.sendMessage")
  /\ NoDup (map fst (DEFAULT_PAYLOADS "gmail.sendMessage"))
  /\ In ("to", FormString EmptyString) (DEFAULT_PAYLOADS "gmail.sendMessage")
  /\ trim Scenario.builtins EmptyString = EmptyString
  /\ status (POST Zod.emailRegex (Sample.world Sample.env)
               (inr (JObj (submittedBody Scenario.builtins "gmail.sendMessage"
                             (DEFAULT_PAYLOADS "gmail.sendMessage"))))).1 = 400
  /\ (POST Zod.emailRegex (Sample.world Sample.env)
        (inr (JObj (submittedBody Scenario.builtins "gmail.sendMessage"
                      (DEFAULT_PAYLOADS "gmail.sendMessage"))))).2 = [].
Proof.
  assert (In "gmail.sendMessage" actions) as H1 by (simpl; tauto).
  assert (In "to" (required "gmail.sendMessage")) as H2 by (simpl; tauto).
  assert (NoDup (map fst (DEFAULT_PAYLOADS "gmail.sendMessage"))) as H3.
  { cbn.
    repeat (apply NoDup_cons_2;
            [rewrite list_elem_of_In; cbn; intros H;
             repeat (destruct H as [H|H]; [discriminate H|]); exact H|]).
    apply NoDup_nil_2. }
  assert (In ("to", FormString EmptyString)
            (DEFAULT_PAYLOADS "gmail.sendMessage")) as H4 by (cbn; tauto).
  assert (trim Scenario.builtins EmptyString = EmptyString) as H5 by reflexivity.
  repeat (split; [assumption|]).
  destruct (panel_blank_required_field Zod.emailRegex Scenario.builtins
              (Sample.world Sample.env) _ "gmail.sendMessage" "to" EmptyString
              H1 H2 H3 H4 H5) as (Hs & _ & Hl).
  split; [exact Hs | exact Hl].
Defined.

Lemma validation_answer_means_no_call_witness :
  services_throw_no_ZodError (Sample.world Sample.env)
  /\ status (POST Zod.emailRegex (Sample.world Sample.env)
               (inr (JObj (Sample.request "gmail.sendMessage"
                             (Some Sample.badRecipient))))).1 = 400
  /\ (POST Zod.emailRegex (Sample.world Sample.env)
        (inr (JObj (Sample.request "gmail.sendMessage"
                      (Some Sample.badRecipient))))).2 = [].
Proof.
  assert (services_throw_no_ZodError (Sample.world Sample.env)) as H1
    by (repeat split; intros; discriminate).
  assert (status (POST Zod.emailRegex (Sample.world Sample.env)
                    (inr (JObj (Sample.request "gmail.sendMessage"
                                  (Some Sample.badRecipient))))).1 = 400) as H2
    by reflexivity.
  repeat (split; [assumption|]).
  apply (validation_answer_means_no_call Zod.emailRegex _ _ H1 H2).
Defined.

Lemma listMessages_passes_its_options_witness :
  is_request
    (Sample.request "gmail.listMessages"
       (Some (Sample.members [("labelIds", JArr [JStr "INBOX"]);
                              ("includeSpamTrash", JBool true)])))
    "gmail.listMessages"
    (Some (Sample.members [("labelIds", JArr [JStr "INBOX"]);
                           ("includeSpamTrash", JBool true)]))
  /\ gmail_configured (Sample.world Sample.env) Sample.gmailEnv
  /\ exists details,
       (POST Zod.emailRegex (Sample.world Sample.env)
          (inr (JObj (Sample.request "gmail.listMessages"
             (Some (Sample.members [("labelIds", JArr [JStr "INBOX"]);
                                    ("includeSpamTrash", JBool true)])))))).2
       = [GmailClient "client" "secret" "http://localhost" "token";
          MessagesList (Finite 10) (Some ["INBOX"]) (Some true)]
         ++ map MessagesGet details.
Proof.
  assert (is_request
            (Sample.request "gmail.listMessages"
               (Some (Sample.members [("labelIds", JArr [JStr "INBOX"]);
                                      ("includeSpamTrash", JBool true)])))
            "gmail.listMessages"
            (Some (Sample.members [("labelIds", JArr [JStr "INBOX"]);
                                   ("includeSpamTrash", JBool true)]))) as H1
    by (split; reflexivity).
  assert (gmail_configured (Sample.world Sample.env) Sample.gmailEnv) as H2
    by (repeat split; (reflexivity || discriminate)).
  repeat (split; [assumption|]).
  apply (listMessages_passes_its_options Zod.emailRegex
           (Sample.world Sample.env) _ _ Sample.gmailEnv
           (Some ["INBOX"]) (Some true) H1 eq_refl eq_refl eq_refl H2).
Defined.

Lemma body_that_is_no_request_witness :
  (forall o, JArr [] <> JObj o)
  /\ POST Zod.emailRegex (Sample.world Sample.env) (inr (JArr []))
     = ({| status := 400;
           envelope :=
             ErrorEnvelope (Issues [Zod.Issue Zod.invalid_type []]) |}, []).
Proof.
  assert (forall o, JArr [] <> JObj o) as H by (intros o; discriminate).
  split; [exact H|].
  apply (proj2 (body_that_is_no_request Zod.emailRegex
                  (Sample.world Sample.env)) (JArr []) H).
Defined.
